(** * Telenet API client: a shallow embedding of [client.py] and [models.py]

    The development follows the Python sources of the integration:

    - [custom_components/telenet/client.py]: the [TelenetClient] class (the
      request dispatcher, the login handshake, product discovery, derived
      sensor synthesis, attribute projection, the per-endpoint fetchers);
    - [custom_components/telenet/models.py]: the [TelenetProduct] dataclass
      and the per-type attribute classes.

    The constants of [const.py] and the helpers of [utils.py] are
    parameters of the development (record [Utils]), and so are floating
    point arithmetic and the wall clock (record [Runtime]).  The HTTP
    transport (the [requests] session) is a parameter too: a deterministic
    handler over an abstract server state (class [Transport]).

    Python values are modelled as they are at run time: JSON trees for
    everything the portal sends, an ordered association list for a [dict],
    [False] (that is [JBool false]) for the soft-failure sentinel, an
    explicit outcome type for exceptions, [continue] and divergence. *)

From Stdlib Require Import ZArith List String Ascii Bool Lia.
From Stdlib Require Import DecimalString.
Import ListNotations.
Open Scope string_scope.
Open Scope Z_scope.

Set Implicit Arguments.
Set Warnings "-register-all".

(* ===================================================================== *)
(** ** Python strings *)
(* ===================================================================== *)

Module PyStr.

(** [sub in s] for two strings (also [s.find(sub) != -1]). *)
Fixpoint contains (sub s : string) : bool :=
  match s with
  | EmptyString => String.eqb sub EmptyString
  | String _ s' => String.prefix sub s || contains sub s'
  end.

(** [s.split(sep, maxsplit)] for a one-character separator. *)
Fixpoint split (sep : ascii) (maxsplit : nat) (s : string) : list string :=
  match s with
  | EmptyString => [EmptyString]
  | String c s' =>
      match maxsplit with
      | S m =>
          if Ascii.eqb c sep then EmptyString :: split sep m s'
          else match split sep maxsplit s' with
               | h :: t => String c h :: t
               | [] => [String c EmptyString]
               end
      | O => [s]
      end
  end.

(** [s.replace(old, new)] for a non-empty [old]: occurrences are replaced
    from left to right and do not overlap; [skip] counts the characters of
    an occurrence that are still to be dropped. *)
Fixpoint replace_from (old new : string) (skip : nat) (s : string) : string :=
  match s with
  | EmptyString => EmptyString
  | String c s' =>
      match skip with
      | S k => replace_from old new k s'
      | O =>
          if String.prefix old s
          then new ++ replace_from old new (String.length old - 1) s'
          else String c (replace_from old new 0 s')
      end
  end.

Definition replace (old new s : string) : string := replace_from old new 0 s.

Definition lower_char (c : ascii) : ascii :=
  let n := nat_of_ascii c in
  if (Nat.leb 65 n && Nat.leb n 90)%bool then ascii_of_nat (n + 32) else c.

Definition upper_char (c : ascii) : ascii :=
  let n := nat_of_ascii c in
  if (Nat.leb 97 n && Nat.leb n 122)%bool then ascii_of_nat (n - 32) else c.

Fixpoint map_chars (f : ascii -> ascii) (s : string) : string :=
  match s with
  | EmptyString => EmptyString
  | String c s' => String (f c) (map_chars f s')
  end.

Definition lower : string -> string := map_chars lower_char.
Definition upper : string -> string := map_chars upper_char.

(** The characters of a string, as [for c in s] yields them. *)
Fixpoint chars (s : string) : list string :=
  match s with
  | EmptyString => []
  | String c s' => String c EmptyString :: chars s'
  end.

(** [str(n)] for an [int]. *)
Definition of_Z (z : Z) : string := NilZero.string_of_int (Z.to_int z).

(** The double quote, for the one URL that carries JSON text. *)
Definition dquote : string := String (ascii_of_nat 34) EmptyString.

End PyStr.

(* ===================================================================== *)
(** ** JSON values and Python dictionaries *)
(* ===================================================================== *)

(** What [response.json()] yields.  A [float] is kept as its [repr] (the
    shortest decimal that reads back to it); arithmetic on floats is left to
    [Runtime].  Text is ASCII. *)
Inductive Json : Type :=
| JNull
| JBool (b : bool)
| JInt (z : Z)
| JFloat (repr : string)
| JStr (s : string)
| JArr (items : list Json)
| JObj (fields : list (string * Json)).

(** A [dict] keeps insertion order; assigning to a key that is present
    keeps the key's place. *)
Section Dict.
Variables K V : Type.
Variable eqb : K -> K -> bool.

Fixpoint dict_get (k : K) (d : list (K * V)) : option V :=
  match d with
  | [] => None
  | (k', v) :: d' => if eqb k k' then Some v else dict_get k d'
  end.

Fixpoint dict_set (k : K) (v : V) (d : list (K * V)) : list (K * V) :=
  match d with
  | [] => [(k, v)]
  | (k', v') :: d' =>
      if eqb k k' then (k', v) :: d' else (k', v') :: dict_set k v d'
  end.

(** [d.update(e)], also [d | e] and [d |= e]. *)
Definition dict_update (d e : list (K * V)) : list (K * V) :=
  fold_left (fun acc kv => dict_set (fst kv) (snd kv) acc) e d.

Definition dict_mem (k : K) (d : list (K * V)) : bool :=
  match dict_get k d with Some _ => true | None => false end.

End Dict.

(** Hashable Python values, the keys of the client's tables.  [True] and
    [False] hash and compare as [1] and [0]; a float key is told from an
    integer key whatever its value (the keys of the portal are strings). *)
Inductive PyKey : Type :=
| KNone
| KInt (z : Z)
| KFloat (repr : string)
| KStr (s : string).

Definition PyKey_eqb (a b : PyKey) : bool :=
  match a, b with
  | KNone, KNone => true
  | KInt x, KInt y => Z.eqb x y
  | KFloat x, KFloat y => String.eqb x y
  | KStr x, KStr y => String.eqb x y
  | _, _ => false
  end.

(** [None] for a list or a dict: unhashable. *)
Definition key_of (j : Json) : option PyKey :=
  match j with
  | JNull => Some KNone
  | JBool b => Some (KInt (if b then 1 else 0))
  | JInt z => Some (KInt z)
  | JFloat r => Some (KFloat r)
  | JStr s => Some (KStr s)
  | JArr _ | JObj _ => None
  end.

Definition jdict_get := dict_get (V := Json) String.eqb.
Definition jdict_set := dict_set (V := Json) String.eqb.
Definition jdict_update := dict_update (V := Json) String.eqb.

(** The soft-failure sentinel of the fetchers is Python's [False]. *)
Definition PyFalse : Json := JBool false.

Definition is_False (j : Json) : bool :=
  match j with JBool false => true | _ => false end.

Definition is_None (j : Json) : bool :=
  match j with JNull => true | _ => false end.

Definition json_is_str (s : string) (j : Json) : bool :=
  match j with JStr s' => String.eqb s' s | _ => false end.

(* ===================================================================== *)
(** ** Exceptions and the client monad *)
(* ===================================================================== *)

(** The two exception classes of [exceptions.py] with their message, the
    built-in exceptions the client can run into, and what the transport
    raises ([requests] errors, by class name). *)
Inductive exn : Type :=
| TelenetServiceException (msg : string)
| BadCredentialsException (msg : string)
| AttributeError
| TypeError
| KeyError
| ValueError
| IndexError
| UnboundLocalError
| TransportError (name : string).

(** How a piece of Python code ends: with a value, with an exception, with
    a [continue] that the enclosing loop takes, or not at all within the
    recursion depth granted ([OutOfFuel]). *)
Inductive outcome (A : Type) : Type :=
| Ret (a : A)
| Raise (e : exn)
| Continue
| OutOfFuel.

Arguments Ret {A} a.
Arguments Raise {A} e.
Arguments Continue {A}.
Arguments OutOfFuel {A}.

(** State and outcome: the state is kept when an exception is raised, as
    the attributes of [self] are. *)
Definition M (S A : Type) : Type := S -> outcome A * S.

Definition ret {S A} (a : A) : M S A := fun s => (Ret a, s).
Definition raise {S A} (e : exn) : M S A := fun s => (Raise e, s).
Definition continue_ {S A} : M S A := fun s => (Continue, s).
Definition out_of_fuel {S A} : M S A := fun s => (OutOfFuel, s).

Definition bind {S A B} (m : M S A) (k : A -> M S B) : M S B :=
  fun s =>
    match m s with
    | (Ret a, s') => k a s'
    | (Raise e, s') => (Raise e, s')
    | (Continue, s') => (Continue, s')
    | (OutOfFuel, s') => (OutOfFuel, s')
    end.

Definition gets {S A} (f : S -> A) : M S A := fun s => (Ret (f s), s).
Definition modify {S} (f : S -> S) : M S unit := fun s => (Ret tt, f s).

(** A pure computation that may raise, run inside the monad. *)
Definition lift_outcome {S A} (o : outcome A) : M S A := fun s => (o, s).

(** [try: m except Exception: h]. *)
Definition try_except {S A} (m : M S A) (h : M S A) : M S A :=
  fun s =>
    match m s with
    | (Raise _, s') => h s'
    | r => r
    end.

(** The body of a [for] loop ends normally or by [continue]. *)
Definition loop_body {S} (m : M S unit) : M S unit :=
  fun s =>
    match m s with
    | (Continue, s') => (Ret tt, s')
    | r => r
    end.

Fixpoint for_each {S A} (l : list A) (body : A -> M S unit) : M S unit :=
  match l with
  | [] => ret tt
  | x :: l' => bind (loop_body (body x)) (fun _ => for_each l' body)
  end.

Declare Scope py_scope.
Delimit Scope py_scope with py.
Notation "x <- m ;; k" := (bind m (fun x => k))
  (at level 100, m at next level, right associativity) : py_scope.
Notation "m ;; k" := (bind m (fun _ => k))
  (at level 100, right associativity) : py_scope.
Open Scope py_scope.

(* ===================================================================== *)
(** ** Operations on Python values *)
(* ===================================================================== *)

(** [x.get(key)]: only a [dict] has the method. *)
Definition py_get (key : string) (x : Json) : outcome Json :=
  match x with
  | JObj o => Ret (match jdict_get key o with Some v => v | None => JNull end)
  | _ => Raise AttributeError
  end.

(** ["key" in x] for a string literal on the left. *)
Definition py_in (key : string) (x : Json) : outcome bool :=
  match x with
  | JObj o => Ret (dict_mem String.eqb key o)
  | JArr l => Ret (existsb (json_is_str key) l)
  | JStr s => Ret (PyStr.contains key s)
  | _ => Raise TypeError
  end.

(** [len(x)]. *)
Definition py_len (x : Json) : outcome Z :=
  match x with
  | JStr s => Ret (Z.of_nat (String.length s))
  | JArr l => Ret (Z.of_nat (List.length l))
  | JObj o => Ret (Z.of_nat (List.length o))
  | _ => Raise TypeError
  end.

(** [for item in x]. *)
Definition py_iter (x : Json) : outcome (list Json) :=
  match x with
  | JArr l => Ret l
  | JObj o => Ret (map (fun kv => JStr (fst kv)) o)
  | JStr s => Ret (map JStr (PyStr.chars s))
  | _ => Raise TypeError
  end.

(** [a | b] and [a |= b]: defined by [dict] (and by numbers, which do not
    occur on the left here); a list on either side is a [TypeError]. *)
Definition py_or (a b : Json) : outcome Json :=
  match a, b with
  | JObj x, JObj y => Ret (JObj (jdict_update x y))
  | _, _ => Raise TypeError
  end.

(** [x.lower()], [x.upper()], [x.replace(old, new)]: methods of [str]. *)
Definition py_lower (x : Json) : outcome string :=
  match x with JStr s => Ret (PyStr.lower s) | _ => Raise AttributeError end.

Definition py_upper (x : Json) : outcome string :=
  match x with JStr s => Ret (PyStr.upper s) | _ => Raise AttributeError end.

Definition py_replace (old new : string) (x : Json) : outcome string :=
  match x with
  | JStr s => Ret (PyStr.replace old new s)
  | _ => Raise AttributeError
  end.

(** [x[0]]. *)
Definition py_first (x : Json) : outcome Json :=
  match x with
  | JArr (v :: _) => Ret v
  | JArr [] => Raise IndexError
  | JStr (String c _) => Ret (JStr (String c EmptyString))
  | JStr EmptyString => Raise IndexError
  | JObj _ => Raise KeyError
  | _ => Raise TypeError
  end.

(** [a == b] on the values that occur as product types and identifiers,
    which are strings: strings and [None] compare as Python compares
    them, [True] and [False] as [1] and [0], containers by structure.  A
    float is compared by its [repr], so that it equals no integer here,
    where Python compares the two by value. *)
Fixpoint Json_eqb (a b : Json) : bool :=
  match a, b with
  | JArr x, JArr y =>
      (fix items (x y : list Json) : bool :=
         match x, y with
         | [], [] => true
         | u :: x', v :: y' => Json_eqb u v && items x' y'
         | _, _ => false
         end) x y
  | JObj x, JObj y =>
      (fix fields (x y : list (string * Json)) : bool :=
         match x, y with
         | [], [] => true
         | (k, u) :: x', (l, v) :: y' => String.eqb k l && Json_eqb u v && fields x' y'
         | _, _ => false
         end) x y
  | _, _ =>
      match key_of a, key_of b with
      | Some k, Some l => PyKey_eqb k l
      | _, _ => false
      end
  end.

(** Keys of a table: an unhashable key is a [TypeError]. *)
Definition py_key (x : Json) : outcome PyKey :=
  match key_of x with Some k => Ret k | None => Raise TypeError end.

(* ===================================================================== *)
(** ** The transport, the imported modules, the data model *)
(* ===================================================================== *)

(** A [requests.Response]: [json_body] is [None] when [response.json()]
    raises (the body is not JSON). *)
Record Response : Type := {
  status_code : Z;
  text : string;
  resp_url : string;
  json_body : option Json
}.

(** What the session sends: [GET url] when [req_data] is [None], else
    [POST url data], with the session's [X-TOKEN-XSRF] header. *)
Record Request : Type := {
  req_url : Json;
  req_data : option Json;
  req_token : Json
}.

(** The portal and the cookie jar behind [self.session]: a request is
    answered by a response or by an exception of [requests] (no route, a
    timeout, a URL that is no URL), and moves the server state. *)
Class Transport (W : Type) : Type := {
  send : Request -> W -> (Response + exn) * W;
  cookie : string -> W -> Json
}.

(** [models.py], [TelenetEnvironment]. *)
Record TelenetEnvironment : Type := {
  ocapi : string;
  openid : string;
  referer : string;
  x_alt_referer : string
}.

(** [const.py] and [utils.py] as [client.py] imports them. *)
Record Utils : Type := {
  CONNECTION_RETRY : Z;
  format_entity_name : string -> string;
  get_localized : Json -> Json -> outcome Json;
  str_to_float : Json -> outcome Json;
  float_to_timestring : Json -> Json -> outcome Json;
  get_json_dict_path : Json -> string -> outcome Json;
  clean_ipv6 : Json -> outcome Json
}.

(** Floating point and the wall clock.  [internet_usage_report] stands for
    lines 435-518 of [client.py] (the usage percentage and the attribute
    bundle of the internet usage sensor, computed from the language, the
    identifier, the usage record, the bill cycle, the current daily usage
    and the specification sheet with float division, [round],
    [datetime.strptime] and [datetime.now]); [days_until_billing] for the
    [strptime]/[now] difference of the mobile branches. *)
Record Runtime : Type := {
  py_repr : Json -> string;
  float_add : Json -> Json -> Json;
  float_positive : string -> bool;
  float_trunc : string -> outcome Z;
  internet_usage_report :
    Json -> Json -> Json -> Json -> Json -> Json -> outcome (Json * Json);
  days_until_billing : Json -> outcome Json
}.

(** The constructor arguments of [TelenetClient] that are never
    reassigned. *)
Record Config : Type := {
  username : Json;
  password : Json;
  language : Json;
  environment : TelenetEnvironment
}.

(** [models.py], [TelenetProduct] (lines 18-36): the fifteen fields the
    dataclass declares.  The two flags are kept as the truth value the
    client tests them for ([if not product.product_extra_sensor]).
    [instance_attributes] are the attributes an instance carries besides
    the declared fields: the class has no [__slots__], and [client.py]
    sets one (line 369) and reads others ([product_price], line 367;
    [product_plan_label], line 342). *)
Record TelenetProduct : Type := {
  product_name : Json;
  product_key : Json;
  product_description_key : Json;
  product_suffix : Json;
  product_state : Json;
  product_identifier : Json;
  product_type : Json;
  product_description : Json;
  product_specurl : Json;
  product_info : Json;
  product_plan_identifier : Json;
  product_subscription_info : Json;
  product_extra_attributes : Json;
  product_extra_sensor : bool;
  product_ignore_extra_sensor : bool;
  instance_attributes : list (string * Json)
}.

(** The dataclass defaults: [field(default_factory=list)] is a fresh empty
    list. *)
Definition default_product_info : Json := JArr [].
Definition default_product_subscription_info : Json := JArr [].
Definition default_product_extra_attributes : Json := JArr [].

(** The names the generated [__init__] takes as keyword arguments. *)
Definition TelenetProduct_fields : list string :=
  ["product_name"; "product_key"; "product_description_key"; "product_suffix";
   "product_state"; "product_identifier"; "product_type"; "product_description";
   "product_specurl"; "product_info"; "product_plan_identifier";
   "product_subscription_info"; "product_extra_attributes"; "product_extra_sensor";
   "product_ignore_extra_sensor"].

(** [x] as a condition. *)
Definition py_truthy (x : Json) : bool :=
  match x with
  | JNull => false
  | JBool b => b
  | JInt z => negb (z =? 0)
  | JFloat r => negb (String.eqb r "0.0" || String.eqb r "-0.0")
  | JStr s => negb (String.eqb s "")
  | JArr l => match l with [] => false | _ => true end
  | JObj o => match o with [] => false | _ => true end
  end.

(** The constructor call with the keyword arguments [kwargs], in the
    order they are written: a keyword that is no declared field is a
    [TypeError] (unexpected keyword argument); a field that is not given
    takes its default (for [product_identifier] the one-item tuple of the
    empty string, a list here; every call of [client.py] gives the
    field). *)
Definition new_TelenetProduct (kwargs : list (string * Json)) : outcome TelenetProduct :=
  if forallb (fun kv => existsb (String.eqb (fst kv)) TelenetProduct_fields) kwargs then
    let arg (name : string) (default : Json) : Json :=
      match jdict_get name kwargs with Some v => v | None => default end in
    Ret {| product_name := arg "product_name" (JStr "");
           product_key := arg "product_key" (JStr "");
           product_description_key := arg "product_description_key" (JStr "");
           product_suffix := arg "product_suffix" (JStr "");
           product_state := arg "product_state" (JStr "Inactive");
           product_identifier := arg "product_identifier" (JArr [JStr ""]);
           product_type := arg "product_type" (JStr "");
           product_description := arg "product_description" (JStr "");
           product_specurl := arg "product_specurl" (JStr "");
           product_info := arg "product_info" default_product_info;
           product_plan_identifier := arg "product_plan_identifier" (JStr "");
           product_subscription_info :=
             arg "product_subscription_info" default_product_subscription_info;
           product_extra_attributes :=
             arg "product_extra_attributes" default_product_extra_attributes;
           product_extra_sensor := py_truthy (arg "product_extra_sensor" (JBool false));
           product_ignore_extra_sensor :=
             py_truthy (arg "product_ignore_extra_sensor" (JBool false));
           instance_attributes := [] |}
  else Raise TypeError.

(** [product.name] for a name that is no declared field. *)
Definition py_getattr (name : string) (p : TelenetProduct) : outcome Json :=
  match jdict_get name (instance_attributes p) with
  | Some v => Ret v
  | None => Raise AttributeError
  end.

Definition set_ignore_extra_sensor (b : bool) (p : TelenetProduct) : TelenetProduct :=
  {| product_name := product_name p;
     product_key := product_key p;
     product_description_key := product_description_key p;
     product_suffix := product_suffix p;
     product_state := product_state p;
     product_identifier := product_identifier p;
     product_type := product_type p;
     product_description := product_description p;
     product_specurl := product_specurl p;
     product_info := product_info p;
     product_plan_identifier := product_plan_identifier p;
     product_subscription_info := product_subscription_info p;
     product_extra_attributes := product_extra_attributes p;
     product_extra_sensor := product_extra_sensor p;
     product_ignore_extra_sensor := b;
     instance_attributes := instance_attributes p |}.

Definition set_subscription_info (j : Json) (p : TelenetProduct) : TelenetProduct :=
  {| product_name := product_name p;
     product_key := product_key p;
     product_description_key := product_description_key p;
     product_suffix := product_suffix p;
     product_state := product_state p;
     product_identifier := product_identifier p;
     product_type := product_type p;
     product_description := product_description p;
     product_specurl := product_specurl p;
     product_info := product_info p;
     product_plan_identifier := product_plan_identifier p;
     product_subscription_info := j;
     product_extra_attributes := product_extra_attributes p;
     product_extra_sensor := product_extra_sensor p;
     product_ignore_extra_sensor := product_ignore_extra_sensor p;
     instance_attributes := instance_attributes p |}.

Definition set_extra_attributes_field (j : Json) (p : TelenetProduct) : TelenetProduct :=
  {| product_name := product_name p;
     product_key := product_key p;
     product_description_key := product_description_key p;
     product_suffix := product_suffix p;
     product_state := product_state p;
     product_identifier := product_identifier p;
     product_type := product_type p;
     product_description := product_description p;
     product_specurl := product_specurl p;
     product_info := product_info p;
     product_plan_identifier := product_plan_identifier p;
     product_subscription_info := product_subscription_info p;
     product_extra_attributes := j;
     product_extra_sensor := product_extra_sensor p;
     product_ignore_extra_sensor := product_ignore_extra_sensor p;
     instance_attributes := instance_attributes p |}.

(** [product.name = v] for a name that is no declared field. *)
Definition set_instance_attribute (name : string) (v : Json) (p : TelenetProduct)
    : TelenetProduct :=
  {| product_name := product_name p;
     product_key := product_key p;
     product_description_key := product_description_key p;
     product_suffix := product_suffix p;
     product_state := product_state p;
     product_identifier := product_identifier p;
     product_type := product_type p;
     product_description := product_description p;
     product_specurl := product_specurl p;
     product_info := product_info p;
     product_plan_identifier := product_plan_identifier p;
     product_subscription_info := product_subscription_info p;
     product_extra_attributes := product_extra_attributes p;
     product_extra_sensor := product_extra_sensor p;
     product_ignore_extra_sensor := product_ignore_extra_sensor p;
     instance_attributes := jdict_set name v (instance_attributes p) |}.

Definition Products : Type := list (PyKey * TelenetProduct).

Definition products_get := dict_get (V := TelenetProduct) PyKey_eqb.
Definition products_set := dict_set (V := TelenetProduct) PyKey_eqb.
Definition products_update := dict_update (V := TelenetProduct) PyKey_eqb.

(** An assignment to an attribute of the object the table holds under
    [k]: the object changes where it is, for every name it goes by. *)
Definition products_mutate (k : PyKey) (f : TelenetProduct -> TelenetProduct)
    (table : Products) : Products :=
  map (fun kv => if PyKey_eqb k (fst kv) then (fst kv, f (snd kv)) else kv) table.

(** The mutable attributes of a [TelenetClient], the server state behind
    its session, and a log of the requests the session has sent (oldest
    first; the log is not an attribute of the class, it records the HTTP
    traffic). *)
Record Client (W : Type) : Type := {
  world : W;
  sent : list Request;
  xsrf_header : Json;
  all_products : Products;
  product_types : list Json;
  user_details : Json;
  plan_products : list (PyKey * Json);
  addresses : list (PyKey * Json);
  request_error : Json;
  total_cost : Json
}.

Section Setters.
Context {W : Type}.

Definition set_session (w : W) (log : list Request) (c : Client W) : Client W :=
  {| world := w; sent := log; xsrf_header := xsrf_header c;
     all_products := all_products c; product_types := product_types c;
     user_details := user_details c; plan_products := plan_products c;
     addresses := addresses c; request_error := request_error c;
     total_cost := total_cost c |}.

Definition set_xsrf_header (j : Json) (c : Client W) : Client W :=
  {| world := world c; sent := sent c; xsrf_header := j;
     all_products := all_products c; product_types := product_types c;
     user_details := user_details c; plan_products := plan_products c;
     addresses := addresses c; request_error := request_error c;
     total_cost := total_cost c |}.

Definition set_all_products (p : Products) (c : Client W) : Client W :=
  {| world := world c; sent := sent c; xsrf_header := xsrf_header c;
     all_products := p; product_types := product_types c;
     user_details := user_details c; plan_products := plan_products c;
     addresses := addresses c; request_error := request_error c;
     total_cost := total_cost c |}.

Definition set_product_types (t : list Json) (c : Client W) : Client W :=
  {| world := world c; sent := sent c; xsrf_header := xsrf_header c;
     all_products := all_products c; product_types := t;
     user_details := user_details c; plan_products := plan_products c;
     addresses := addresses c; request_error := request_error c;
     total_cost := total_cost c |}.

Definition set_user_details (j : Json) (c : Client W) : Client W :=
  {| world := world c; sent := sent c; xsrf_header := xsrf_header c;
     all_products := all_products c; product_types := product_types c;
     user_details := j; plan_products := plan_products c;
     addresses := addresses c; request_error := request_error c;
     total_cost := total_cost c |}.

Definition set_plan_products (p : list (PyKey * Json)) (c : Client W) : Client W :=
  {| world := world c; sent := sent c; xsrf_header := xsrf_header c;
     all_products := all_products c; product_types := product_types c;
     user_details := user_details c; plan_products := p;
     addresses := addresses c; request_error := request_error c;
     total_cost := total_cost c |}.

Definition set_addresses (a : list (PyKey * Json)) (c : Client W) : Client W :=
  {| world := world c; sent := sent c; xsrf_header := xsrf_header c;
     all_products := all_products c; product_types := product_types c;
     user_details := user_details c; plan_products := plan_products c;
     addresses := a; request_error := request_error c;
     total_cost := total_cost c |}.

Definition set_request_error (j : Json) (c : Client W) : Client W :=
  {| world := world c; sent := sent c; xsrf_header := xsrf_header c;
     all_products := all_products c; product_types := product_types c;
     user_details := user_details c; plan_products := plan_products c;
     addresses := addresses c; request_error := j;
     total_cost := total_cost c |}.

Definition set_total_cost (j : Json) (c : Client W) : Client W :=
  {| world := world c; sent := sent c; xsrf_header := xsrf_header c;
     all_products := all_products c; product_types := product_types c;
     user_details := user_details c; plan_products := plan_products c;
     addresses := addresses c; request_error := request_error c;
     total_cost := j |}.

End Setters.

(* ===================================================================== *)
(** ** [TelenetClient]: the dispatcher and the login handshake *)
(* ===================================================================== *)

Section TelenetClient.
Context {W : Type} {transport : Transport W}.
Variable utils : Utils.
Variable runtime : Runtime.
Variable config : Config.

Local Abbreviation State := (Client W).

(** [str(x)], as an f-string formats a value. *)
Definition py_str (x : Json) : string :=
  match x with
  | JNull => "None"
  | JBool true => "True"
  | JBool false => "False"
  | JInt z => PyStr.of_Z z
  | JFloat r => r
  | JStr s => s
  | _ => py_repr runtime x
  end.

(** [self.session.get(url)] or [self.session.post(url, data)]. *)
Definition http (url : Json) (data : option Json) : M State Response :=
  fun c =>
    let rq := {| req_url := url; req_data := data; req_token := xsrf_header c |} in
    match send rq (world c) with
    | (inl r, w) => (Ret r, set_session w (sent c ++ [rq]) c)
    | (inr e, w) => (Raise e, set_session w (sent c ++ [rq]) c)
    end.

(** [self.session.headers["X-TOKEN-XSRF"] = self.session.cookies.get("TOKEN-XSRF")]. *)
Definition mirror_token : M State unit :=
  modify (fun c => set_xsrf_header (cookie "TOKEN-XSRF" (world c)) c).

(** The request the session sends for [url] and [data], the client once
    the portal has answered it, and the client once the dispatcher has
    accepted the answer (the token is mirrored). *)
Definition request_of (url : Json) (data : option Json) (c : State) : Request :=
  {| req_url := url; req_data := data; req_token := xsrf_header c |}.

Definition after_send (rq : Request) (w : W) (c : State) : State :=
  set_session w (sent c ++ [rq]) c.

Definition accepted (rq : Request) (w : W) (c : State) : State :=
  set_xsrf_header (cookie "TOKEN-XSRF" w) (after_send rq w c).

(** [response.json()]. *)
Definition response_json (r : Response) : M State Json :=
  match json_body r with
  | Some j => ret j
  | None => raise ValueError
  end.

(** An attribute of the value [request] returned: [False] has none. *)
Definition the_response (r : option Response) : M State Response :=
  match r with
  | Some response => ret response
  | None => raise AttributeError
  end.

Definition unexpected_status_message (caller : string) (expected : Z)
    (response : Response) : string :=
  "[" ++ caller ++ "] Expecting HTTP " ++ PyStr.of_Z expected
  ++ " | Response HTTP " ++ PyStr.of_Z (status_code response)
  ++ ", Response: " ++ text response ++ ", Url: " ++ resp_url response.

Definition probe_url : string :=
  ocapi (environment config) ++ "/oauth/userdetails".

Definition authorize_url (state nonce : string) : string :=
  openid (environment config)
  ++ "/oauth/authorize?client_id=ocapi&response_type=code&claims={"
  ++ PyStr.dquote ++ "id_token" ++ PyStr.dquote ++ ":{"
  ++ PyStr.dquote ++ "http://telenet.be/claims/roles" ++ PyStr.dquote ++ ":null,"
  ++ PyStr.dquote ++ "http://telenet.be/claims/licenses" ++ PyStr.dquote ++ ":null}}"
  ++ "&lang=nl&state=" ++ state ++ "&nonce=" ++ nonce ++ "&prompt=login".

Definition login_do_url : string := openid (environment config) ++ "/login.do".

Definition login_form : Json :=
  JObj [("j_username", username config); ("j_password", password config);
        ("rememberme", JBool true)].

Definition user_details_url : string :=
  "https://api.prd.telenet.be/ocapi/oauth/userdetails".

Section Login.
(** [self.request(url, caller, data, expected)] with the defaults of
    [retrying] and [connection_retry_left]. *)
Variable request4 : Json -> string -> option Json -> option Z -> M State (option Response).

(** The [while len(tokens) != 2] loop of [login]: [inl] is the early
    [return response.json()] of a session that is still valid, [inr] the
    response that carries the two tokens. *)
Fixpoint login_tokens (fuel : nat) (token_fetch_count : Z) : M State (Json + Response) :=
  match fuel with
  | O => out_of_fuel
  | S fuel' =>
      r <- request4 (JStr probe_url) "[TelenetClient|login]" None None ;;
      response <- the_response r ;;
      if status_code response =? 200 then
        j <- response_json response ;; ret (inl j)
      else if negb (status_code response =? 401) && negb (status_code response =? 403) then
        raise (TelenetServiceException
                 ("HTTP " ++ PyStr.of_Z (status_code response)
                  ++ " error while authenticating " ++ resp_url response))
      else
        let tokens := PyStr.split "," 2 (text response) in
        if token_fetch_count >? CONNECTION_RETRY utils then
          raise (TelenetServiceException
                   ("HTTP 401 not returning the tokens for " ++ resp_url response))
        else if Nat.eqb (List.length tokens) 2 then ret (inr response)
        else login_tokens fuel' (token_fetch_count + 1)
  end.

(** [login], lines 152-187: the handshake once the tokens are there. *)
Definition login_handshake (tokens_response : Response) : M State Json :=
  match PyStr.split "," 2 (text tokens_response) with
  | [state; nonce] =>
      r <- request4 (JStr (authorize_url state nonce))
             "[TelenetClient|login|authorize]" None None ;;
      response <- the_response r ;;
      if negb (status_code response =? 200)
         || negb (PyStr.contains "openid/login" (resp_url response))
      then
        (* [raise TelenetServiceException(response.text())]: [text] is a
           string, calling it is a TypeError. *)
        raise TypeError
      else
        r <- request4 (JStr login_do_url) "[TelenetClient|login|login.do]"
               (Some login_form) (Some 200) ;;
        response <- the_response r ;;
        if PyStr.contains "authentication_error" (resp_url response) then
          raise (BadCredentialsException (text response))
        else
          mirror_token ;;
          r <- request4 (JStr user_details_url)
                 "[TelenetClient|login|user_details]" None (Some 200) ;;
          response <- the_response r ;;
          details <- response_json response ;;
          has_number <- lift_outcome (py_in "customer_number" details) ;;
          if negb has_number then
            raise (BadCredentialsException
                     ("HTTP " ++ PyStr.of_Z (status_code response)
                      ++ " Missing customer number"))
          else
            modify (set_user_details details) ;;
            response_json response
  | _ => raise ValueError
  end.

Definition login_with (fuel : nat) : M State Json :=
  probe <- login_tokens fuel 0 ;;
  match probe with
  | inl details => ret details
  | inr response => login_handshake response
  end.

End Login.

(** [request], lines 66-123.  [fuel] bounds the depth of the recursion
    (the retry re-enters [request], and so does [login]); the interpreter's
    recursion limit plays that part in Python. *)
Fixpoint request (fuel : nat) (url : Json) (caller : string) (data : option Json)
    (expected : option Z) (retrying : bool) (connection_retry_left : Z)
    : M State (option Response) :=
  match fuel with
  | O => out_of_fuel
  | S fuel' =>
      response <- http url data ;;
      let accept : M State (option Response) :=
        (mirror_token ;; ret (Some response)) in
      let reauth : M State (option Response) :=
        (login_with
           (fun u c d e => request fuel' u c d e false (CONNECTION_RETRY utils))
           fuel' ;;
         again <- request fuel' url caller data expected true
                    (connection_retry_left - 1) ;;
         mirror_token ;;
         ret again) in
      match expected with
      | None => accept
      | Some e =>
          if status_code response =? e then accept
          else if status_code response =? 404 then
            j <- response_json response ;;
            modify (set_request_error j) ;;
            ret None
          else if negb (status_code response =? 403)
                  && negb (status_code response =? 401)
                  && negb (status_code response =? 500)
                  && (connection_retry_left >? 0)
                  && negb retrying
          then raise (TelenetServiceException
                        (unexpected_status_message caller e response))
          else if status_code response =? 403 then
            if PyStr.contains "code" (text response) then
              j <- response_json response ;;
              code <- lift_outcome (py_get "code" j) ;;
              if negb (json_is_str "OCAPI-ERR-667" code) then
                modify (set_request_error j) ;;
                ret None
              else
                cause <- lift_outcome (py_get "cause" j) ;;
                raise (TelenetServiceException
                         (py_str cause ++ " for " ++ py_str (username config)))
            else reauth
          else reauth
      end
  end.

(** [self.request(url, caller, data, expected)] as every call site in
    [client.py] writes it. *)
Definition request_default (fuel : nat) (url : Json) (caller : string)
    (data : option Json) (expected : option Z) : M State (option Response) :=
  request fuel url caller data expected false (CONNECTION_RETRY utils).

(** [login], lines 125-187. *)
Definition login (fuel : nat) : M State Json :=
  login_with (request_default fuel) fuel.

(* --------------------------------------------------------------------- *)
(** *** Fetchers *)
(* --------------------------------------------------------------------- *)

Definition api : string := "https://api.prd.telenet.be/ocapi/public/api".

(** The common ending of the fetchers: [if response is False: return
    False] and [return response.json()]. *)
Definition json_or_False (r : option Response) : M State Json :=
  match r with
  | None => ret PyFalse
  | Some response => response_json response
  end.

Definition get_ (key : string) (x : Json) : M State Json :=
  lift_outcome (py_get key x).

(** [product_details], lines 1004-1009. *)
Definition product_details (fuel : nat) (url : Json) : M State Json :=
  r <- request_default fuel url "product_details" None (Some 200) ;;
  json_or_False r.

Definition bill_cycles_url (product_type product_identifier : Json) (count : Z)
    : string :=
  api ++ "/billing-service/v1/account/products/" ++ py_str product_identifier
  ++ "/billcycle-details?producttype=" ++ py_str product_type
  ++ "&count=" ++ PyStr.of_Z count.

(** [bill_cycles], lines 1027-1051. *)
Definition bill_cycles (fuel : nat) (product_type product_identifier : Json)
    (count : Z) : M State Json :=
  r <- request_default fuel
         (JStr (bill_cycles_url product_type product_identifier count))
         "[TelenetClient|bill_cycles]" None (Some 200) ;;
  match r with
  | None => ret PyFalse
  | Some response =>
      j <- response_json response ;;
      cycles <- get_ "billCycles" j ;;
      cycle <- lift_outcome (py_first cycles) ;;
      start_date <- get_ "startDate" cycle ;;
      end_date <- get_ "endDate" cycle ;;
      if json_is_str "internet" product_type then
        ret (JObj [("start_date", start_date); ("end_date", end_date);
                   ("cycles", cycles)])
      else
        ret (JObj [("start_date", start_date); ("end_date", end_date)])
  end.

(** [product_usage], lines 1053-1063. *)
Definition product_usage (fuel : nat)
    (product_type product_identifier startDate endDate : Json) : M State Json :=
  r <- request_default fuel
         (JStr (api ++ "/product-service/v1/products/" ++ py_str product_type
                ++ "/" ++ py_str product_identifier
                ++ "/usage?fromDate=" ++ py_str startDate
                ++ "&toDate=" ++ py_str endDate))
         "[TelenetClient|product_usage]" None (Some 200) ;;
  json_or_False r.

(** [product_daily_usage], lines 1065-1079: no expected status, so the
    dispatcher hands every response through. *)
Definition product_daily_usage (fuel : nat)
    (product_type product_identifier bill_cycle from_date to_date : Json)
    : M State Json :=
  r <- request_default fuel
         (JStr (api ++ "/product-service/v1/products/" ++ py_str product_type
                ++ "/" ++ py_str product_identifier
                ++ "/dailyusage?billcycle=" ++ py_str bill_cycle
                ++ "&fromDate=" ++ py_str from_date
                ++ "&toDate=" ++ py_str to_date))
         "[TelenetClient|product_daily_usage]" None None ;;
  match r with
  | None => ret PyFalse
  | Some response =>
      if negb (status_code response =? 200) then ret (JObj [])
      else response_json response
  end.

Definition mobile_usage_url (product_identifier : Json) : string :=
  api ++ "/mobile-service/v3/mobilesubscriptions/" ++ py_str product_identifier
  ++ "/usages".

(** [mobile_usage], lines 1100-1110. *)
Definition mobile_usage (fuel : nat) (product_identifier : Json) : M State Json :=
  r <- request_default fuel (JStr (mobile_usage_url product_identifier))
         "[TelenetClient|mobile_usage]" None (Some 200) ;;
  json_or_False r.

(** [mobile_bundle_usage], lines 1112-1130; [line_identifier] is [None]
    when the caller leaves it out. *)
Definition mobile_bundle_usage (fuel : nat) (bundle_identifier line_identifier : Json)
    : M State Json :=
  r <- (if negb (is_None line_identifier) then
          request_default fuel
            (JStr (api ++ "/mobile-service/v3/mobilesubscriptions/"
                   ++ py_str bundle_identifier
                   ++ "/usages?type=bundle&lineIdentifier="
                   ++ py_str line_identifier))
            "[TelenetClient|mobile_bundle_usage line_identifier]" None (Some 200)
        else
          request_default fuel
            (JStr (api ++ "/mobile-service/v3/mobilesubscriptions/"
                   ++ py_str bundle_identifier ++ "/usages?type=bundle"))
            "[TelenetClient|mobile_bundle_usage bundle]" None (Some 200)) ;;
  json_or_False r.

(** [modems], lines 1132-1142. *)
Definition modems (fuel : nat) (product_identifier : Json) : M State Json :=
  r <- request_default fuel
         (JStr (api ++ "/resource-service/v1/modems?productIdentifier="
                ++ py_str product_identifier))
         "[TelenetClient|modems]" None (Some 200) ;;
  json_or_False r.

(** [network_topology], lines 1144-1154. *)
Definition network_topology (fuel : nat) (mac : Json) : M State Json :=
  r <- request_default fuel
         (JStr (api ++ "/resource-service/v1/network-topology/" ++ py_str mac
                ++ "?withClients=true"))
         "[TelenetClient|network_topology]" None (Some 200) ;;
  json_or_False r.

Definition wireless_settings_url (mac product_identifier : Json) : string :=
  api ++ "/resource-service/v1/modems/" ++ py_str mac
  ++ "/wireless-settings?withmetadata=true&withwirelessservice=true&productidentifier="
  ++ py_str product_identifier.

(** [wireless_settings], lines 1156-1166. *)
Definition wireless_settings (fuel : nat) (mac product_identifier : Json)
    : M State Json :=
  r <- request_default fuel (JStr (wireless_settings_url mac product_identifier))
         "[TelenetClient|wireless_settings]" None None ;;
  match r with
  | None => ret PyFalse
  | Some response =>
      if status_code response =? 500 then ret PyFalse
      else response_json response
  end.

(** [device_details], lines 1168-1178. *)
Definition device_details (fuel : nat) (product_type product_identifier : Json)
    : M State Json :=
  r <- request_default fuel
         (JStr (api ++ "/product-service/v1/products/" ++ py_str product_type
                ++ "/" ++ py_str product_identifier ++ "/devicedetails"))
         "[TelenetClient|device_details]" None (Some 200) ;;
  json_or_False r.

Definition address_url (address_id : Json) : string :=
  api ++ "/contact-service/v1/contact/addresses/" ++ py_str address_id.

(** The fetch of [address] (lines 1187-1196): a body that arrived is
    cached under the address id. *)
Definition fetch_address (fuel : nat) (address_id : Json) (k : PyKey) : M State Json :=
  r <- request_default fuel (JStr (address_url address_id))
         "[TelenetClient|address]" None (Some 200) ;;
  match r with
  | None => ret PyFalse
  | Some response =>
      j <- response_json response ;;
      modify (fun c => set_addresses (dict_set PyKey_eqb k j (addresses c)) c) ;;
      ret j
  end.

(** [address], lines 1180-1196. *)
Definition address (fuel : nat) (address_id : Json) : M State Json :=
  if is_None address_id then ret (JObj [])
  else
    n <- lift_outcome (py_len address_id) ;;
    if n =? 0 then ret (JObj [])
    else
      k <- lift_outcome (py_key address_id) ;;
      cached <- gets (fun c => dict_get PyKey_eqb k (addresses c)) ;;
      match cached with
      | Some v => if negb (is_None v) then ret v else fetch_address fuel address_id k
      | None => fetch_address fuel address_id k
      end.

(** [plan_info], lines 1011-1025. *)
Definition plan_info (fuel : nat) : M State Json :=
  modify (set_plan_products []) ;;
  r <- request_default fuel
         (JStr (api ++ "/product-service/v1/product-subscriptions?producttypes=PLAN"))
         "[TelenetClient|planInfo]" None (Some 200) ;;
  match r with
  | None => ret PyFalse
  | Some response =>
      j <- response_json response ;;
      plans <- lift_outcome (py_iter j) ;;
      for_each plans (fun plan =>
        identifier <- get_ "identifier" plan ;;
        k <- lift_outcome (py_key identifier) ;;
        modify (fun c => set_plan_products (dict_set PyKey_eqb k plan (plan_products c)) c)) ;;
      ret PyFalse
  end.

(** [product_subscriptions], lines 1081-1098. *)
Definition product_subscriptions (fuel : nat) : M State unit :=
  types <- gets (@product_types W) ;;
  for_each types (fun product_type =>
    upper <- lift_outcome (py_upper product_type) ;;
    r <- request_default fuel
           (JStr (api ++ "/product-service/v1/product-subscriptions?producttypes="
                  ++ upper))
           "[TelenetClient|product_subscriptions]" None (Some 200) ;;
    match r with
    | None => continue_
    | Some response =>
        j <- response_json response ;;
        subscriptions <- lift_outcome (py_iter j) ;;
        for_each subscriptions (fun product =>
          identifier <- get_ "identifier" product ;;
          k <- lift_outcome (py_key identifier) ;;
          found <- gets (fun c => products_get k (all_products c)) ;;
          match found with
          | None => raise KeyError
          | Some p =>
              modify (fun c =>
                set_all_products
                  (products_set k (set_subscription_info product p) (all_products c)) c)
          end)
    end).

(* --------------------------------------------------------------------- *)
(** *** Product registration *)
(* --------------------------------------------------------------------- *)

(** [add_product_type], lines 189-193. *)
Definition add_product_type (product_type : Json) : M State unit :=
  modify (fun c =>
    if existsb (Json_eqb product_type) (product_types c) then c
    else set_product_types (product_types c ++ [product_type]) c).

(** [x > 0] for the result of [str_to_float]. *)
Definition py_positive (x : Json) : outcome bool :=
  match x with
  | JInt z => Ret (z >? 0)
  | JBool b => Ret b
  | JFloat r => Ret (float_positive runtime r)
  | _ => Raise TypeError
  end.

(** The first [try] block of [add_product] (lines 209-220): the sales
    price block when its value is positive, else [None]. *)
Definition sales_price (product_info : Json) : M State Json :=
  try_except
    (characteristics <- get_ "characteristics" product_info ;;
     salespricevatincl <- get_ "salespricevatincl" characteristics ;;
     value <- get_ "value" salespricevatincl ;;
     price <- lift_outcome (str_to_float utils value) ;;
     positive <- lift_outcome (py_positive price) ;;
     ret (if positive then salespricevatincl else JNull))
    (ret JNull).

(** The second [try] block (lines 224-229): the localized name, else the
    raw label. *)
Definition display_state (product product_info : Json) : M State Json :=
  try_except
    (content <- get_ "localizedcontent" product_info ;;
     localized <- lift_outcome (get_localized utils (language config) content) ;;
     get_ "name" localized)
    (get_ "label" product).

(** [add_product], lines 195-245.  The keyword arguments of the
    constructor call (line 230) are evaluated in the order they are
    written, the address lookup among them, before the call itself. *)
Definition add_product (fuel : nat) (product plan_identifier : Json)
    (state_prop : string) (plan_label : Json) : M State bool :=
  identifier <- get_ "identifier" product ;;
  k <- lift_outcome (py_key identifier) ;;
  present <- gets (fun c => dict_mem PyKey_eqb k (all_products c)) ;;
  if present then ret false
  else
    type <- get_ "productType" product ;;
    specurl <- get_ "specurl" product ;;
    info_price <-
      (if negb (is_None specurl) then
         details <- product_details fuel specurl ;;
         product_info <- get_ "product" details ;;
         price <- sales_price product_info ;;
         ret (product_info, price)
       else ret (JObj [], JNull)) ;;
    let product_info := fst info_price in
    let price := snd info_price in
    state <- display_state product product_info ;;
    address_id <- get_ "addressId" product ;;
    product_address <- address fuel address_id ;;
    record <- lift_outcome
      (new_TelenetProduct
         [("product_identifier", identifier);
          ("product_type", type);
          ("product_description_key", type);
          ("product_plan_identifier", plan_identifier);
          ("product_plan_label", plan_label);
          ("product_name", identifier);
          ("product_key",
           JStr (format_entity_name utils
                   (py_str identifier ++ " " ++ py_str type ++ " product")));
          ("product_state", state);
          ("product_specurl", specurl);
          ("product_info", product_info);
          ("product_address", product_address);
          ("product_price", price)]) ;;
    modify (fun c => set_all_products (products_set k record (all_products c)) c) ;;
    add_product_type type ;;
    ret true.

(* --------------------------------------------------------------------- *)
(** *** Derived sensors *)
(* --------------------------------------------------------------------- *)

(** [create_extra_sensors] runs over the client and its local table
    [new_products]. *)
Definition Synth : Type := (Client W * Products)%type.

Definition on_client {A} (m : M State A) : M Synth A :=
  fun s => let (r, c) := m (fst s) in (r, (c, snd s)).

Definition pure_ {A} (o : outcome A) : M Synth A := lift_outcome o.

(** [construct_extra_sensor], lines 319-350: the key and the record of the
    one-entry dict it returns.  The keyword arguments of the constructor
    call (line 337) are evaluated before the call: reading
    [product.product_plan_label] (line 342) comes first. *)
Definition construct_extra_sensor (product : TelenetProduct) (suffix : Json)
    (product_description_key : string) (product_state : Json)
    (product_extra_attributes : Json) (use_plan_identifier : bool)
    (native_unit_of_measurement : Json) : M Synth (string * TelenetProduct) :=
  let type := product_type product in
  let plan_identifier := product_plan_identifier product in
  let identifier :=
    if use_plan_identifier then plan_identifier else product_identifier product in
  let product_key :=
    format_entity_name utils
      (py_str identifier ++ " " ++ py_str type ++ " " ++ py_str suffix) in
  plan_label <- pure_ (py_getattr "product_plan_label" product) ;;
  record <- pure_
    (new_TelenetProduct
       [("product_identifier", JStr (py_str identifier ++ " " ++ py_str suffix));
        ("product_type", type);
        ("product_description_key", JStr product_description_key);
        ("product_plan_identifier", plan_identifier);
        ("product_plan_label", plan_label);
        ("product_name", JStr (py_str identifier ++ " " ++ py_str suffix));
        ("product_key", JStr product_key);
        ("product_state", product_state);
        ("product_extra_sensor", JBool true);
        ("product_extra_attributes", product_extra_attributes);
        ("native_unit_of_measurement", native_unit_of_measurement)]) ;;
  ret (product_key, record).

(** [new_products.update(self.construct_extra_sensor(...))]. *)
Definition emit (product : TelenetProduct) (suffix : Json)
    (product_description_key : string) (product_state : Json)
    (product_extra_attributes : Json) (use_plan_identifier : bool)
    (native_unit_of_measurement : Json) : M Synth unit :=
  sensor <- construct_extra_sensor product suffix product_description_key
              product_state product_extra_attributes use_plan_identifier
              native_unit_of_measurement ;;
  modify (fun s => (fst s, products_set (KStr (fst sensor)) (snd sensor) (snd s))).

(** [create_extra_attributes_list], lines 966-971: a copy of a mapping.
    Iterating anything else and indexing it by its own items is a
    [TypeError] (a list of integers that index it is not modelled). *)
Definition create_extra_attributes_list (attr_list : Json) : outcome Json :=
  match attr_list with
  | JObj o => Ret (JObj (jdict_update [] o))
  | JArr [] => Ret (JObj [])
  | JStr EmptyString => Ret (JObj [])
  | _ => Raise TypeError
  end.

(** [a + b] on numbers, for [self.total_cost += ...]. *)
Definition py_add (a b : Json) : outcome Json :=
  match a, b with
  | JInt x, JInt y => Ret (JInt (x + y))
  | JInt _, JFloat _ | JFloat _, JInt _ | JFloat _, JFloat _ =>
      Ret (float_add runtime a b)
  | _, _ => Raise TypeError
  end.

Definition add_to_total_cost (x : Json) : M Synth unit :=
  total <- on_client (gets (@total_cost W)) ;;
  sum <- pure_ (py_add total x) ;;
  on_client (modify (set_total_cost sum)).

(** [int(x)]: a string is read as an optionally signed decimal numeral
    (blanks, a leading plus and underscores, which Python accepts, are
    not). *)
Definition py_int (x : Json) : outcome Z :=
  match x with
  | JInt z => Ret z
  | JBool b => Ret (if b then 1 else 0)
  | JFloat r => float_trunc runtime r
  | JStr s =>
      match NilZero.int_of_string s with
      | Some d => Ret (Z.of_int d)
      | None => Raise ValueError
      end
  | _ => Raise TypeError
  end.

Definition path (j : Json) (p : string) : M Synth Json :=
  pure_ (get_json_dict_path utils j p).

Definition field (key : string) (x : Json) : M Synth Json :=
  pure_ (py_get key x).

Definition merged (a b : Json) : M Synth Json := pure_ (py_or a b).

(** The price sensor, lines 367-379.  [product_without_specurl] is the
    object of the table under another name, so the assignment of line 369
    shows in the table entry [k]; the product is handed on as it is after
    it. *)
Definition price_sensor (k : PyKey) (product : TelenetProduct)
    (product_type_attr : Json) : M Synth TelenetProduct :=
  price <- pure_ (py_getattr "product_price" product) ;;
  if negb (is_None price) then
    let product_without_specurl := set_instance_attribute "specurl" JNull product in
    on_client (modify (fun c =>
      set_all_products
        (products_mutate k (set_instance_attribute "specurl" JNull) (all_products c))
        c)) ;;
    price <- pure_ (py_getattr "product_price" product_without_specurl) ;;
    value <- field "value" price ;;
    cost <- pure_ (str_to_float utils value) ;;
    add_to_total_cost cost ;;
    price <- pure_ (py_getattr "product_price" product_without_specurl) ;;
    value <- field "value" price ;;
    state <- pure_ (str_to_float utils value) ;;
    price <- pure_ (py_getattr "product_price" product_without_specurl) ;;
    attributes <- merged price product_type_attr ;;
    emit product_without_specurl (JStr "price") "euro" state attributes false JNull ;;
    ret product_without_specurl
  else ret product.

(** The local lists and the local dict of the internet branch. *)
Record DailyUsage : Type := {
  by_cycle : list (PyKey * Json);
  daily_peak : list Json;
  daily_off_peak : list Json;
  daily_total : list Json;
  daily_date : list Json
}.

Fixpoint daily_days (days : list Json) (acc : DailyUsage) : M Synth DailyUsage :=
  match days with
  | [] => ret acc
  | day :: rest =>
      peak <- field "peak" day ;;
      off_peak <- field "offPeak" day ;;
      total <- field "total" day ;;
      date <- field "date" day ;;
      daily_days rest
        {| by_cycle := by_cycle acc;
           daily_peak := daily_peak acc ++ [peak];
           daily_off_peak := daily_off_peak acc ++ [off_peak];
           daily_total := daily_total acc ++ [total];
           daily_date := daily_date acc ++ [date] |}
  end.

(** The loop over the bill cycles, lines 402-421. *)
Fixpoint daily_cycles (fuel : nat) (type identifier : Json) (cycles : list Json)
    (acc : DailyUsage) : M Synth DailyUsage :=
  match cycles with
  | [] => ret acc
  | cycle :: rest =>
      bill_cycle <- field "billCycle" cycle ;;
      start_date <- field "startDate" cycle ;;
      end_date <- field "endDate" cycle ;;
      daily_usage <- on_client
        (product_daily_usage fuel type identifier bill_cycle start_date end_date) ;;
      n <- pure_ (py_len daily_usage) ;;
      if n =? 0 then daily_cycles fuel type identifier rest acc
      else
        k <- pure_ (py_key bill_cycle) ;;
        internet_usage <- field "internetUsage" daily_usage ;;
        first <- pure_ (py_first internet_usage) ;;
        daily_usages <- field "dailyUsages" first ;;
        days <- pure_ (py_iter daily_usages) ;;
        acc' <- daily_days days
                  {| by_cycle := dict_set PyKey_eqb k daily_usage (by_cycle acc);
                     daily_peak := daily_peak acc;
                     daily_off_peak := daily_off_peak acc;
                     daily_total := daily_total acc;
                     daily_date := daily_date acc |} ;;
        daily_cycles fuel type identifier rest acc'
  end.

(** The Wi-Fi sensors, lines 569-594. *)
Definition wifi_sensors (fuel : nat) (product : TelenetProduct) (modem : Json)
    : M Synth unit :=
  mac <- field "mac" modem ;;
  settings <- on_client (wireless_settings fuel mac (product_identifier product)) ;;
  if negb (is_False settings) then
    enabled <- field "wirelessEnabled" settings ;;
    attributes <- pure_ (create_extra_attributes_list settings) ;;
    emit product (JStr "wi-fi") "wifi" enabled attributes false JNull ;;
    roaming <- field "singleSSIDRoamingSettings" settings ;;
    has_key <- pure_ (py_in "networkKey" roaming) ;;
    if has_key then
      roaming <- field "singleSSIDRoamingSettings" settings ;;
      key <- field "networkKey" roaming ;;
      network_key <- pure_ (py_replace ":" "\:" key) ;;
      roaming <- field "singleSSIDRoamingSettings" settings ;;
      name <- field "name" roaming ;;
      let wifi_qr := "WIFI:S:" ++ py_str name ++ ";T:WPA;P:" ++ network_key ++ ";;" in
      emit product (JStr "wi-fi qr") "qr" (JStr wifi_qr) (JObj []) false JNull
    else ret tt
  else ret tt.

(** The internet branch, lines 381-594. *)
Definition internet_sensors (fuel : nat) (product : TelenetProduct)
    (product_specs : Json) : M Synth unit :=
  let type := product_type product in
  let identifier := product_identifier product in
  billcycle <- on_client (bill_cycles fuel type identifier 2) ;;
  start_date <- field "start_date" billcycle ;;
  end_date <- field "end_date" billcycle ;;
  usage <- on_client (product_usage fuel type identifier start_date end_date) ;;
  if is_False usage then continue_
  else
    cycles <- field "cycles" billcycle ;;
    cycles <- pure_ (py_iter cycles) ;;
    daily <- daily_cycles fuel type identifier cycles
               {| by_cycle := []; daily_peak := []; daily_off_peak := [];
                  daily_total := []; daily_date := [] |} ;;
    let current :=
      match dict_get PyKey_eqb (KStr "CURRENT") (by_cycle daily) with
      | Some v => v
      | None => JNull
      end in
    if is_False current then continue_
    else
      modem <- on_client (modems fuel identifier) ;;
      if is_False modem then continue_
      else
        report <- pure_ (internet_usage_report runtime (language config) identifier
                           usage billcycle current product_specs) ;;
        emit product (JStr "usage") "usage_percentage" (fst report) (snd report)
          false JNull ;;
        peak <- path current "$.internetUsage[0].totalUsage.peak" ;;
        total_usage <- path current "$.internetUsage[0].totalUsage" ;;
        totals <- pure_ (create_extra_attributes_list total_usage) ;;
        attributes <- merged totals
                        (JObj [("daily_peak", JArr (daily_peak daily));
                               ("daily_off_peak", JArr (daily_off_peak daily));
                               ("daily_total", JArr (daily_total daily));
                               ("daily_date", JArr (daily_date daily))]) ;;
        emit product (JStr "daily usage") "data_usage" peak attributes false JNull ;;
        name <- field "name" modem ;;
        attributes <- pure_ (create_extra_attributes_list modem) ;;
        emit product (JStr "modem") "modem" name attributes false JNull ;;
        mac <- field "mac" modem ;;
        topology <- on_client (network_topology fuel mac) ;;
        topology <- pure_ (clean_ipv6 utils topology) ;;
        model <- field "model" topology ;;
        attributes <- pure_ (create_extra_attributes_list topology) ;;
        emit product (JStr "network") "network" model attributes false JNull ;;
        wifi_sensors fuel product modem.

(** One sensor per item of [enumerate(devices.get("dtv"))], lines 641-652. *)
Fixpoint dtv_devices (product : TelenetProduct) (devices : Json) (idx : Z)
    (items : list Json) : M Synth unit :=
  match items with
  | [] => ret tt
  | _ :: rest =>
      box_name <- path devices ("$.dtv[" ++ PyStr.of_Z idx ++ "].boxName") ;;
      device <- path devices ("$.dtv[" ++ PyStr.of_Z idx ++ "]") ;;
      attributes <- pure_ (create_extra_attributes_list device) ;;
      emit product (JStr "dtv device") "dtv" box_name attributes false JNull ;;
      dtv_devices product devices (idx + 1) rest
  end.

(** The dtv branch, lines 595-652. *)
Definition dtv_sensors (fuel : nat) (product : TelenetProduct)
    (product_type_attr : Json) : M Synth unit :=
  let type := product_type product in
  let identifier := product_identifier product in
  if negb (product_ignore_extra_sensor product) then
    billcycle <- on_client (bill_cycles fuel type identifier 1) ;;
    start_date <- field "start_date" billcycle ;;
    end_date <- field "end_date" billcycle ;;
    usage <- on_client (product_usage fuel type identifier start_date end_date) ;;
    if is_False usage then continue_
    else
      devices <- on_client (device_details fuel type identifier) ;;
      if is_False devices then continue_
      else
        current <- path usage "$.dtv.totalUsage.currentUsage" ;;
        cost <- pure_ (str_to_float utils current) ;;
        add_to_total_cost cost ;;
        current <- path usage "$.dtv.totalUsage.currentUsage" ;;
        state <- pure_ (str_to_float utils current) ;;
        dtv <- path usage "$.dtv" ;;
        attributes <- pure_ (create_extra_attributes_list dtv) ;;
        attributes <- merged attributes product_type_attr ;;
        emit product (JStr "usage") "euro" state attributes false JNull ;;
        boxes <- field "dtv" devices ;;
        boxes <- pure_ (py_iter boxes) ;;
        dtv_devices product devices 0 boxes
  else ret tt.

(** [int(start) > 0 or int(remaining) > 0 or int(used) > 0], with the
    short circuit of [or]. *)
Definition bucket_in_use (data : Json) : M Synth bool :=
  start_units <- field "startUnits" data ;;
  n <- pure_ (py_int start_units) ;;
  if n >? 0 then ret true
  else
    remaining_units <- field "remainingUnits" data ;;
    n <- pure_ (py_int remaining_units) ;;
    if n >? 0 then ret true
    else
      used_units <- field "usedUnits" data ;;
      n <- pure_ (py_int used_units) ;;
      ret (n >? 0).

(** [{"days_until": days_until, "next_billing_date": next_billing_date}],
    with the [strptime] of the next billing date. *)
Definition billing_attributes (usage next_billing_date : Json) : M Synth Json :=
  date <- field "nextBillingDate" usage ;;
  days_until <- pure_ (days_until_billing runtime date) ;;
  ret (JObj [("days_until", days_until); ("next_billing_date", next_billing_date)]).

(** The "out of bundle" sensor of a usage record (lines 692-712, 759-776,
    843-861). *)
Definition out_of_bundle_sensor (product : TelenetProduct)
    (usage attr_to_merge product_type_attr : Json) (use_plan_identifier : bool)
    : M Synth unit :=
  used <- path usage "$.outOfBundle.usedUnits" ;;
  cost <- pure_ (str_to_float utils used) ;;
  add_to_total_cost cost ;;
  used <- path usage "$.outOfBundle.usedUnits" ;;
  state <- pure_ (str_to_float utils used) ;;
  out_of_bundle <- path usage "$.outOfBundle" ;;
  attributes <- pure_ (create_extra_attributes_list out_of_bundle) ;;
  attributes <- merged attributes attr_to_merge ;;
  attributes <- merged attributes product_type_attr ;;
  emit product (JStr "out of bundle") "euro" state attributes use_plan_identifier JNull.

(** The items of [usage.get("shared").get(bucket)]. *)
Definition shared_items (usage : Json) (bucket : string) : M Synth (list Json) :=
  shared <- field "shared" usage ;;
  items <- field bucket shared ;;
  pure_ (py_iter items).

(** The sensors of the shared bundle, lines 687-757. *)
Definition bundle_sensors (product : TelenetProduct)
    (bundleusage attr_to_merge product_type_attr : Json) : M Synth unit :=
  out_of_bundle_sensor product bundleusage attr_to_merge product_type_attr true ;;
  items <- shared_items bundleusage "data" ;;
  for_each items (fun data =>
    bucket_type <- field "bucketType" data ;;
    used_percentage <- field "usedPercentage" data ;;
    used_units <- field "usedUnits" data ;;
    start_units <- field "startUnits" data ;;
    unit_type <- field "unitType" data ;;
    attributes <- merged
      (JObj [("usage", JStr (py_str used_units ++ "/" ++ py_str start_units
                             ++ " " ++ py_str unit_type))]) data ;;
    attributes <- merged attributes attr_to_merge ;;
    emit product bucket_type "usage_percentage_mobile" used_percentage attributes
      true JNull) ;;
  items <- shared_items bundleusage "text" ;;
  for_each items (fun data =>
    state <- field "usedUnits" data ;;
    used_units <- field "usedUnits" data ;;
    attributes <- merged (JObj [("usage", JStr (py_str used_units ++ " SMSes"))]) data ;;
    emit product (JStr "sms") "mobile_sms" state attributes true JNull) ;;
  items <- shared_items bundleusage "voice" ;;
  for_each items (fun data =>
    used_units <- field "usedUnits" data ;;
    unit_type <- field "unitType" data ;;
    state <- pure_ (float_to_timestring utils used_units unit_type) ;;
    used_units <- field "usedUnits" data ;;
    unit_type <- field "unitType" data ;;
    usage_text <- pure_ (float_to_timestring utils used_units unit_type) ;;
    attributes <- merged (JObj [("usage", usage_text)]) data ;;
    attributes <- merged attributes attr_to_merge ;;
    emit product (JStr "voice") "mobile_voice" state attributes true JNull).

(** The sensors of one line of a bundle, lines 758-822. *)
Definition line_sensors (product : TelenetProduct)
    (usage attr_to_merge product_type_attr : Json) : M Synth unit :=
  out_of_bundle_sensor product usage attr_to_merge product_type_attr false ;;
  items <- shared_items usage "data" ;;
  for_each items (fun data =>
    name <- field "name" data ;;
    suffix <- pure_ (py_lower name) ;;
    used_units <- field "usedUnits" data ;;
    state <- pure_ (str_to_float utils used_units) ;;
    used_units <- field "usedUnits" data ;;
    unit_type <- field "unitType" data ;;
    attributes <- merged
      (JObj [("usage", JStr (py_str used_units ++ " " ++ py_str unit_type))]) data ;;
    attributes <- merged attributes attr_to_merge ;;
    unit_type <- field "unitType" data ;;
    emit product (JStr suffix) "mobile_data" state attributes false unit_type) ;;
  items <- shared_items usage "text" ;;
  for_each items (fun data =>
    name <- field "name" data ;;
    lowered <- pure_ (py_lower name) ;;
    state <- field "usedUnits" data ;;
    used_units <- field "usedUnits" data ;;
    attributes <- merged (JObj [("usage", JStr (py_str used_units ++ " SMSes"))]) data ;;
    attributes <- merged attributes attr_to_merge ;;
    emit product (JStr (PyStr.replace "text" "sms" lowered)) "mobile_sms" state
      attributes false JNull) ;;
  items <- shared_items usage "voice" ;;
  for_each items (fun data =>
    name <- field "name" data ;;
    suffix <- pure_ (py_lower name) ;;
    used_units <- field "usedUnits" data ;;
    unit_type <- field "unitType" data ;;
    state <- pure_ (float_to_timestring utils used_units unit_type) ;;
    used_units <- field "usedUnits" data ;;
    unit_type <- field "unitType" data ;;
    usage_text <- pure_ (float_to_timestring utils used_units unit_type) ;;
    attributes <- merged (JObj [("usage", usage_text)]) data ;;
    attributes <- merged attributes attr_to_merge ;;
    emit product (JStr suffix) "mobile_voice" state attributes false JNull).

(** The mobile branch for a line under a bundle ([plan_identifier !=
    identifier]), lines 657-822. *)
Definition mobile_bundle_line_sensors (fuel : nat) (product : TelenetProduct)
    (product_type_attr : Json) : M Synth unit :=
  let type := product_type product in
  let identifier := product_identifier product in
  let plan_identifier := product_plan_identifier product in
  details <- on_client (gets (@user_details W)) ;;
  identity_id <- field "identity_id" details ;;
  let bundle_key :=
    format_entity_name utils
      (py_str identity_id ++ " " ++ py_str plan_identifier ++ " " ++ py_str type
       ++ " bundle") in
  usage <- on_client (mobile_bundle_usage fuel plan_identifier identifier) ;;
  if is_False usage then continue_
  else
    next_billing_date <- field "nextBillingDate" usage ;;
    if is_False next_billing_date then continue_
    else
      attr_to_merge <- billing_attributes usage next_billing_date ;;
      bundleusage <- on_client (mobile_bundle_usage fuel plan_identifier JNull) ;;
      if is_False bundleusage then continue_
      else
        registered <- on_client
          (gets (fun c => products_get (KStr bundle_key) (all_products c))) ;;
        match registered with
        | None => bundle_sensors product bundleusage attr_to_merge product_type_attr
        | Some _ => ret tt
        end ;;
        line_sensors product usage attr_to_merge product_type_attr.

(** The mobile branch for a standalone line ([plan_identifier ==
    identifier]), lines 823-922. *)
Definition mobile_standalone_sensors (fuel : nat) (product : TelenetProduct)
    (product_type_attr : Json) : M Synth unit :=
  let identifier := product_identifier product in
  usage <- on_client (mobile_usage fuel identifier) ;;
  if is_False usage then continue_
  else
    next_billing_date <- field "nextBillingDate" usage ;;
    attr_to_merge <- billing_attributes usage next_billing_date ;;
    out_of_bundle_sensor product usage attr_to_merge product_type_attr true ;;
    total <- field "total" usage ;;
    data <- field "data" total ;;
    in_use <- bucket_in_use data ;;
    (if in_use then
       used_units <- field "usedUnits" data ;;
       state <- pure_ (str_to_float utils used_units) ;;
       used_units <- field "usedUnits" data ;;
       unit_type <- field "unitType" data ;;
       attributes <- merged
         (JObj [("usage", JStr (py_str used_units ++ " " ++ py_str unit_type))]) data ;;
       attributes <- merged attributes attr_to_merge ;;
       unit_type <- field "unitType" data ;;
       emit product (JStr "data") "mobile_data" state attributes false unit_type
     else ret tt) ;;
    total <- field "total" usage ;;
    data <- field "text" total ;;
    in_use <- bucket_in_use data ;;
    (if in_use then
       state <- field "usedUnits" data ;;
       used_units <- field "usedUnits" data ;;
       start_units <- field "startUnits" data ;;
       attributes <- merged
         (JObj [("usage", JStr (py_str used_units ++ " / " ++ py_str start_units
                                ++ " SMSes"))]) data ;;
       attributes <- merged attributes attr_to_merge ;;
       emit product (JStr "sms") "mobile_sms" state attributes false JNull
     else ret tt) ;;
    total <- field "total" usage ;;
    data <- field "voice" total ;;
    in_use <- bucket_in_use data ;;
    (if in_use then
       used_units <- field "usedUnits" data ;;
       unit_type <- field "unitType" data ;;
       state <- pure_ (float_to_timestring utils used_units unit_type) ;;
       used_units <- field "usedUnits" data ;;
       start_units <- field "startUnits" data ;;
       unit_type <- field "unitType" data ;;
       lowered <- pure_ (py_lower unit_type) ;;
       attributes <- merged
         (JObj [("usage", JStr (py_str used_units ++ " / " ++ py_str start_units
                                ++ " " ++ lowered))]) data ;;
       attributes <- merged attributes attr_to_merge ;;
       emit product (JStr "sms") "mobile_voice" state attributes false JNull
     else ret tt).

(** The body of the loop of [create_extra_sensors], lines 354-922, for the
    key [k] of the table. *)
Definition extra_sensors_for (fuel : nat) (k : PyKey) : M Synth unit :=
  found <- on_client (gets (fun c => products_get k (all_products c))) ;;
  match found with
  | None => raise KeyError
  | Some product =>
      let type := product_type product in
      details <- on_client (product_details fuel (product_specurl product)) ;;
      product_specs <- field "product" details ;;
      content <- field "localizedcontent" product_specs ;;
      localized <- pure_ (get_localized utils (language config) content) ;;
      name <- field "name" localized ;;
      let product_type_attr := JObj [("product type", name)] in
      product <- price_sensor k product product_type_attr ;;
      if json_is_str "internet" type then internet_sensors fuel product product_specs
      else if json_is_str "dtv" type then dtv_sensors fuel product product_type_attr
      else if json_is_str "mobile" type then
        if negb (Json_eqb (product_plan_identifier product) (product_identifier product))
        then mobile_bundle_line_sensors fuel product product_type_attr
        else mobile_standalone_sensors fuel product product_type_attr
      else ret tt
  end.

(** The two account-level sensors, lines 924-962. *)
Definition account_sensors : M Synth unit :=
  details <- on_client (gets (@user_details W)) ;;
  customer_number <- field "customer_number" details ;;
  let invoice_key :=
    format_entity_name utils (py_str customer_number ++ " current invoice") in
  customer_number <- field "customer_number" details ;;
  let invoice_identifier := JStr (py_str customer_number ++ " current invoice") in
  customer_number <- field "customer_number" details ;;
  total <- on_client (gets (@total_cost W)) ;;
  invoice <- pure_
    (new_TelenetProduct
       [("product_identifier", invoice_identifier);
        ("product_type", JStr "invoice");
        ("product_description_key", JStr "euro");
        ("product_name", JStr "current invoice");
        ("product_key", JStr invoice_key);
        ("product_plan_identifier", customer_number);
        ("product_plan_label", JStr "Customer");
        ("product_state", total);
        ("product_extra_sensor", JBool true)]) ;;
  modify (fun s => (fst s, products_set (KStr invoice_key) invoice (snd s))) ;;
  details <- on_client (gets (@user_details W)) ;;
  customer_number <- field "customer_number" details ;;
  let user_key :=
    format_entity_name utils (py_str customer_number ++ " user details") in
  customer_number <- field "customer_number" details ;;
  first_name <- field "first_name" details ;;
  user <- pure_
    (new_TelenetProduct
       [("product_identifier", JStr "user details");
        ("product_type", JStr "user");
        ("product_description_key", JStr "user");
        ("product_name", JStr "user details");
        ("product_key", JStr user_key);
        ("product_plan_identifier", customer_number);
        ("product_plan_label", JStr "Customer");
        ("product_state", first_name);
        ("product_extra_attributes", details);
        ("product_extra_sensor", JBool true)]) ;;
  modify (fun s => (fst s, products_set (KStr user_key) user (snd s))).

(** [create_extra_sensors], lines 352-964: the run over the client and
    [new_products]. *)
Definition synthesize (fuel : nat) : M Synth unit :=
  table <- on_client (gets (@all_products W)) ;;
  for_each (map fst table) (extra_sensors_for fuel) ;;
  account_sensors ;;
  modify (fun s =>
    (set_all_products (products_update (all_products (fst s)) (snd s)) (fst s),
     snd s)).

(** [create_extra_sensors] as a method of the client: [new_products] is
    local to the call. *)
Definition create_extra_sensors (fuel : nat) : M State bool :=
  fun c =>
    match synthesize fuel (c, []) with
    | (Ret _, s) => (Ret true, fst s)
    | (Raise e, s) => (Raise e, fst s)
    | (Continue, s) => (Continue, fst s)
    | (OutOfFuel, s) => (OutOfFuel, fst s)
    end.

(* --------------------------------------------------------------------- *)
(** *** Attribute projection *)
(* --------------------------------------------------------------------- *)

(** [models.py], the attribute classes: the names each class declares,
    the inherited ones first. *)
Definition TelenetBaseProductExtraAttributes : list string :=
  ["activationDate"; "identifier"; "label"; "status"; "productType"; "specurl"].

Definition TelenetInternetProductExtraAttributes : list string :=
  TelenetBaseProductExtraAttributes ++ ["internetType"].

Definition TelenetMobileProductExtraAttributes : list string :=
  TelenetBaseProductExtraAttributes
  ++ ["isDataOnlyPlan"; "bundleIdentifier"; "hasVoiceMail"; "bundleType"].

Definition TelenetDtvProductExtraAttributes : list string :=
  TelenetBaseProductExtraAttributes
  ++ ["bundleIdentifier"; "isInteractive"; "lineType"].

Definition TelenetTelephoneProductExtraAttributes : list string :=
  TelenetBaseProductExtraAttributes ++ ["hasVoiceMail"].

Definition TelenetBundleProductExtraAttributes : list string :=
  TelenetBaseProductExtraAttributes
  ++ ["products"; "bundleFamily"; "hasActiveMyBill"].

Fixpoint insert_sorted (x : string) (l : list string) : list string :=
  match l with
  | [] => [x]
  | y :: l' => if String.leb x y then x :: l else y :: insert_sorted x l'
  end.

(** The names [dir(attributes)] lists that pass [key[0:2] != "__"]: the
    declared ones, in the sorted order of [dir]. *)
Definition dir_public (declared : list string) : list string :=
  fold_right insert_sorted [] declared.

(** The [if]/[elif] chain of lines 987-996; a type outside the five leaves
    the variable [attributes] as it was. *)
Definition attributes_for (type : Json) (previous : option (list string))
    : option (list string) :=
  if json_is_str "internet" type then Some TelenetInternetProductExtraAttributes
  else if json_is_str "mobile" type then Some TelenetMobileProductExtraAttributes
  else if json_is_str "dtv" type then Some TelenetDtvProductExtraAttributes
  else if json_is_str "telephone" type then Some TelenetTelephoneProductExtraAttributes
  else if json_is_str "bundle" type then Some TelenetBundleProductExtraAttributes
  else previous.

(** The loop of lines 997-1000. *)
Fixpoint project_attributes (keys : list string) (info : Json)
    (extra_attributes : list (string * Json)) : outcome (list (string * Json)) :=
  match keys with
  | [] => Ret extra_attributes
  | key :: rest =>
      match py_in key info with
      | Ret true =>
          match py_get key info with
          | Ret v => project_attributes rest info (jdict_set key v extra_attributes)
          | Raise e => Raise e
          | Continue => Continue
          | OutOfFuel => OutOfFuel
          end
      | Ret false => project_attributes rest info extra_attributes
      | Raise e => Raise e
      | Continue => Continue
      | OutOfFuel => OutOfFuel
      end
  end.

(** The source record of a product, lines 978-981. *)
Definition source_record (product : TelenetProduct) : M State Json :=
  n <- lift_outcome (py_len (product_subscription_info product)) ;;
  if n >? 0 then ret (product_subscription_info product)
  else
    k <- lift_outcome (py_key (product_identifier product)) ;;
    plan <- gets (fun c => dict_get PyKey_eqb k (plan_products c)) ;;
    ret (match plan with Some v => v | None => JNull end).

(** The loop of [set_extra_attributes] over the keys of the table;
    [attributes] is the local variable of that name, unbound at first. *)
Fixpoint set_extra_attributes_loop (keys : list PyKey)
    (attributes : option (list string)) : M State unit :=
  match keys with
  | [] => ret tt
  | k :: rest =>
      found <- gets (fun c => products_get k (all_products c)) ;;
      match found with
      | None => raise KeyError
      | Some product =>
          if negb (product_extra_sensor product) then
            info <- source_record product ;;
            (* the log line formats [len(info)] *)
            lift_outcome (py_len info) ;;
            let attributes := attributes_for (product_type product) attributes in
            match attributes with
            | None => raise UnboundLocalError
            | Some declared =>
                extra_attributes <-
                  lift_outcome (project_attributes (dir_public declared) info []) ;;
                updated <- lift_outcome
                  (py_or (product_extra_attributes product) (JObj extra_attributes)) ;;
                modify (fun c =>
                  set_all_products
                    (products_set k (set_extra_attributes_field updated product)
                       (all_products c)) c) ;;
                set_extra_attributes_loop rest attributes
            end
          else set_extra_attributes_loop rest attributes
      end
  end.

(** [set_extra_attributes], lines 973-1002. *)
Definition set_extra_attributes : M State bool :=
  table <- gets (@all_products W) ;;
  set_extra_attributes_loop (map fst table) None ;;
  ret true.

(* --------------------------------------------------------------------- *)
(** *** Discovery *)
(* --------------------------------------------------------------------- *)

Definition products_url : string :=
  api ++ "/product-service/v1/products?status=ACTIVE".

Definition no_products_message : string :=
  "No products found. Either the API is currently down or you are not migrated to the new Telenet IT system yet.".

(** [[self.all_products.get(product) for product in self.all_products]]. *)
Definition product_list (c : State) : list TelenetProduct :=
  map snd (all_products c).

(** The options of one child, lines 292-300. *)
Definition register_options (fuel : nat) (product plan_identifier plan_label : Json)
    : M State unit :=
  has_options <- lift_outcome (py_in "options" product) ;;
  if has_options then
    options <- get_ "options" product ;;
    n <- lift_outcome (py_len options) ;;
    if negb (n =? 0) then
      options <- get_ "options" product ;;
      options <- lift_outcome (py_iter options) ;;
      for_each options (fun option =>
        has_identifier <- lift_outcome (py_in "identifier" option) ;;
        if has_identifier then
          add_product fuel option plan_identifier "label" plan_label ;; ret tt
        else ret tt)
    else ret tt
  else ret tt.

(** The loop over the children of a plan, lines 286-307; the result is
    [dtv_found]. *)
Fixpoint register_children (fuel : nat) (children : list Json)
    (plan_identifier plan_label : Json) (dtv_found : bool) : M State bool :=
  match children with
  | [] => ret dtv_found
  | product :: rest =>
      type <- get_ "productType" product ;;
      let dtv_found := if json_is_str "dtv" type then true else dtv_found in
      register_options fuel product plan_identifier plan_label ;;
      add_product fuel product plan_identifier "label" plan_label ;;
      register_children fuel rest plan_identifier plan_label dtv_found
  end.

(** One top-level entry of the active-products list, lines 274-312. *)
Definition register_plan (fuel : nat) (a_product : Json) : M State unit :=
  plan_identifier <- get_ "identifier" a_product ;;
  plan_label <- get_ "label" a_product ;;
  add_product fuel a_product plan_identifier "label" plan_label ;;
  children <- get_ "children" a_product ;;
  children <- lift_outcome (py_iter children) ;;
  dtv_found <- register_children fuel children plan_identifier plan_label false ;;
  type <- get_ "productType" a_product ;;
  if dtv_found && json_is_str "dtv" type then
    k <- lift_outcome (py_key plan_identifier) ;;
    found <- gets (fun c => products_get k (all_products c)) ;;
    match found with
    | None => raise AttributeError
    | Some p =>
        modify (fun c =>
          set_all_products
            (products_set k (set_ignore_extra_sensor true p) (all_products c)) c)
    end
  else ret tt.

(** [products], lines 251-317. *)
Definition products (fuel : nat) (force_refresh : bool) : M State (list TelenetProduct) :=
  cached <- gets (@all_products W) ;;
  if Nat.ltb 0 (List.length cached) && negb force_refresh then gets product_list
  else
    login fuel ;;
    modify (set_total_cost (JInt 0)) ;;
    modify (set_all_products []) ;;
    modify (set_product_types []) ;;
    r <- request_default fuel (JStr products_url) "[TelenetClient|products]"
           None (Some 200) ;;
    match r with
    | None => raise (TelenetServiceException no_products_message)
    | Some response =>
        j <- response_json response ;;
        plans <- lift_outcome (py_iter j) ;;
        for_each plans (register_plan fuel) ;;
        product_subscriptions fuel ;;
        plan_info fuel ;;
        create_extra_sensors fuel ;;
        set_extra_attributes ;;
        gets product_list
    end.

(** [products_refreshed], lines 247-249. *)
Definition products_refreshed (fuel : nat) : M State (list TelenetProduct) :=
  products fuel true.

End TelenetClient.

(* ===================================================================== *)
(** ** A portal to run the client against *)
(* ===================================================================== *)

(** Concrete instances of the parameters, for the closed examples below:
    a scripted portal, and the helpers of [utils.py] as the specification
    describes them. *)
Module Sample.

(** A portal serves each URL from a queue of responses: the head answers
    the request and is dropped while others wait behind it; the last one
    stays.  A URL without a route has no server behind it. *)
Definition Portal : Type := list (string * list Response).

Fixpoint serve (u : string) (p : Portal) : (Response + exn) * Portal :=
  match p with
  | [] => (inr (TransportError "ConnectionError"), [])
  | (u', queue) :: p' =>
      if String.eqb u u' then
        match queue with
        | [] => (inr (TransportError "ConnectionError"), p)
        | [r] => (inl r, p)
        | r :: rest => (inl r, (u', rest) :: p')
        end
      else let (a, q) := serve u p' in (a, (u', queue) :: q)
  end.

#[export] Instance portal_transport : Transport Portal := {
  send rq p :=
    match req_url rq with
    | JStr u => serve u p
    | _ => (inr (TransportError "MissingSchema"), p)
    end;
  cookie _ _ := JStr "xsrf"
}.

(** The text of a JSON body (no string of the examples needs escaping). *)
Fixpoint render (j : Json) : string :=
  match j with
  | JNull => "null"
  | JBool true => "true"
  | JBool false => "false"
  | JInt z => PyStr.of_Z z
  | JFloat r => r
  | JStr s => PyStr.dquote ++ s ++ PyStr.dquote
  | JArr l =>
      "[" ++ (fix items (l : list Json) : string :=
                match l with
                | [] => ""
                | [x] => render x
                | x :: l' => render x ++ "," ++ items l'
                end) l ++ "]"
  | JObj o =>
      "{" ++ (fix fields (o : list (string * Json)) : string :=
                match o with
                | [] => ""
                | [(k, v)] => PyStr.dquote ++ k ++ PyStr.dquote ++ ":" ++ render v
                | (k, v) :: o' =>
                    PyStr.dquote ++ k ++ PyStr.dquote ++ ":" ++ render v ++ ","
                    ++ fields o'
                end) o ++ "}"
  end.

(** A response with a JSON body, and one with a plain text body. *)
Definition json_response (status : Z) (u : string) (j : Json) : Response :=
  {| status_code := status; text := render j; resp_url := u; json_body := Some j |}.

Definition text_response (status : Z) (u body : string) : Response :=
  {| status_code := status; text := body; resp_url := u; json_body := None |}.

(** A route that always answers [status] with the body [j]. *)
Definition route (status : Z) (u : string) (j : Json) : string * list Response :=
  (u, [json_response status u j]).

(** Modelled from the spec: [format_entity_name] of [utils.py] (slug/key
    generation for stable sensor identifiers): lower case, blanks to
    underscores. *)
Definition format_entity_name_model (s : string) : string :=
  PyStr.replace " " "_" (PyStr.lower s).

(** Modelled from the spec: [get_localized] of [utils.py] (localized-string
    selection from a list of per-language entries): the entry whose
    [locale] is the language, else the first entry. *)
Definition get_localized_model (language content : Json) : outcome Json :=
  match content with
  | JArr entries =>
      match find (fun e => match py_get "locale" e with
                           | Ret l => Json_eqb l language
                           | _ => false
                           end) entries with
      | Some e => Ret e
      | None => py_first content
      end
  | _ => Raise TypeError
  end.

(** Modelled from the spec: [str_to_float] of [utils.py] (numeric string
    parsing with locale-safe decimal handling). *)
Definition str_to_float_model (x : Json) : outcome Json :=
  match x with
  | JInt z => Ret (JFloat (PyStr.of_Z z ++ ".0"))
  | JFloat r => Ret (JFloat r)
  | JStr s => Ret (JFloat (PyStr.replace "," "." s))
  | _ => Raise TypeError
  end.

(** Modelled from the spec: [float_to_timestring] of [utils.py] (duration
    formatting from a raw counter and its unit type). *)
Definition float_to_timestring_model (units unit_type : Json) : outcome Json :=
  match units, unit_type with
  | JInt z, JStr u => Ret (JStr (PyStr.of_Z z ++ " " ++ PyStr.lower u))
  | JFloat r, JStr u => Ret (JStr (r ++ " " ++ PyStr.lower u))
  | JStr s, JStr u => Ret (JStr (s ++ " " ++ PyStr.lower u))
  | _, _ => Raise TypeError
  end.

Definition path_index (s : string) : option nat :=
  match NilZero.int_of_string (PyStr.replace "]" "" s) with
  | Some d => Some (Z.to_nat (Z.of_int d))
  | None => None
  end.

Fixpoint path_walk (segments : list string) (j : Json) : Json :=
  match segments with
  | [] => j
  | segment :: rest =>
      match PyStr.split "[" 1 segment, j with
      | [name], JObj o =>
          match jdict_get name o with
          | Some v => path_walk rest v
          | None => JNull
          end
      | [name; index], JObj o =>
          match jdict_get name o, path_index index with
          | Some (JArr l), Some n =>
              match nth_error l n with
              | Some v => path_walk rest v
              | None => JNull
              end
          | _, _ => JNull
          end
      | _, _ => JNull
      end
  end.

(** Modelled from the spec: [get_json_dict_path] of [utils.py] (reads a
    nested value out of a JSON tree given a dotted/indexed path string;
    null on any missing segment). *)
Definition get_json_dict_path_model (j : Json) (p : string) : outcome Json :=
  match PyStr.split "." 64 p with
  | "$" :: segments => Ret (path_walk segments j)
  | _ => Ret JNull
  end.

(** Modelled from the spec: [clean_ipv6] of [utils.py] (IPv6 string
    normalization); a tree without addresses is returned as it is. *)
Definition clean_ipv6_model (j : Json) : outcome Json := Ret j.

(** Modelled from the spec: [CONNECTION_RETRY] of [const.py] (a fixed
    small integer, e.g. 3). *)
Definition utils_model (fmt : string -> string) : Utils :=
  {| CONNECTION_RETRY := 3;
     format_entity_name := fmt;
     get_localized := get_localized_model;
     str_to_float := str_to_float_model;
     float_to_timestring := float_to_timestring_model;
     get_json_dict_path := get_json_dict_path_model;
     clean_ipv6 := clean_ipv6_model |}.

Definition utils : Utils := utils_model format_entity_name_model.

(** Floats by their [repr]: the sample runtime takes every float that is
    not written with a minus sign or as zero for positive.  It has no
    arithmetic of floats, no usage report and no calendar: [float_add],
    [float_trunc], [internet_usage_report] and [days_until_billing] are
    stand-ins here, and no run below gets to one of them. *)
Definition runtime : Runtime :=
  {| py_repr := fun _ => "<object>";
     float_add := fun a b => b;
     float_positive := fun r =>
       negb (String.prefix "-" r) && negb (String.eqb r "0.0");
     float_trunc := fun _ => Ret 0;
     internet_usage_report := fun _ _ _ _ _ _ => Ret (JFloat "50.0", JObj []);
     days_until_billing := fun _ => Ret (JInt 10) |}.

Definition production : TelenetEnvironment :=
  {| ocapi := "https://api.prd.telenet.be/ocapi";
     openid := "https://login.prd.telenet.be/openid";
     referer := "https://www2.telenet.be/residential/nl/mytelenet";
     x_alt_referer := "https://www2.telenet.be/residential/nl/mytelenet" |}.

Definition account : Config :=
  {| username := JStr "user@example.org";
     password := JStr "secret";
     language := JStr "nl";
     environment := production |}.

(** A client as [__init__] leaves it, in front of the portal [p]. *)
Definition client (p : Portal) : Client Portal :=
  {| world := p; sent := []; xsrf_header := JNull;
     all_products := []; product_types := [];
     user_details := JObj []; plan_products := []; addresses := [];
     request_error := JObj []; total_cost := JInt 0 |}.

(** The user-detail record of the account. *)
Definition user_record : Json :=
  JObj [("customer_number", JStr "1234567"); ("first_name", JStr "An");
        ("identity_id", JStr "id-1")].

(** The session is valid: the probe of [login] is answered with 200. *)
Definition logged_in : string * list Response :=
  route 200 (probe_url account) user_record.

End Sample.

(** The accounts and portals of the closed examples. *)
Module Fixture.
Import Sample.

(** *** The dispatcher *)

(** An endpoint that answers 401 whatever the session, behind a login
    that succeeds. *)
Definition expired_portal : Portal :=
  [route 401 products_url (JObj [("message", JStr "Unauthorized")]); logged_in].

(** 403 with the known error code, with another error code, and without
    a JSON body (the last one followed by the answer proper). *)
Definition forbidden_known : Portal :=
  [route 403 products_url
     (JObj [("code", JStr "OCAPI-ERR-667"); ("cause", JStr "Access forbidden")]);
   logged_in].

Definition forbidden_other : Portal :=
  [route 403 products_url
     (JObj [("code", JStr "OCAPI-ERR-403"); ("cause", JStr "No access")]);
   logged_in].

Definition forbidden_once : Portal :=
  [(products_url,
    [text_response 403 products_url "Forbidden"; json_response 200 products_url (JArr [])]);
   logged_in].

(** A 403 whose text holds the word [code] in a body that is no JSON, and
    in a JSON body that is a list. *)
Definition forbidden_text : Portal :=
  [(products_url, [text_response 403 products_url "Forbidden (error code 17)"]);
   logged_in].

Definition forbidden_list : Portal :=
  [route 403 products_url (JArr [JStr "code"]); logged_in].

(** *** Login *)

Definition login_page : string := "https://login.prd.telenet.be/openid/login".

(** The transcript of a handshake: 401 with [state,nonce], the authorize
    step landing on the login page, the credential POST, and the user
    details [details]. *)
Definition handshake (details : Json) : Portal :=
  [(probe_url account,
    [text_response 401 (probe_url account) "st4te,n0nce";
     json_response 200 user_details_url details]);
   (authorize_url account "st4te" "n0nce",
    [text_response 200 login_page "<html>login</html>"]);
   (login_do_url account,
    [text_response 200 "https://www2.telenet.be/residential/nl/mytelenet" "<html/>"])].

Definition degraded_record : Json := JObj [("error", JStr "degraded")].

(** *** Discovery *)

Definition plan_url : string :=
  api ++ "/product-service/v1/product-subscriptions?producttypes=PLAN".

(** An account whose active-products list is empty, and one whose
    active-products endpoint is not found. *)
Definition empty_account : Portal :=
  [logged_in; route 200 products_url (JArr []); route 200 plan_url (JArr [])].

Definition unmigrated_account : Portal :=
  [logged_in; route 404 products_url (JObj [("message", JStr "Not found")])].

(** *** Products *)

Definition spec_sheet (name : string) : Json :=
  JObj [("product",
         JObj [("localizedcontent",
                JArr [JObj [("locale", JStr "nl"); ("name", JStr name)]]);
               ("characteristics", JObj [])])].

Definition king_url : string := "https://api.prd.telenet.be/omapi/public/product/king".
Definition all_internet_url : string :=
  "https://api.prd.telenet.be/omapi/public/product/all-internet".
Definition freephone_url : string :=
  "https://api.prd.telenet.be/omapi/public/product/freephone".

(** A standalone mobile line: its plan is the line itself. *)
Definition mobile_line : Json :=
  JObj [("identifier", JStr "0470123456"); ("productType", JStr "mobile");
        ("label", JStr "KING"); ("specurl", JStr king_url);
        ("children", JArr [])].

Definition bucket (start remaining used unit : string) : Json :=
  JObj [("startUnits", JStr start); ("remainingUnits", JStr remaining);
        ("usedUnits", JStr used); ("unitType", JStr unit)].

(** The usage of the line: no data, 12 of 200 SMS sent, 30 of 150
    minutes called. *)
Definition mobile_line_usage : Json :=
  JObj [("nextBillingDate", JStr "2023-07-01T00:00:00.0+02:00");
        ("outOfBundle", JObj [("usedUnits", JStr "0,00")]);
        ("total", JObj [("data", bucket "0" "0" "0" "GB");
                        ("text", bucket "200" "188" "12" "SMS");
                        ("voice", bucket "150" "120" "30" "MINUTES")])].

Definition mobile_routes : Portal :=
  [route 200 king_url (spec_sheet "KING");
   route 200 (mobile_usage_url runtime (JStr "0470123456")) mobile_line_usage].


(** The same product with every endpoint of the internet branch in
    place. *)
Definition internet_bill_cycles : Json :=
  JObj [("billCycles",
         JArr [JObj [("billCycle", JStr "CURRENT"); ("startDate", JStr "2023-06-01");
                     ("endDate", JStr "2023-06-30")]])].

Definition internet_usage : Json :=
  JObj [("internet", JObj [("totalUsage", JObj [("units", JInt 10)])])].

Definition internet_daily_usage : Json :=
  JObj [("internetUsage",
         JArr [JObj [("totalUsage", JObj [("peak", JInt 5); ("offPeak", JInt 2)]);
                     ("dailyUsages",
                      JArr [JObj [("peak", JInt 1); ("offPeak", JInt 0);
                                  ("total", JInt 1); ("date", JStr "2023-06-01")]])]])].

Definition internet_routes : Portal :=
  [route 200 all_internet_url (spec_sheet "All-Internet");
   route 200 (bill_cycles_url runtime (JStr "internet") (JStr "i1234567") 2)
     internet_bill_cycles;
   route 200
     (api ++ "/product-service/v1/products/internet/i1234567/usage?fromDate=2023-06-01&toDate=2023-06-30")
     internet_usage;
   route 200
     (api ++ "/product-service/v1/products/internet/i1234567/dailyusage?billcycle=CURRENT&fromDate=2023-06-01&toDate=2023-06-30")
     internet_daily_usage;
   route 200 (api ++ "/resource-service/v1/modems?productIdentifier=i1234567")
     (JObj [("mac", JStr "AA:BB:CC:DD:EE:FF"); ("name", JStr "CH7465LG")]);
   route 200
     (api ++ "/resource-service/v1/network-topology/AA:BB:CC:DD:EE:FF?withClients=true")
     (JObj [("model", JStr "CH7465LG")]);
   route 200
     (wireless_settings_url runtime (JStr "AA:BB:CC:DD:EE:FF") (JStr "i1234567"))
     (JObj [("wirelessEnabled", JStr "Yes");
            ("singleSSIDRoamingSettings",
             JObj [("name", JStr "telenet-1234"); ("networkKey", JStr "pass:word:1")])])].

(** A telephone product with its subscription record. *)
Definition telephone_line : Json :=
  JObj [("identifier", JStr "t09123456"); ("productType", JStr "telephone");
        ("label", JStr "FreePhone"); ("specurl", JStr freephone_url);
        ("children", JArr [])].

Definition telephone_subscription : Json :=
  JObj [("identifier", JStr "t09123456"); ("productType", JStr "telephone");
        ("label", JStr "FreePhone"); ("status", JStr "ACTIVE");
        ("hasVoiceMail", JBool true); ("lineNumber", JStr "09123456")].

Definition telephone_account : Portal :=
  [logged_in;
   route 200 products_url (JArr [telephone_line]);
   route 200 freephone_url (spec_sheet "FreePhone");
   route 200
     (api ++ "/product-service/v1/product-subscriptions?producttypes=TELEPHONE")
     (JArr [telephone_subscription]);
   route 200 plan_url (JArr [])].

(** *** Wi-Fi *)

Definition modem : Json :=
  JObj [("mac", JStr "AA:BB:CC:DD:EE:FF"); ("name", JStr "CH7465LG")].

Definition wifi_url : string :=
  wireless_settings_url runtime (JStr "AA:BB:CC:DD:EE:FF") (JStr "i1234567").

Definition wifi_settings (roaming : list (string * Json)) : list (string * Json) :=
  [("wirelessEnabled", JStr "Yes"); ("singleSSIDRoamingSettings", JObj roaming)].

Definition roaming_with_key : list (string * Json) :=
  [("name", JStr "telenet-1234"); ("networkKey", JStr "pass:word:1")].


Definition wifi_portal (roaming : list (string * Json)) : Portal :=
  [route 200 wifi_url (JObj (wifi_settings roaming))].

(** *** Products of the table *)

(** A product as [TelenetProduct(product_identifier=..., product_type=...,
    product_name=..., product_specurl=..., product_plan_identifier=...)]
    makes it, every other field at its default, with the attributes
    [attributes] set on the instance afterwards. *)
Definition product (identifier type specurl : string)
    (attributes : list (string * Json)) : TelenetProduct :=
  {| product_name := JStr identifier;
     product_key := JStr "";
     product_description_key := JStr "";
     product_suffix := JStr "";
     product_state := JStr "Inactive";
     product_identifier := JStr identifier;
     product_type := JStr type;
     product_description := JStr "";
     product_specurl := JStr specurl;
     product_info := default_product_info;
     product_plan_identifier := JStr identifier;
     product_subscription_info := default_product_subscription_info;
     product_extra_attributes := default_product_extra_attributes;
     product_extra_sensor := false;
     product_ignore_extra_sensor := false;
     instance_attributes := attributes |}.

(** The attributes [add_product] means a product to have: a plan label and
    no price. *)
Definition labelled (label : string) : list (string * Json) :=
  [("product_plan_label", JStr label); ("product_price", JNull)].


Definition mobile_product : TelenetProduct :=
  product "0470123456" "mobile" king_url (labelled "KING").

Definition telephone_product : TelenetProduct :=
  product "t09123456" "telephone" freephone_url (labelled "FreePhone").


Definition usage_sensor : TelenetProduct :=
  {| product_name := JStr "i1234567 usage";
     product_key := JStr "i1234567_internet_usage";
     product_description_key := JStr "usage_percentage";
     product_suffix := JStr "";
     product_state := JInt 50;
     product_identifier := JStr "i1234567 usage";
     product_type := JStr "internet";
     product_description := JStr "";
     product_specurl := JStr "";
     product_info := default_product_info;
     product_plan_identifier := JStr "i1234567";
     product_subscription_info := default_product_subscription_info;
     product_extra_attributes := JObj [];
     product_extra_sensor := true;
     product_ignore_extra_sensor := false;
     instance_attributes := [] |}.

(** A client that holds [table] as its products. *)
Definition holding (table : Products) (c : Client Portal) : Client Portal :=
  set_all_products table c.

(** *** Addresses *)

Definition unknown_address : Portal :=
  [route 404 (address_url runtime (JStr "A1")) (JObj [("message", JStr "Not found")])].

Definition known_address : Portal :=
  [route 200 (address_url runtime (JStr "A1")) (JObj [("street", JStr "Liersesteenweg")])].

(** *** Runs *)

Definition depth : nat := 4.

(** *** More portals *)

(** An endpoint behind a gateway that is down. *)
Definition bad_gateway : Portal :=
  [route 502 products_url (JObj [("message", JStr "Bad gateway")])].

(** The probe of [login] answered with 503, and with 401 but no pair of
    tokens. *)
Definition maintenance : Portal :=
  [route 503 (probe_url account) (JObj [("message", JStr "Maintenance")])].

Definition tokenless : Portal :=
  [(probe_url account, [text_response 401 (probe_url account) "denied"])].

(** A handshake whose authorize step lands on an error page, and one
    whose credentials are refused. *)
Definition handshake_off_page : Portal :=
  [(probe_url account, [text_response 401 (probe_url account) "st4te,n0nce"]);
   (authorize_url account "st4te" "n0nce",
    [text_response 200 "https://login.prd.telenet.be/openid/error" "<html>error</html>"])].

Definition handshake_refused : Portal :=
  [(probe_url account, [text_response 401 (probe_url account) "st4te,n0nce"]);
   (authorize_url account "st4te" "n0nce",
    [text_response 200 login_page "<html>login</html>"]);
   (login_do_url account,
    [text_response 200
       "https://login.prd.telenet.be/openid/login?authentication_error=true"
       "Wrong password"])].

(** The daily usage of the internet product refused. *)
Definition daily_usage_url : string :=
  api ++ "/product-service/v1/products/internet/i1234567/dailyusage?billcycle=CURRENT&fromDate=2023-06-01&toDate=2023-06-30".

Definition internet_cycle : list (string * Json) :=
  [("billCycle", JStr "CURRENT"); ("startDate", JStr "2023-06-01");
   ("endDate", JStr "2023-06-30")].

Definition daily_usage_refused : Portal :=
  [route 401 daily_usage_url (JObj [("message", JStr "Unauthorized")])].

(** Two plans. *)
Definition plan_king : Json :=
  JObj [("identifier", JStr "0470123456"); ("label", JStr "KING")].

Definition plan_internet : Json :=
  JObj [("identifier", JStr "i1234567"); ("label", JStr "All-Internet")].

Definition plans_portal : Portal :=
  [route 200 plan_url (JArr [plan_king; plan_internet])].

(** The subscriptions of the telephone products. *)
Definition telephone_subscriptions_url : string :=
  api ++ "/product-service/v1/product-subscriptions?producttypes=TELEPHONE".

Definition telephone_subscriptions : Portal :=
  [route 200 telephone_subscriptions_url (JArr [telephone_subscription])].

(** A client that knows its user. *)
Definition known_user (p : Portal) : Client Portal :=
  set_user_details user_record (client p).

(** An endpoint that answers 401 in front of a login that cannot be
    reached. *)
Definition login_unreachable : Portal :=
  [route 401 products_url (JObj [("message", JStr "Unauthorized")])].

End Fixture.

(* ===================================================================== *)
(** ** What a method leaves alone *)
(* ===================================================================== *)

(** A relation between the state before and the state after that holds of
    doing nothing and composes. *)
Class Frame {S : Type} (R : S -> S -> Prop) : Prop := {
  frame_refl : forall s, R s s;
  frame_trans : forall a b c, R a b -> R b c -> R a c
}.

(** [m] keeps [R]: however [m] ends (a value, an exception, [continue],
    the recursion depth used up), the state it leaves is related to the one
    it started from. *)
Definition Keeps {S A : Type} (R : S -> S -> Prop) (m : M S A) : Prop :=
  forall s, R s (snd (m s)).

(** The tables of the client are as they were: the products, the product
    types, the plans and the address cache. *)
Definition tables_kept {W : Type} (c c' : Client W) : Prop :=
  all_products c' = all_products c
  /\ product_types c' = product_types c
  /\ plan_products c' = plan_products c
  /\ addresses c' = addresses c.

(** Only the session has moved: the tables and the total cost are as they
    were, and the traffic of before is a prefix of the traffic of after. *)
Definition session_only {W : Type} (c c' : Client W) : Prop :=
  tables_kept c c'
  /\ total_cost c' = total_cost c
  /\ exists l, sent c' = (sent c ++ l)%list.

(** The same for the address lookups of [add_product]: the address cache
    may have grown, the products and their types are as they were. *)
Definition products_kept {W : Type} (c c' : Client W) : Prop :=
  all_products c' = all_products c /\ product_types c' = product_types c.

(** A record made by the synthesis, not by the discovery. *)
Definition derived (kv : PyKey * TelenetProduct) : Prop :=
  product_extra_sensor (snd kv) = true.

(** The outline of a table: its keys in their order, each with the kind of
    record under it (a derived sensor or a real product). *)
Definition outline (table : Products) : list (PyKey * bool) :=
  map (fun kv => (fst kv, product_extra_sensor (snd kv))) table.

(** What a step of the discovery keeps: the outline of the product table
    and the product types. *)
Definition registry_kept {W : Type} (c c' : Client W) : Prop :=
  outline (all_products c') = outline (all_products c)
  /\ product_types c' = product_types c.

(** What a step of the synthesis keeps: the outline of the product table
    (line 369 writes to a record of it), the product types, the plans, the
    address cache, and [new_products]. *)
Definition synthesis_frame {W : Type} (s s' : Client W * Products) : Prop :=
  outline (all_products (fst s')) = outline (all_products (fst s))
  /\ product_types (fst s') = product_types (fst s)
  /\ plan_products (fst s') = plan_products (fst s)
  /\ addresses (fst s') = addresses (fst s)
  /\ snd s' = snd s.

(** A call that ended with a value. *)
Definition returned {A : Type} (o : outcome A) : bool :=
  match o with Ret _ => true | _ => false end.

(** The exception the construction of a derived sensor for [product] ends
    in: reading [product.product_plan_label] when the instance has no such
    attribute, else the constructor call. *)
Definition constructor_error (product : TelenetProduct) : exn :=
  match py_getattr "product_plan_label" product with
  | Ret _ => TypeError
  | _ => AttributeError
  end.

(** Every product type of the list is a string. *)
Definition all_strings (l : list Json) : bool :=
  forallb (fun t => match t with JStr _ => true | _ => false end) l.

(** No value occurs twice in a list of product types. *)
Fixpoint distinct (l : list Json) : bool :=
  match l with
  | [] => true
  | x :: l' => negb (existsb (Json_eqb x) l') && distinct l'
  end.

(** The key a plan record goes under in [plan_products], and a
    subscription record in the product table: its [identifier]. *)
Definition record_key (record : Json) : option PyKey :=
  match py_get "identifier" record with
  | Ret identifier => key_of identifier
  | _ => None
  end.

(* ===================================================================== *)
(** ** Frames *)
(* ===================================================================== *)

Section KeepsLemmas.
Context {S : Type} (R : S -> S -> Prop) {frame : Frame R}.

Lemma keeps_ret {A} (a : A) : Keeps R (ret a).
Proof. intros s. apply frame_refl. Qed.

Lemma keeps_raise {A} (e : exn) : Keeps R (raise (A := A) e).
Proof. intros s. apply frame_refl. Qed.

Lemma keeps_continue {A} : Keeps R (continue_ (A := A)).
Proof. intros s. apply frame_refl. Qed.

Lemma keeps_out_of_fuel {A} : Keeps R (out_of_fuel (A := A)).
Proof. intros s. apply frame_refl. Qed.

Lemma keeps_gets {A} (f : S -> A) : Keeps R (gets f).
Proof. intros s. apply frame_refl. Qed.

Lemma keeps_lift_outcome {A} (o : outcome A) : Keeps R (lift_outcome o).
Proof. intros s. apply frame_refl. Qed.

Lemma keeps_bind {A B} (m : M S A) (k : A -> M S B) :
  Keeps R m -> (forall a, Keeps R (k a)) -> Keeps R (bind m k).
Proof.
  intros Hm Hk s. unfold bind. specialize (Hm s).
  destruct (m s) as [[a| | |] s']; cbn [snd] in *; auto.
  eapply frame_trans; [exact Hm | apply Hk].
Qed.

Lemma keeps_try_except {A} (m h : M S A) :
  Keeps R m -> Keeps R h -> Keeps R (try_except m h).
Proof.
  intros Hm Hh s. unfold try_except. specialize (Hm s).
  destruct (m s) as [[a| | |] s']; cbn [snd] in *; auto.
  eapply frame_trans; [exact Hm | apply Hh].
Qed.

Lemma keeps_loop_body (m : M S unit) : Keeps R m -> Keeps R (loop_body m).
Proof.
  intros Hm s. unfold loop_body. specialize (Hm s).
  destruct (m s) as [[a| | |] s']; cbn [snd] in *; auto.
Qed.

Lemma keeps_for_each {A} (l : list A) (body : A -> M S unit) :
  (forall x, Keeps R (body x)) -> Keeps R (for_each l body).
Proof.
  intros H. induction l as [|x l IH]; cbn [for_each].
  - apply keeps_ret.
  - apply keeps_bind; [apply keeps_loop_body, H | intros _; exact IH].
Qed.

(** A constructor call with a keyword the dataclass does not declare
    raises: what would follow it is not run. *)
Lemma keeps_undeclared_keyword {B} (kwargs : list (string * Json))
    (k : TelenetProduct -> M S B) :
  forallb (fun kv => existsb (String.eqb (fst kv)) TelenetProduct_fields) kwargs = false ->
  Keeps R (bind (lift_outcome (new_TelenetProduct kwargs)) k).
Proof.
  intros H s. unfold bind, lift_outcome, new_TelenetProduct. rewrite H.
  apply frame_refl.
Qed.

End KeepsLemmas.

Lemma keeps_weaken {S A} (R R' : S -> S -> Prop) (m : M S A) :
  (forall s s', R s s' -> R' s s') -> Keeps R m -> Keeps R' m.
Proof. intros H Hm s. apply H, Hm. Qed.

(** Splits a computation along its binds, branches and loops; the leaves
    are closed by the lemmas of the database [keeps]. *)
Create HintDb keeps.

Ltac keeps_step :=
  lazymatch goal with
  | |- Frame _ => typeclasses eauto
  | |- Keeps _ (bind (lift_outcome (new_TelenetProduct _)) _) =>
      apply keeps_undeclared_keyword; [ .. | reflexivity ]
  | |- Keeps _ (bind _ _) => apply keeps_bind; [ .. | intro ]
  | |- Keeps _ (ret _) => apply keeps_ret
  | |- Keeps _ (raise _) => apply keeps_raise
  | |- Keeps _ continue_ => apply keeps_continue
  | |- Keeps _ out_of_fuel => apply keeps_out_of_fuel
  | |- Keeps _ (gets _) => apply keeps_gets
  | |- Keeps _ (lift_outcome _) => apply keeps_lift_outcome
  | |- Keeps _ (try_except _ _) => apply keeps_try_except
  | |- Keeps _ (for_each _ _) => apply keeps_for_each; [ .. | intro ]
  | |- Keeps _ (if ?b then _ else _) => destruct b
  | |- Keeps _ (match ?x with _ => _ end) => destruct x
  | |- _ => solve [auto with keeps]
  end.

Ltac keeps := cbv zeta; repeat (keeps_step; cbv zeta).

#[export] Instance tables_kept_frame {W} : Frame (@tables_kept W).
Proof.
  split.
  - intros c. repeat split.
  - intros a b c (A1 & A2 & A3 & A4) (B1 & B2 & B3 & B4).
    repeat split; congruence.
Qed.

#[export] Instance session_only_frame {W} : Frame (@session_only W).
Proof.
  split.
  - intros c. split; [apply frame_refl|]. split; [reflexivity|].
    exists []. now rewrite app_nil_r.
  - intros a b c (A1 & A2 & l1 & A3) (B1 & B2 & l2 & B3).
    split; [eapply frame_trans; eauto|]. split; [congruence|].
    exists (l1 ++ l2)%list. now rewrite B3, A3, app_assoc.
Qed.

#[export] Instance products_kept_frame {W} : Frame (@products_kept W).
Proof.
  split.
  - intros c. split; reflexivity.
  - intros a b c (A1 & A2) (B1 & B2). split; congruence.
Qed.

#[export] Instance registry_kept_frame {W} : Frame (@registry_kept W).
Proof.
  split.
  - intros c. split; reflexivity.
  - intros a b c (A1 & A2) (B1 & B2). split; congruence.
Qed.

#[export] Instance synthesis_frame_frame {W} : Frame (@synthesis_frame W).
Proof.
  split.
  - intros s. repeat split.
  - intros a b c (A1 & A2 & A3 & A4 & A5) (B1 & B2 & B3 & B4 & B5).
    repeat split; congruence.
Qed.

#[export] Hint Extern 1 (Frame _) => typeclasses eauto : keeps.

(* ===================================================================== *)
(** ** Dictionaries *)
(* ===================================================================== *)

Section DictLemmas.
Context {K V : Type}.
Variable eqb : K -> K -> bool.

(** Assigning to a key keeps the keys that are there where they are; a
    new key goes to the end. *)
Lemma dict_set_keys (k : K) (v : V) (d : list (K * V)) :
  map fst (dict_set eqb k v d)
  = if dict_mem eqb k d then map fst d else (map fst d ++ [k])%list.
Proof.
  unfold dict_mem. induction d as [|[k' v'] d IH]; cbn [dict_set dict_get map fst app].
  - reflexivity.
  - destruct (eqb k k'); cbn [map fst]; [reflexivity|].
    rewrite IH. destruct (dict_get eqb k d); reflexivity.
Qed.

End DictLemmas.

(* ===================================================================== *)
(** ** Properties *)
(* ===================================================================== *)

Lemma PyKey_eqb_refl (k : PyKey) : PyKey_eqb k k = true.
Proof.
  destruct k; simpl; auto using Z.eqb_refl, String.eqb_refl.
Qed.

Lemma dict_get_set_same {V : Type} (k : PyKey) (v : V) (d : list (PyKey * V)) :
  dict_get PyKey_eqb k (dict_set PyKey_eqb k v d) = Some v.
Proof.
  induction d as [|[k' v'] d IH]; simpl.
  - now rewrite PyKey_eqb_refl.
  - destruct (PyKey_eqb k k') eqn:E; simpl; rewrite E; auto.
Qed.

Section Properties.
Context {W : Type} {transport : Transport W}.
Variable utils : Utils.
Variable runtime : Runtime.
Variable config : Config.

(* --------------------------------------------------------------------- *)
(** *** The dispatcher *)
(* --------------------------------------------------------------------- *)

Lemma http_answer url data (c : Client W) r w :
  send (request_of url data c) (world c) = (inl r, w) ->
  http url data c = (Ret r, after_send (request_of url data c) w c).
Proof.
  intros H. unfold http. fold (request_of url data c). rewrite H. reflexivity.
Qed.

(** A response with the expected status (or any response when no status
    is expected) is handed to the caller, the token mirrored. *)
Lemma request_accept fuel url caller data expected retrying left (c : Client W) r w :
  send (request_of url data c) (world c) = (inl r, w) ->
  expected = None \/ expected = Some (status_code r) ->
  request utils runtime config (S fuel) url caller data expected retrying left c
  = (Ret (Some r), accepted (request_of url data c) w c).
Proof.
  intros H E. simpl. unfold bind at 1. rewrite http_answer with (1 := H).
  destruct E as [-> | ->].
  - reflexivity.
  - rewrite Z.eqb_refl. reflexivity.
Qed.

(** An unexpected 404 is the soft failure: the body is kept as
    [request_error] and [False] returned. *)
Lemma request_not_found fuel url caller data e retrying left (c : Client W) r w j :
  send (request_of url data c) (world c) = (inl r, w) ->
  status_code r = 404 ->
  e <> 404 ->
  json_body r = Some j ->
  request utils runtime config (S fuel) url caller data (Some e) retrying left c
  = (Ret None, set_request_error j (after_send (request_of url data c) w c)).
Proof.
  intros H Hs He Hj. simpl. unfold bind at 1. rewrite http_answer with (1 := H).
  rewrite Hs.
  replace (404 =? e) with false by (symmetry; apply Z.eqb_neq; congruence).
  change (404 =? 404) with true. cbn iota.
  unfold bind, response_json, ret, modify. rewrite Hj. reflexivity.
Qed.

(** When the fast-fail gate is closed (a 401, 403 or 500, or a retry
    already under way, or no budget left) and the response is no 403 with
    a code, the dispatcher logs in again and re-issues the request with
    the budget decremented: the budget is never compared with zero on this
    path. *)
Lemma request_do_reauth fuel url caller data e retrying left (c : Client W) r w :
  send (request_of url data c) (world c) = (inl r, w) ->
  status_code r <> e ->
  status_code r <> 404 ->
  retrying = true \/ left <= 0 \/ status_code r = 401 \/ status_code r = 500
  \/ status_code r = 403 ->
  (status_code r = 403 -> PyStr.contains "code" (text r) = false) ->
  request utils runtime config (S fuel) url caller data (Some e) retrying left c
  = (login utils runtime config fuel ;;
     again <- request utils runtime config fuel url caller data (Some e) true (left - 1) ;;
     mirror_token ;;
     ret again) (after_send (request_of url data c) w c).
Proof.
  intros H He H404 Hgate Hcode. simpl. unfold bind at 1.
  rewrite http_answer with (1 := H).
  rewrite (proj2 (Z.eqb_neq _ _) He), (proj2 (Z.eqb_neq _ _) H404).
  assert (G : negb (status_code r =? 403) && negb (status_code r =? 401)
              && negb (status_code r =? 500) && (left >? 0) && negb retrying = false).
  { destruct Hgate as [-> | [Hl | [-> | [-> | ->]]]]; simpl;
      rewrite ?andb_false_r; auto.
    assert ((left >? 0) = false) as -> by (rewrite Z.gtb_ltb; apply Z.ltb_ge; lia).
    now rewrite ?andb_false_r. }
  rewrite G.
  destruct (status_code r =? 403) eqn:E403.
  - apply Z.eqb_eq in E403. rewrite (Hcode E403). reflexivity.
  - reflexivity.
Qed.

(** A session that is still valid: [login] returns after the probe. *)
Lemma login_still_valid fuel (c : Client W) r w j :
  send (request_of (JStr (probe_url config)) None c) (world c) = (inl r, w) ->
  status_code r = 200 ->
  json_body r = Some j ->
  login utils runtime config (S fuel) c
  = (Ret j, accepted (request_of (JStr (probe_url config)) None c) w c).
Proof.
  intros H Hs Hj. unfold login, login_with. unfold bind at 1.
  cbn [login_tokens]. unfold bind at 1. unfold request_default.
  rewrite request_accept with (1 := H) by auto.
  cbn [the_response]. unfold bind at 1, ret at 1.
  rewrite Hs. cbn [Z.eqb Pos.eqb]. unfold bind, response_json, ret. rewrite Hj.
  reflexivity.
Qed.

(** C1 (the code against the claim): on an endpoint that keeps answering
    401 behind a login that keeps succeeding ([stuck] holds of such a
    portal and stays true), [request] never returns and never raises,
    whatever the retry budget: for every recursion depth [fuel] granted it
    uses the depth up, having sent [2 * fuel - 1] requests (each retry
    costs the login probe and the request itself).  The retry budget
    bounds nothing. *)
Theorem request_retries_without_bound :
  forall (stuck : W -> Prop) (endpoint : Json) (caller : string)
         (data : option Json) (e : Z),
    e <> 401 ->
    (forall rq w, stuck w -> req_url rq = endpoint ->
       exists r w', send rq w = (inl r, w') /\ status_code r = 401 /\ stuck w') ->
    (forall rq w, stuck w -> req_url rq = JStr (probe_url config) ->
       exists r w' j, send rq w = (inl r, w') /\ status_code r = 200
                      /\ json_body r = Some j /\ stuck w') ->
    forall (fuel : nat) (retrying : bool) (left : Z) (c : Client W),
      stuck (world c) ->
      exists c',
        request utils runtime config fuel endpoint caller data (Some e) retrying left c
        = (OutOfFuel, c')
        /\ List.length (sent c') = (List.length (sent c) + (2 * fuel - 1))%nat
        /\ stuck (world c').
Proof.
  intros stuck endpoint caller data e He Hend Hprobe fuel.
  induction fuel as [|fuel IH]; intros retrying left c Hc.
  - exists c. repeat split; [simpl; lia | exact Hc].
  - destruct (Hend (request_of endpoint data c) (world c) Hc eq_refl)
      as (r & w & Hsend & Hst & Hw).
    rewrite request_do_reauth with (1 := Hsend);
      [ | rewrite Hst; congruence | rewrite Hst; discriminate
        | right; right; left; exact Hst | rewrite Hst; discriminate ].
    set (c1 := after_send (request_of endpoint data c) w c).
    assert (L1 : List.length (sent c1) = (List.length (sent c) + 1)%nat).
    { unfold c1, after_send. simpl. rewrite length_app. reflexivity. }
    destruct fuel as [|fuel].
    + exists c1. repeat split; [rewrite L1; simpl; lia | exact Hw].
    + destruct (Hprobe (request_of (JStr (probe_url config)) None c1) (world c1) Hw eq_refl)
        as (r2 & w2 & j & Hsend2 & Hst2 & Hj2 & Hw2).
      unfold bind at 1.
      rewrite login_still_valid with (1 := Hsend2) (2 := Hst2) (3 := Hj2).
      set (c2 := accepted (request_of (JStr (probe_url config)) None c1) w2 c1).
      assert (L2 : List.length (sent c2) = (List.length (sent c1) + 1)%nat).
      { unfold c2, accepted, after_send. simpl. rewrite length_app. reflexivity. }
      destruct (IH true (left - 1) c2 Hw2) as (c' & Hrun & Hlen & Hw').
      exists c'. unfold bind at 1. rewrite Hrun. repeat split; [|exact Hw'].
      rewrite Hlen, L2, L1. lia.
Qed.

(** C2 (amended): a 403 that is not the expected status is settled by the
    text and the body of the response, in every case.  When the text
    contains [code] and the body is a JSON object: the code
    [OCAPI-ERR-667] raises a [TelenetServiceException] that carries the
    cause of the body and the user name (no login, no retry); any other
    value under [code], a missing one included, is the soft failure, the
    body kept as [request_error].  When the text contains [code] and the
    body is no JSON, [response.json()] raises a [ValueError]; when it is
    JSON but no object, [.get] raises an [AttributeError]; both leave the
    dispatcher.  When the text does not contain [code], the dispatcher
    logs in again and re-issues the request as a retry. *)
Theorem request_forbidden_settled :
  forall fuel url caller data e retrying left (c : Client W) response w,
    send (request_of url data c) (world c) = (inl response, w) ->
    status_code response = 403 ->
    e <> 403 ->
    let c1 := after_send (request_of url data c) w c in
    request utils runtime config (S fuel) url caller data (Some e) retrying left c
    = if PyStr.contains "code" (text response) then
        match json_body response with
        | None => (Raise ValueError, c1)
        | Some (JObj body) =>
            let get key :=
              match jdict_get key body with Some v => v | None => JNull end in
            if json_is_str "OCAPI-ERR-667" (get "code") then
              (Raise (TelenetServiceException
                        (py_str runtime (get "cause") ++ " for "
                         ++ py_str runtime (username config))),
               c1)
            else (Ret None, set_request_error (JObj body) c1)
        | Some _ => (Raise AttributeError, c1)
        end
      else
        (login utils runtime config fuel ;;
         again <- request utils runtime config fuel url caller data (Some e) true
                    (left - 1) ;;
         mirror_token ;;
         ret again) c1.
Proof.
  intros fuel url caller data e retrying left c response w Hsend Hst He c1.
  destruct (PyStr.contains "code" (text response)) eqn:Hc.
  - simpl. unfold bind at 1.
    rewrite http_answer with (1 := Hsend). fold c1.
    rewrite Hst.
    replace (403 =? e) with false by (symmetry; apply Z.eqb_neq; congruence).
    change (403 =? 404) with false. change (403 =? 403) with true.
    cbn [negb andb]. rewrite Hc.
    unfold bind, response_json, ret, lift_outcome, raise, modify.
    destruct (json_body response) as [[| | | | | |body]|]; try reflexivity.
    cbn [py_get]. destruct (json_is_str "OCAPI-ERR-667" _); reflexivity.
  - apply request_do_reauth with (1 := Hsend);
      [ rewrite Hst; congruence | rewrite Hst; discriminate
      | right; right; right; right; exact Hst | intros _; exact Hc ].
Qed.

(* --------------------------------------------------------------------- *)
(** *** Login *)
(* --------------------------------------------------------------------- *)

(** C6: a handshake whose credential POST is answered with 200 goes on to
    fetch the user details; when the 200 body of that fetch is an object
    without [customer_number], [login] raises [BadCredentialsException];
    when the field is there, [login] stores the record as
    [self.user_details] and returns it. *)
Theorem login_customer_number :
  forall fuel (c : Client W) r1 w1 state nonce r2 w2 r3 w3 r4 w4 details,
    let c1 := accepted (request_of (JStr (probe_url config)) None c) w1 c in
    let c2 := accepted (request_of (JStr (authorize_url config state nonce)) None c1) w2 c1 in
    let c3 := accepted (request_of (JStr (login_do_url config))
                          (Some (login_form config)) c2) w3 c2 in
    let c4 := accepted (request_of (JStr user_details_url) None c3) w4 c3 in
    send (request_of (JStr (probe_url config)) None c) (world c) = (inl r1, w1) ->
    status_code r1 = 401 ->
    PyStr.split "," 2 (text r1) = [state; nonce] ->
    0 <= CONNECTION_RETRY utils ->
    send (request_of (JStr (authorize_url config state nonce)) None c1) w1 = (inl r2, w2) ->
    status_code r2 = 200 ->
    PyStr.contains "openid/login" (resp_url r2) = true ->
    send (request_of (JStr (login_do_url config)) (Some (login_form config)) c2) w2
    = (inl r3, w3) ->
    status_code r3 = 200 ->
    PyStr.contains "authentication_error" (resp_url r3) = false ->
    send (request_of (JStr user_details_url) None c3) w3 = (inl r4, w4) ->
    status_code r4 = 200 ->
    json_body r4 = Some (JObj details) ->
    login utils runtime config (S fuel) c
    = if dict_mem String.eqb "customer_number" details
      then (Ret (JObj details), set_user_details (JObj details) c4)
      else (Raise (BadCredentialsException "HTTP 200 Missing customer number"), c4).
Proof.
  intros fuel c r1 w1 state nonce r2 w2 r3 w3 r4 w4 details c1 c2 c3 c4
    S1 St1 Tok CR S2 St2 U2 S3 St3 U3 S4 St4 J4.
  unfold login, login_with. unfold bind at 1.
  cbn [login_tokens]. unfold bind at 1. unfold request_default at 1.
  rewrite request_accept with (1 := S1) by auto. fold c1.
  cbn [the_response]. unfold bind at 1, ret at 1.
  rewrite St1. change (401 =? 200) with false. change (401 =? 401) with true.
  cbn [negb andb]. rewrite Tok.
  assert ((0 >? CONNECTION_RETRY utils) = false) as ->
      by (rewrite Z.gtb_ltb; apply Z.ltb_ge; lia).
  cbn [List.length Nat.eqb]. unfold ret at 1.
  unfold login_handshake. rewrite Tok.
  unfold bind at 1. unfold request_default at 1.
  rewrite request_accept with (1 := S2) by auto. fold c2.
  cbn [the_response]. unfold bind at 1, ret at 1.
  rewrite St2, U2. change (200 =? 200) with true. cbn [negb orb].
  unfold bind at 1. unfold request_default at 1.
  rewrite request_accept with (1 := S3) by (right; now rewrite St3). fold c3.
  cbn [the_response]. unfold bind at 1, ret at 1.
  rewrite U3.
  unfold bind at 1. unfold mirror_token at 1, modify at 1.
  assert (E3 : set_xsrf_header (cookie "TOKEN-XSRF" (world c3)) c3 = c3) by reflexivity.
  rewrite E3.
  unfold bind at 1. unfold request_default at 1.
  rewrite request_accept with (1 := S4) by (right; now rewrite St4). fold c4.
  cbn [the_response]. unfold bind at 1, ret at 1.
  unfold bind at 1. unfold response_json at 1. rewrite J4. unfold ret at 1.
  unfold bind at 1. unfold lift_outcome at 1. cbn [py_in].
  destruct (dict_mem String.eqb "customer_number" details).
  - cbn [negb]. unfold bind, modify, response_json, ret. rewrite J4. reflexivity.
  - cbn [negb]. unfold raise. rewrite St4. reflexivity.
Qed.

(* --------------------------------------------------------------------- *)
(** *** Registration and discovery *)
(* --------------------------------------------------------------------- *)

(** C5: registering a product whose identifier is already a key of the
    table returns [False] and leaves the client as it was: the same
    products in the same number, the first record untouched, no request
    sent. *)
Theorem add_product_duplicate_is_noop :
  forall fuel product plan_identifier state_prop plan_label (c : Client W)
         identifier k first,
    py_get "identifier" product = Ret identifier ->
    key_of identifier = Some k ->
    products_get k (all_products c) = Some first ->
    add_product utils runtime config fuel product plan_identifier state_prop
      plan_label c = (Ret false, c).
Proof.
  intros fuel product plan_identifier state_prop plan_label c identifier k first
    Hid Hkey Hin.
  unfold add_product, get_, py_key, bind, lift_outcome, gets, dict_mem.
  rewrite Hid, Hkey.
  unfold products_get in Hin. rewrite Hin. reflexivity.
Qed.

(** C4 (amended): in a discovery pass, when the request for the active
    products ends in the soft-failure sentinel, [products] raises the
    [TelenetServiceException] "No products found ...". *)
Theorem products_sentinel_is_fatal :
  forall fuel force_refresh (c c1 c2 : Client W) details,
    force_refresh = true \/ all_products c = [] ->
    login utils runtime config fuel c = (Ret details, c1) ->
    request_default utils runtime config fuel (JStr products_url)
      "[TelenetClient|products]" None (Some 200)
      (set_product_types [] (set_all_products [] (set_total_cost (JInt 0) c1)))
    = (Ret None, c2) ->
    products utils runtime config fuel force_refresh c
    = (Raise (TelenetServiceException no_products_message), c2).
Proof.
  intros fuel force_refresh c c1 c2 details Hpass Hlogin Hreq.
  unfold products. unfold bind at 1, gets at 1.
  assert (Nat.ltb 0 (List.length (all_products c)) && negb force_refresh = false) as ->.
  { destruct Hpass as [-> | ->]; [apply andb_false_r | reflexivity]. }
  unfold bind at 1. rewrite Hlogin.
  unfold bind at 1, modify at 1. unfold bind at 1, modify at 1.
  unfold bind at 1, modify at 1. unfold bind at 1. rewrite Hreq. reflexivity.
Qed.

(* --------------------------------------------------------------------- *)
(** *** Derived sensors *)
(* --------------------------------------------------------------------- *)

(** A keyword that the dataclass does not declare. *)
Lemma new_TelenetProduct_undeclared (kwargs : list (string * Json)) :
  forallb (fun kv => existsb (String.eqb (fst kv)) TelenetProduct_fields) kwargs = false ->
  new_TelenetProduct kwargs = Raise TypeError.
Proof. intros H. unfold new_TelenetProduct. now rewrite H. Qed.

(** No call of [construct_extra_sensor] returns: it reads
    [product.product_plan_label], which no field of the dataclass provides,
    and passes [product_plan_label] and [native_unit_of_measurement] to
    the constructor, which takes neither. *)
Lemma construct_extra_sensor_raises product suffix key state attributes plan unit
    (s : Client W * Products) :
  construct_extra_sensor utils runtime product suffix key state attributes plan unit s
  = (Raise (constructor_error product), s).
Proof.
  unfold construct_extra_sensor, constructor_error, bind, pure_, lift_outcome, py_getattr.
  destruct (jdict_get "product_plan_label" (instance_attributes product));
    reflexivity.
Qed.

Lemma emit_raises product suffix key state attributes plan unit
    (s : Client W * Products) :
  emit utils runtime product suffix key state attributes plan unit s
  = (Raise (constructor_error product), s).
Proof.
  unfold emit, bind. now rewrite construct_extra_sensor_raises.
Qed.




(** The dtv branch does the same. *)
Lemma dtv_sensors_without_bill_cycles fuel product product_type_attr
    (c c' : Client W) (np : Products) :
  product_ignore_extra_sensor product = false ->
  bill_cycles utils runtime config fuel (product_type product)
    (product_identifier product) 1 c = (Ret PyFalse, c') ->
  dtv_sensors utils runtime config fuel product product_type_attr (c, np)
  = (Raise AttributeError, (c', np)).
Proof.
  intros Hi H. unfold dtv_sensors. rewrite Hi. cbn [negb].
  unfold bind at 1, on_client at 1. cbn [fst snd]. rewrite H. reflexivity.
Qed.

(** The usage endpoint, next in line, is looked at: its soft failure is
    the [continue] that skips the rest of the product. *)
Lemma internet_sensors_without_usage fuel product product_specs
    (c c1 c2 : Client W) (np : Products) billcycle :
  bill_cycles utils runtime config fuel (product_type product)
    (product_identifier product) 2 c = (Ret (JObj billcycle), c1) ->
  product_usage utils runtime config fuel (product_type product)
    (product_identifier product)
    (match jdict_get "start_date" billcycle with Some v => v | None => JNull end)
    (match jdict_get "end_date" billcycle with Some v => v | None => JNull end) c1
  = (Ret PyFalse, c2) ->
  internet_sensors utils runtime config fuel product product_specs (c, np)
  = (Continue, (c2, np)).
Proof.
  intros H1 H2. unfold internet_sensors. unfold bind at 1, on_client at 1.
  cbn [fst snd]. rewrite H1.
  unfold bind at 1, field at 1, pure_ at 1, lift_outcome at 1. cbn [py_get].
  unfold bind at 1, field at 1, pure_ at 1, lift_outcome at 1. cbn [py_get].
  unfold bind at 1, on_client at 1. cbn [fst snd]. rewrite H2. reflexivity.
Qed.





(* --------------------------------------------------------------------- *)
(** *** Attribute projection *)
(* --------------------------------------------------------------------- *)

(** The projection loop over a mapping never raises. *)
Lemma project_attributes_total keys info acc :
  exists extra, project_attributes keys (JObj info) acc = Ret extra.
Proof.
  revert acc. induction keys as [|key keys IH]; intros acc.
  - now exists acc.
  - cbn [project_attributes py_in py_get].
    destruct (dict_mem String.eqb key info); apply IH.
Qed.

Lemma jdict_get_set (k k' : string) (v : Json) (d : list (string * Json)) :
  jdict_get k (jdict_set k' v d) = if String.eqb k k' then Some v else jdict_get k d.
Proof.
  unfold jdict_get, jdict_set.
  induction d as [|[k0 v0] d IH]; cbn [dict_set dict_get].
  - reflexivity.
  - destruct (String.eqb_spec k' k0) as [->|Hne]; cbn [dict_get].
    + destruct (String.eqb k k0); reflexivity.
    + rewrite IH. destruct (String.eqb_spec k k0) as [->|Hne'].
      * destruct (String.eqb_spec k0 k'); [congruence | reflexivity].
      * reflexivity.
Qed.

(** What the projection loop copies: under a key of the whitelist that
    the source record has, the value of the source record; nothing
    else. *)
Lemma project_attributes_copies keys info acc extra :
  project_attributes keys (JObj info) acc = Ret extra ->
  forall key,
    jdict_get key extra
    = if existsb (String.eqb key) keys && dict_mem String.eqb key info
      then jdict_get key info
      else jdict_get key acc.
Proof.
  revert acc. induction keys as [|k keys IH]; intros acc H key.
  - inversion H; subst. reflexivity.
  - cbn [project_attributes py_in py_get] in H. cbn [existsb].
    destruct (dict_mem String.eqb k info) eqn:Hk.
    + rewrite (IH _ H key), jdict_get_set.
      destruct (String.eqb_spec key k) as [->|Hne]; cbn [orb].
      * rewrite Hk. unfold dict_mem in Hk. unfold jdict_get.
        destruct (dict_get String.eqb k info) eqn:E; [|discriminate].
        destruct (existsb (String.eqb k) keys); reflexivity.
      * reflexivity.
    + rewrite (IH _ H key).
      destruct (String.eqb_spec key k) as [->|Hne]; cbn [orb]; [|reflexivity].
      rewrite Hk, andb_false_r. reflexivity.
Qed.

(** With a dict in [product_extra_attributes] the merge goes through: the
    projected attributes are laid over the ones that are there ([|=]
    keeps every other key). *)
Lemma set_extra_attributes_on_dict_store (c : Client W) k product info declared
    store extra :
  all_products c = [(k, product)] ->
  product_extra_sensor product = false ->
  source_record product c = (Ret (JObj info), c) ->
  attributes_for (product_type product) None = Some declared ->
  product_extra_attributes product = JObj store ->
  project_attributes (dir_public declared) (JObj info) [] = Ret extra ->
  set_extra_attributes c
  = (Ret true,
     set_all_products
       [(k, set_extra_attributes_field (JObj (jdict_update store extra)) product)] c).
Proof.
  intros Htable Hreal Hinfo Hattr Hstore Hex.
  unfold set_extra_attributes. unfold bind at 1, gets at 1. rewrite Htable.
  cbn [map fst set_extra_attributes_loop].
  unfold bind at 1. unfold bind at 1, gets at 1. rewrite Htable.
  unfold products_get. cbn [dict_get]. rewrite PyKey_eqb_refl.
  rewrite Hreal. cbn [negb].
  unfold bind at 1. rewrite Hinfo.
  unfold bind at 1, lift_outcome at 1. cbn [py_len].
  rewrite Hattr.
  unfold bind at 1, lift_outcome at 1. rewrite Hex.
  unfold bind at 1, lift_outcome at 1. rewrite Hstore. cbn [py_or].
  unfold bind, modify, ret. rewrite Htable.
  unfold products_set. cbn [dict_set]. rewrite PyKey_eqb_refl. reflexivity.
Qed.


(* --------------------------------------------------------------------- *)
(** *** Addresses *)
(* --------------------------------------------------------------------- *)

Lemma address_second_call fuel fuel' id (c c' : Client W) j :
  address utils runtime config fuel id c = (Ret j, c') ->
  is_None j = false -> is_False j = false ->
  address utils runtime config fuel' id c' = (Ret j, c').
Proof.
  unfold address. intros H Hn Hf.
  destruct (is_None id) eqn:E1.
  { inversion H; subst; reflexivity. }
  unfold bind, lift_outcome, gets, ret in *.
  destruct (py_len id) as [n| | |] eqn:E2; try discriminate.
  destruct (n =? 0) eqn:E3.
  { inversion H; subst; reflexivity. }
  destruct (py_key id) as [k| | |] eqn:E4; try discriminate.
  assert (Hfetch : fetch_address utils runtime config fuel id k c = (Ret j, c') ->
                   dict_get PyKey_eqb k (addresses c') = Some j).
  { unfold fetch_address, bind, ret, modify, response_json, raise.
    destruct (request_default utils runtime config fuel (JStr (address_url runtime id))
                "[TelenetClient|address]" None (Some 200) c) as [[[r|]| | |] c1];
      try discriminate.
    - destruct (json_body r); try discriminate.
      intros X; inversion X; subst. simpl. apply dict_get_set_same.
    - intros X; inversion X; subst. discriminate. }
  destruct (dict_get PyKey_eqb k (addresses c)) as [v|] eqn:E5.
  - destruct (is_None v) eqn:E6; simpl in H.
    + rewrite (Hfetch H), Hn. reflexivity.
    + inversion H; subst. rewrite E5, E6. reflexivity.
  - rewrite (Hfetch H), Hn. reflexivity.
Qed.

(** C10 (amended): [address] of [None] or of the empty string is the
    empty mapping, and the client (its request log with it) is unchanged;
    an address id whose record is in the cache gets that record back, the
    client unchanged; and once a call has returned a record (neither
    [None] nor [False]) for an id, every later call for that id returns
    it with the client unchanged, so an id is fetched at most once with
    success.  (A fetch that ends in the soft failure caches nothing.) *)
Theorem address_cache :
  forall fuel (c : Client W),
    address utils runtime config fuel JNull c = (Ret (JObj []), c)
    /\ address utils runtime config fuel (JStr "") c = (Ret (JObj []), c)
    /\ (forall id n k v,
           py_len id = Ret n -> n <> 0 -> key_of id = Some k ->
           dict_get PyKey_eqb k (addresses c) = Some v -> is_None v = false ->
           address utils runtime config fuel id c = (Ret v, c))
    /\ (forall id j c' fuel',
           address utils runtime config fuel id c = (Ret j, c') ->
           is_None j = false -> is_False j = false ->
           address utils runtime config fuel' id c' = (Ret j, c')).
Proof.
  intros fuel c. repeat split.
  - intros id n k v Hlen Hn Hk Hget Hv.
    unfold address, bind, lift_outcome, gets, ret, py_key.
    assert (is_None id = false) as -> by (destruct id; try discriminate; reflexivity).
    rewrite Hlen. rewrite (proj2 (Z.eqb_neq _ _) Hn). rewrite Hk, Hget, Hv.
    reflexivity.
  - intros id j c' fuel' H Hn Hf. exact (@address_second_call fuel fuel' id c c' j H Hn Hf).
Qed.

End Properties.

(* ===================================================================== *)
(** ** The properties at work *)
(* ===================================================================== *)

Section Examples.
Import Sample.
Import Fixture.

(** The dispatcher on the expired portal with the budget of 3: a
    recursion depth of 6 is used up after 11 requests. *)
Lemma request_retries_without_bound_witness :
  exists c',
    request utils runtime account 6 (JStr products_url) "[TelenetClient|products]"
      None (Some 200) false 3 (client expired_portal) = (OutOfFuel, c')
    /\ List.length (sent c') = 11%nat
    /\ world c' = expired_portal.
Proof.
  apply (@request_retries_without_bound Portal portal_transport utils runtime account
           (fun w => w = expired_portal) (JStr products_url)
           "[TelenetClient|products]" None 200).
  - discriminate.
  - intros rq w -> Hu. cbn [send portal_transport]. rewrite Hu.
    eexists. eexists. repeat split.
  - intros rq w -> Hu. cbn [send portal_transport]. rewrite Hu.
    eexists. eexists. eexists. repeat split.
  - reflexivity.
Defined.

(** A 403 on five portals: the known code, another code, a text without
    the word [code] (followed by the answer proper), a text with the word
    that is no JSON, and a JSON list. *)
Lemma request_forbidden_settled_witness :
  let ask p :=
    fst (request utils runtime account 3 (JStr products_url) "[TelenetClient|products]"
           None (Some 200) false 3 (client p)) in
  ask forbidden_known
  = Raise (TelenetServiceException "Access forbidden for user@example.org")
  /\ ask forbidden_other = Ret None
  /\ ask forbidden_once = Ret (Some (json_response 200 products_url (JArr [])))
  /\ ask forbidden_text = Raise ValueError
  /\ ask forbidden_list = Raise AttributeError.
Proof.
  cbv beta zeta.
  split; [|split; [|split; [|split]]];
    match goal with
    | |- fst (request _ _ _ _ _ _ _ _ _ _ (client ?p)) = _ =>
        rewrite (@request_forbidden_settled Portal portal_transport utils runtime
                   account 2 (JStr products_url) "[TelenetClient|products]" None 200
                   false 3 (client p) _ _ eq_refl eq_refl ltac:(discriminate))
    end; reflexivity.
Defined.

(** C2 as stated fails: the answer with the known code [OCAPI-ERR-667]
    is not sent down the re-login path.  The dispatcher raises on it at
    once, and the portal has seen one request: no login, no retry. *)
Lemma forbidden_known_code_is_raised :
  fst (request utils runtime account 5 (JStr products_url) "[TelenetClient|products]"
         None (Some 200) false 3 (client forbidden_known))
  = Raise (TelenetServiceException "Access forbidden for user@example.org")
  /\ map req_url
       (sent (snd (request utils runtime account 5 (JStr products_url)
                     "[TelenetClient|products]" None (Some 200) false 3
                     (client forbidden_known))))
     = [JStr products_url].
Proof.
  split; vm_compute; reflexivity.
Qed.

(** The handshake with a full user record and with a degraded one. *)
Lemma login_customer_number_witness :
  fst (login utils runtime account 1 (client (handshake user_record)))
  = Ret user_record
  /\ user_details (snd (login utils runtime account 1 (client (handshake user_record))))
     = user_record
  /\ fst (login utils runtime account 1 (client (handshake degraded_record)))
     = Raise (BadCredentialsException "HTTP 200 Missing customer number").
Proof.
  split; [|split].
  - erewrite (@login_customer_number Portal portal_transport utils runtime account 0
                (client (handshake user_record)));
      [ | solve [reflexivity | cbn; lia] .. ].
    reflexivity.
  - erewrite (@login_customer_number Portal portal_transport utils runtime account 0
                (client (handshake user_record)));
      [ | solve [reflexivity | cbn; lia] .. ].
    reflexivity.
  - erewrite (@login_customer_number Portal portal_transport utils runtime account 0
                (client (handshake degraded_record)));
      [ | solve [reflexivity | cbn; lia] .. ].
    reflexivity.
Defined.

(** The mobile line registered on a client that holds it. *)
Lemma add_product_duplicate_is_noop_witness :
  let c := holding [(KStr "0470123456", mobile_product)] (client mobile_routes) in
  add_product utils runtime account depth mobile_line (JStr "0470123456") "label"
    (JStr "KING") c
  = (Ret false, c).
Proof.
  cbv zeta.
  eapply (@add_product_duplicate_is_noop Portal portal_transport utils runtime account
            depth mobile_line (JStr "0470123456") "label" (JStr "KING")
            (holding [(KStr "0470123456", mobile_product)] (client mobile_routes))
            (JStr "0470123456") (KStr "0470123456")).
  - reflexivity.
  - reflexivity.
  - reflexivity.
Defined.

(** The discovery pass over the account whose active-products endpoint is
    not found. *)
Lemma products_sentinel_is_fatal_witness :
  fst (products utils runtime account depth true (client unmigrated_account))
  = Raise (TelenetServiceException no_products_message).
Proof.
  pose (c1 := snd (login utils runtime account depth (client unmigrated_account))).
  pose (c2 := snd (request_default utils runtime account depth (JStr products_url)
                     "[TelenetClient|products]" None (Some 200)
                     (set_product_types []
                        (set_all_products [] (set_total_cost (JInt 0) c1))))).
  rewrite (@products_sentinel_is_fatal Portal portal_transport utils runtime account
             depth true (client unmigrated_account) c1 c2 user_record).
  - reflexivity.
  - left; reflexivity.
  - vm_compute; reflexivity.
  - vm_compute; reflexivity.
Defined.

(** C4 as stated fails: an active-products list that is empty (200 with
    [[]]) does not raise the [TelenetServiceException].  The pass goes on
    over no product and ends in the [TypeError] of the constructor of the
    invoice sensor (line 930), the table empty. *)
Lemma empty_product_list_ends_in_a_type_error :
  fst (products utils runtime account depth true (client empty_account))
  = Raise TypeError
  /\ all_products (snd (products utils runtime account depth true (client empty_account)))
     = [].
Proof.
  split; vm_compute; reflexivity.
Qed.

(** The same product without the attribute [product_plan_label], as the
    constructor makes it: reading the attribute raises. *)
Example wifi_sensors_without_a_plan_label :
  fst (wifi_sensors utils runtime account depth
         (product "i1234567" "internet" all_internet_url []) modem
         (client (wifi_portal roaming_with_key), ([] : Products)))
  = Raise AttributeError.
Proof. reflexivity. Qed.

(** The mobile line registered on a client that does not hold it: the
    specification sheet is fetched, then the constructor raises; nothing
    is registered. *)
Example add_product_of_a_new_identifier :
  let run := add_product utils runtime account depth mobile_line (JStr "0470123456")
               "label" (JStr "KING") (client mobile_routes) in
  fst run = Raise TypeError
  /\ all_products (snd run) = []
  /\ product_types (snd run) = []
  /\ map req_url (sent (snd run)) = [JStr king_url].
Proof. cbv zeta. repeat split. Qed.

(** A discovery pass over an account with one telephone product: it ends
    in the [TypeError] of the first [add_product], the table empty. *)
Example discovery_pass_over_one_product :
  let pass := products utils runtime account depth true (client telephone_account) in
  fst pass = Raise TypeError /\ all_products (snd pass) = [].
Proof. cbv zeta. split; vm_compute; reflexivity. Qed.

(** An address that is found is fetched once: the second call sends
    nothing. *)
Lemma address_cache_witness :
  let first := address utils runtime account depth (JStr "A1") (client known_address) in
  let second := address utils runtime account depth (JStr "A1") (snd first) in
  fst second = Ret (JObj [("street", JStr "Liersesteenweg")])
  /\ List.length (sent (snd second)) = 1%nat.
Proof.
  cbv zeta.
  assert (H : address utils runtime account depth (JStr "A1") (client known_address)
              = (Ret (JObj [("street", JStr "Liersesteenweg")]),
                 snd (address utils runtime account depth (JStr "A1")
                        (client known_address))))
    by (vm_compute; reflexivity).
  rewrite (proj2 (proj2 (proj2 (@address_cache Portal portal_transport utils runtime
                                  account depth (client known_address))))
             (JStr "A1") (JObj [("street", JStr "Liersesteenweg")])
             (snd (address utils runtime account depth (JStr "A1") (client known_address)))
             depth H eq_refl eq_refl).
  split; vm_compute; reflexivity.
Defined.

(** C10 as stated fails: an address whose fetch ends in the soft failure
    is not cached, and the next call fetches it again. *)
Lemma address_refetched_after_soft_failure :
  let first := address utils runtime account depth (JStr "A1") (client unknown_address) in
  let second := address utils runtime account depth (JStr "A1") (snd first) in
  fst first = Ret PyFalse
  /\ addresses (snd first) = []
  /\ fst second = Ret PyFalse
  /\ map req_url (sent (snd second))
     = [JStr (address_url runtime (JStr "A1")); JStr (address_url runtime (JStr "A1"))].
Proof.
  cbv zeta. repeat split.
Qed.



End Examples.

(* ===================================================================== *)
(** ** Equality of JSON values *)
(* ===================================================================== *)

Lemma PyKey_eqb_sym (a b : PyKey) : PyKey_eqb a b = PyKey_eqb b a.
Proof.
  destruct a, b; cbn [PyKey_eqb]; auto using Z.eqb_sym, String.eqb_sym.
Qed.

Lemma Json_eqb_refl : forall j, Json_eqb j j = true.
Proof.
  fix IH 1. intros [|b|z|r|s|items|fields]; cbn [Json_eqb key_of];
    try apply PyKey_eqb_refl.
  - induction items as [|x l IHl]; [reflexivity|]. now rewrite IH, IHl.
  - induction fields as [|[k x] l IHl]; [reflexivity|].
    now rewrite String.eqb_refl, IH, IHl.
Qed.

Lemma Json_eqb_sym : forall a b, Json_eqb a b = Json_eqb b a.
Proof.
  fix IH 1. intros [|b|z|r|s|items|fields] [|b'|z'|r'|s'|items'|fields'];
    cbn [Json_eqb key_of]; try reflexivity; try apply PyKey_eqb_sym.
  - revert items'. induction items as [|x l IHl]; intros [|y l']; try reflexivity.
    now rewrite IH, IHl.
  - revert fields'. induction fields as [|[k x] l IHl]; intros [|[k' y] l'];
      try reflexivity.
    now rewrite String.eqb_sym, IH, IHl.
Qed.

(** A value that is not in a list without repetition can go to its end. *)
Lemma distinct_snoc (t : Json) (l : list Json) :
  existsb (Json_eqb t) l = false -> distinct (l ++ [t]) = distinct l.
Proof.
  induction l as [|x l IH]; cbn [existsb distinct app]; [reflexivity|].
  intros H. apply orb_false_elim in H. destruct H as (Hx & Hl).
  rewrite IH by exact Hl. rewrite existsb_app. cbn [existsb].
  rewrite (Json_eqb_sym x t), Hx, !orb_false_r. reflexivity.
Qed.

(* ===================================================================== *)
(** ** Keys *)
(* ===================================================================== *)

Lemma PyKey_eqb_eq (a b : PyKey) : PyKey_eqb a b = true -> a = b.
Proof.
  destruct a, b; cbn [PyKey_eqb]; try discriminate; intros H;
    try (apply Z.eqb_eq in H); try (apply String.eqb_eq in H); congruence.
Qed.

Lemma dict_get_set_other {V : Type} (k k' : PyKey) (v : V) (d : list (PyKey * V)) :
  PyKey_eqb k k' = false ->
  dict_get PyKey_eqb k (dict_set PyKey_eqb k' v d) = dict_get PyKey_eqb k d.
Proof.
  intros Hne. induction d as [|[k0 v0] d IH]; cbn [dict_set dict_get].
  - now rewrite Hne.
  - destruct (PyKey_eqb k' k0) eqn:E; cbn [dict_get]; [|now rewrite IH].
    apply PyKey_eqb_eq in E. subst k0. now rewrite Hne.
Qed.

Lemma dict_get_set {V : Type} (k k' : PyKey) (v : V) (d : list (PyKey * V)) :
  dict_get PyKey_eqb k (dict_set PyKey_eqb k' v d)
  = if PyKey_eqb k k' then Some v else dict_get PyKey_eqb k d.
Proof.
  destruct (PyKey_eqb k k') eqn:E.
  - apply PyKey_eqb_eq in E. subst. apply dict_get_set_same.
  - now apply dict_get_set_other.
Qed.

(* ===================================================================== *)
(** ** More of the client *)
(* ===================================================================== *)

Section Coverage.
Context {W : Type} {transport : Transport W}.
Variable utils : Utils.
Variable runtime : Runtime.
Variable config : Config.

(* --------------------------------------------------------------------- *)
(** *** What the dispatcher and the login leave alone *)
(* --------------------------------------------------------------------- *)

Lemma session_only_session (c : Client W) w rq :
  session_only c (set_session w (sent c ++ [rq]) c).
Proof.
  split; [repeat split|]. split; [reflexivity|]. now exists [rq].
Qed.

Lemma http_keeps url data : Keeps (@session_only W) (http url data).
Proof.
  intros c. unfold http.
  destruct (send _ (world c)) as [[r|e] w]; apply session_only_session.
Qed.

Lemma session_only_field (c c' : Client W) :
  all_products c' = all_products c -> product_types c' = product_types c ->
  plan_products c' = plan_products c -> addresses c' = addresses c ->
  total_cost c' = total_cost c -> sent c' = sent c ->
  session_only c c'.
Proof.
  intros. split; [repeat split; assumption|]. split; [assumption|].
  exists []. now rewrite app_nil_r.
Qed.

Lemma mirror_token_keeps : Keeps (@session_only W) mirror_token.
Proof. intros c. now apply session_only_field. Qed.

Lemma set_request_error_keeps j : Keeps (@session_only W) (modify (set_request_error j)).
Proof. intros c. now apply session_only_field. Qed.

Lemma set_user_details_keeps j : Keeps (@session_only W) (modify (set_user_details j)).
Proof. intros c. now apply session_only_field. Qed.

Lemma response_json_keeps (R : Client W -> Client W -> Prop) {frame : Frame R} r :
  Keeps R (response_json r).
Proof. unfold response_json. destruct (json_body r); keeps. Qed.

Lemma the_response_keeps (R : Client W -> Client W -> Prop) {frame : Frame R} r :
  Keeps R (the_response r).
Proof. unfold the_response. destruct r; keeps. Qed.

Hint Resolve http_keeps mirror_token_keeps set_request_error_keeps
  set_user_details_keeps response_json_keeps the_response_keeps : keeps.

Lemma login_with_keeps request4 :
  (forall u c d e, Keeps (@session_only W) (request4 u c d e)) ->
  forall fuel, Keeps (@session_only W) (login_with utils config request4 fuel).
Proof.
  intros Hreq fuel.
  assert (Htok : forall fuel n,
             Keeps (@session_only W) (login_tokens utils config request4 fuel n)).
  { clear fuel. induction fuel as [|fuel IH]; intros n; cbn [login_tokens]; keeps. }
  unfold login_with, login_handshake. keeps.
Qed.

Lemma request_keeps fuel :
  forall url caller data expected retrying left,
    Keeps (@session_only W)
      (request utils runtime config fuel url caller data expected retrying left).
Proof.
  induction fuel as [|fuel IH]; intros; cbn [request].
  - keeps.
  - assert (Keeps (@session_only W)
              (login_with utils config
                 (fun u c d e =>
                    request utils runtime config fuel u c d e false
                      (CONNECTION_RETRY utils)) fuel))
      by (apply login_with_keeps; intros; apply IH).
    keeps.
Qed.

Lemma request_default_keeps fuel url caller data expected :
  Keeps (@session_only W)
    (request_default utils runtime config fuel url caller data expected).
Proof. apply request_keeps. Qed.

Lemma login_keeps fuel : Keeps (@session_only W) (login utils runtime config fuel).
Proof. apply login_with_keeps. intros. apply request_default_keeps. Qed.

(** X1: The dispatcher and the login move the session and nothing else:
    whatever the portal answers and however the call ends (a response, the
    soft failure, an exception, the recursion depth used up), the products,
    the product types, the plans, the address cache and the total cost are
    as they were, and the requests sent before are a prefix of the requests
    sent after. *)
Theorem request_and_login_move_the_session_only :
  forall fuel url caller data expected retrying left (c : Client W),
    session_only c
      (snd (request utils runtime config fuel url caller data expected retrying left c))
    /\ session_only c (snd (login utils runtime config fuel c)).
Proof.
  intros. split; [apply request_keeps | apply login_keeps].
Qed.

(* --------------------------------------------------------------------- *)
(** *** What the dispatcher hands back *)
(* --------------------------------------------------------------------- *)

(** The tail of the retry path: what it returns is what the re-issued
    request returned, the token mirrored once more. *)
Lemma reauth_returns {A} (relogin : M (Client W) A)
    (again : M (Client W) (option Response)) (c c' : Client W) r :
  (relogin ;; x <- again ;; mirror_token ;; ret x) c = (Ret r, c') ->
  exists c2 c3,
    again c2 = (Ret r, c3)
    /\ c' = set_xsrf_header (cookie "TOKEN-XSRF" (world c3)) c3.
Proof.
  unfold bind, mirror_token, modify, ret.
  destruct (relogin c) as [[a| | |] c2]; try discriminate.
  destruct (again c2) as [[x| | |] c3] eqn:E; try discriminate.
  intros H. inversion H; subst. now exists c2, c3.
Qed.

(** X2: A response that [request] returns when a status is expected has that
    status, on the first attempt or after any number of logins and
    retries; and the session's [X-TOKEN-XSRF] header is then the
    [TOKEN-XSRF] cookie of the session. *)
Theorem request_returns_the_expected_status :
  forall fuel url caller data e retrying left (c c' : Client W) r,
    request utils runtime config fuel url caller data (Some e) retrying left c
    = (Ret (Some r), c') ->
    status_code r = e /\ xsrf_header c' = cookie "TOKEN-XSRF" (world c').
Proof.
  induction fuel as [|fuel IH]; intros url caller data e retrying left c c' r H.
  - discriminate.
  - cbn [request] in H. unfold bind at 1 in H.
    destruct (http url data c) as [[response| | |] c1]; try discriminate.
    assert (Hre : forall c0,
               (login_with utils config
                  (fun u c d e => request utils runtime config fuel u c d e false
                                    (CONNECTION_RETRY utils)) fuel ;;
                again <- request utils runtime config fuel url caller data (Some e) true
                           (left - 1) ;;
                mirror_token ;; ret again) c0 = (Ret (Some r), c') ->
               status_code r = e /\ xsrf_header c' = cookie "TOKEN-XSRF" (world c')).
    { intros c0 H0. apply reauth_returns in H0. destruct H0 as (c2 & c3 & H2 & ->).
      split; [exact (proj1 (IH _ _ _ _ _ _ _ _ _ H2)) | reflexivity]. }
    destruct (status_code response =? e) eqn:Ee.
    { unfold bind, mirror_token, modify, ret in H. inversion H; subst.
      split; [now apply Z.eqb_eq | reflexivity]. }
    destruct (status_code response =? 404).
    { unfold bind, response_json, modify, ret, raise in H.
      destruct (json_body response); discriminate. }
    destruct (negb (status_code response =? 403) && negb (status_code response =? 401)
              && negb (status_code response =? 500) && (left >? 0) && negb retrying).
    { discriminate. }
    destruct (status_code response =? 403); [|eauto].
    destruct (PyStr.contains "code" (text response)); [|eauto].
    unfold bind, response_json, lift_outcome, modify, ret, raise in H.
    destruct (json_body response) as [j|]; try discriminate.
    destruct (py_get "code" j) as [code| | |]; try discriminate.
    destruct (negb (json_is_str "OCAPI-ERR-667" code)); try discriminate.
    destruct (py_get "cause" j); discriminate.
Qed.

(** X3: The two ways in which [request] settles an unexpected status on the
    spot, the portal having seen this one request and no login tried.  A
    404 is the soft failure whatever the retry state: the body is kept as
    [request_error] and [False] returned.  On a first attempt with budget
    left, a status that is none of 401, 403, 404 and 500 raises a
    [TelenetServiceException] that carries the caller, both statuses, the
    body and the URL (the fast-fail gate, lines 92-101). *)
Theorem request_settles_without_login :
  forall fuel url caller data e retrying left (c : Client W) r w,
    send (request_of url data c) (world c) = (inl r, w) ->
    status_code r <> e ->
    let c1 := after_send (request_of url data c) w c in
    sent c1 = (sent c ++ [request_of url data c])%list
    /\ (forall j,
           status_code r = 404 -> json_body r = Some j ->
           request utils runtime config (S fuel) url caller data (Some e) retrying left c
           = (Ret None, set_request_error j c1))
    /\ (status_code r <> 401 -> status_code r <> 403 ->
        status_code r <> 404 -> status_code r <> 500 ->
        0 < left -> retrying = false ->
        request utils runtime config (S fuel) url caller data (Some e) retrying left c
        = (Raise (TelenetServiceException (unexpected_status_message caller e r)), c1)).
Proof.
  intros fuel url caller data e retrying left c r w H He c1.
  split; [reflexivity|]. split.
  - intros j H404 Hj. apply request_not_found with (1 := H); [exact H404 | | exact Hj].
    congruence.
  - intros H401 H403 H404 H500 Hl ->.
    cbn [request]. unfold bind at 1. rewrite http_answer with (1 := H).
    rewrite (proj2 (Z.eqb_neq _ _) He), (proj2 (Z.eqb_neq _ _) H404),
      (proj2 (Z.eqb_neq _ _) H403), (proj2 (Z.eqb_neq _ _) H401),
      (proj2 (Z.eqb_neq _ _) H500).
    assert ((left >? 0) = true) as -> by (rewrite Z.gtb_ltb; apply Z.ltb_lt; lia).
    reflexivity.
Qed.

(** X4: The retry at work: a first answer that is a 401, a 500 or a 403
    without a code in its text, on a session the probe of [login] finds
    valid, and a second answer with the expected status.  [request] returns
    the second answer; the portal has seen the request, the probe and the
    request again, in that order, and [login] has stored nothing. *)
Theorem request_recovers_after_login :
  forall fuel url caller data e retrying left (c : Client W) r1 w1 r2 w2 j r3 w3,
    let c1 := after_send (request_of url data c) w1 c in
    let c2 := accepted (request_of (JStr (probe_url config)) None c1) w2 c1 in
    let c3 := accepted (request_of url data c2) w3 c2 in
    send (request_of url data c) (world c) = (inl r1, w1) ->
    status_code r1 <> e ->
    status_code r1 = 401 \/ status_code r1 = 500
    \/ (status_code r1 = 403 /\ PyStr.contains "code" (text r1) = false) ->
    send (request_of (JStr (probe_url config)) None c1) w1 = (inl r2, w2) ->
    status_code r2 = 200 ->
    json_body r2 = Some j ->
    send (request_of url data c2) w2 = (inl r3, w3) ->
    status_code r3 = e ->
    request utils runtime config (S (S fuel)) url caller data (Some e) retrying left c
    = (Ret (Some r3), c3)
    /\ sent c3
       = (sent c ++ [request_of url data c;
                     request_of (JStr (probe_url config)) None c1;
                     request_of url data c2])%list
    /\ user_details c3 = user_details c
    /\ request_error c3 = request_error c.
Proof.
  intros fuel url caller data e retrying left c r1 w1 r2 w2 j r3 w3 c1 c2 c3
    S1 He Hst S2 St2 J2 S3 St3.
  split.
  - rewrite request_do_reauth with (1 := S1); [ | exact He | | | ].
    + fold c1. unfold bind at 1.
      rewrite login_still_valid with (1 := S2) (2 := St2) (3 := J2). fold c2.
      unfold bind at 1.
      rewrite request_accept with (1 := S3) by (right; now rewrite St3).
      reflexivity.
    + destruct Hst as [-> | [-> | [-> _]]]; discriminate.
    + destruct Hst as [H | [H | [H _]]]; auto.
    + intros H. destruct Hst as [H' | [H' | [_ H']]]; [congruence | congruence | exact H'].
  - repeat split. unfold c3, c2, c1, accepted, after_send. cbn [sent set_xsrf_header set_session].
    rewrite <- !app_assoc. reflexivity.
Qed.

(** A request that the transport does not answer. *)
Lemma request_transport_error fuel url caller data expected retrying left
    (c : Client W) err w :
  send (request_of url data c) (world c) = (inr err, w) ->
  request utils runtime config (S fuel) url caller data expected retrying left c
  = (Raise err, after_send (request_of url data c) w c).
Proof.
  intros H. cbn [request]. unfold bind at 1, http.
  fold (request_of url data c). rewrite H. reflexivity.
Qed.

(** X27: [request] does not catch what the transport raises.  A request
    that is not answered (a connection error, a timeout) ends the call
    with that exception after the one attempt, whatever the retry budget
    and the expected status.  The same holds of the probe of the login
    that an answered 401, 500 or 403 without a code has started: the
    exception leaves [request] after the two requests, and the request
    itself is not issued again. *)
Theorem transport_errors_are_not_retried :
  forall fuel url caller data e retrying left (c : Client W),
    (forall expected err w,
        send (request_of url data c) (world c) = (inr err, w) ->
        request utils runtime config (S fuel) url caller data expected retrying left c
        = (Raise err, after_send (request_of url data c) w c))
    /\ (forall r w err w',
           let c1 := after_send (request_of url data c) w c in
           send (request_of url data c) (world c) = (inl r, w) ->
           status_code r <> e ->
           status_code r = 401 \/ status_code r = 500
           \/ (status_code r = 403 /\ PyStr.contains "code" (text r) = false) ->
           send (request_of (JStr (probe_url config)) None c1) w = (inr err, w') ->
           request utils runtime config (S (S fuel)) url caller data (Some e) retrying
             left c
           = (Raise err, after_send (request_of (JStr (probe_url config)) None c1) w' c1)).
Proof.
  intros fuel url caller data e retrying left c. split.
  - intros expected err w H. now apply request_transport_error.
  - intros r w err w' c1 S1 He Hst S2.
    rewrite request_do_reauth with (1 := S1); [ | exact He | | | ].
    + fold c1. unfold bind at 1. unfold login, login_with. unfold bind at 1.
      cbn [login_tokens]. unfold bind at 1. unfold request_default at 1.
      rewrite request_transport_error with (1 := S2). reflexivity.
    + destruct Hst as [-> | [-> | [-> _]]]; discriminate.
    + destruct Hst as [H | [H | [H _]]]; auto.
    + intros H. destruct Hst as [H' | [H' | [_ H']]]; [congruence | congruence | exact H'].
Qed.

(* --------------------------------------------------------------------- *)
(** *** Login *)
(* --------------------------------------------------------------------- *)

(** The probe of [login] answered with 401 or 403 and two tokens: the
    handshake starts from there. *)
Lemma login_reaches_handshake fuel (c : Client W) r1 w1 :
  send (request_of (JStr (probe_url config)) None c) (world c) = (inl r1, w1) ->
  status_code r1 = 401 \/ status_code r1 = 403 ->
  List.length (PyStr.split "," 2 (text r1)) = 2%nat ->
  0 <= CONNECTION_RETRY utils ->
  login utils runtime config (S fuel) c
  = login_handshake config (request_default utils runtime config (S fuel)) r1
      (accepted (request_of (JStr (probe_url config)) None c) w1 c).
Proof.
  intros S1 St1 Tok CR.
  unfold login, login_with. unfold bind at 1.
  cbn [login_tokens]. unfold bind at 1. unfold request_default at 1.
  rewrite request_accept with (1 := S1) by auto.
  cbn [the_response]. unfold bind at 1, ret at 1.
  assert ((status_code r1 =? 200) = false) as ->
      by (destruct St1 as [-> | ->]; reflexivity).
  assert (negb (status_code r1 =? 401) && negb (status_code r1 =? 403) = false) as ->
      by (destruct St1 as [-> | ->]; reflexivity).
  assert ((0 >? CONNECTION_RETRY utils) = false) as ->
      by (rewrite Z.gtb_ltb; apply Z.ltb_ge; lia).
  rewrite Tok. reflexivity.
Qed.

(** X5: A session that is still valid (the probe is answered with 200):
    [login] returns the body of the probe after this one request, and does
    not store it: [self.user_details] is what it was. *)
Theorem login_on_a_valid_session_stores_nothing :
  forall fuel (c : Client W) r w j,
    send (request_of (JStr (probe_url config)) None c) (world c) = (inl r, w) ->
    status_code r = 200 ->
    json_body r = Some j ->
    exists c',
      login utils runtime config (S fuel) c = (Ret j, c')
      /\ user_details c' = user_details c
      /\ sent c' = (sent c ++ [request_of (JStr (probe_url config)) None c])%list.
Proof.
  intros fuel c r w j H Hs Hj.
  rewrite login_still_valid with (1 := H) (2 := Hs) (3 := Hj).
  eexists. repeat split.
Qed.

(** X6: A probe answered with a status other than 200, 401 and 403 ends the
    login with a [TelenetServiceException] that names the status and the
    URL. *)
Theorem login_refuses_other_statuses :
  forall fuel (c : Client W) r w,
    send (request_of (JStr (probe_url config)) None c) (world c) = (inl r, w) ->
    status_code r <> 200 -> status_code r <> 401 -> status_code r <> 403 ->
    login utils runtime config (S fuel) c
    = (Raise (TelenetServiceException
                ("HTTP " ++ PyStr.of_Z (status_code r)
                 ++ " error while authenticating " ++ resp_url r)),
       accepted (request_of (JStr (probe_url config)) None c) w c).
Proof.
  intros fuel c r w H H200 H401 H403.
  unfold login, login_with. unfold bind at 1.
  cbn [login_tokens]. unfold bind at 1. unfold request_default at 1.
  rewrite request_accept with (1 := H) by auto.
  cbn [the_response]. unfold bind at 1, ret at 1.
  rewrite (proj2 (Z.eqb_neq _ _) H200), (proj2 (Z.eqb_neq _ _) H401),
    (proj2 (Z.eqb_neq _ _) H403).
  reflexivity.
Qed.

(** The token loop against a portal that keeps answering the probe with
    401 or 403 and no pair of tokens. *)
Lemma login_tokens_give_up (stuck : W -> Prop) (u : string) :
  (forall rq w, stuck w -> req_url rq = JStr (probe_url config) ->
     exists r w', send rq w = (inl r, w')
                  /\ (status_code r = 401 \/ status_code r = 403)
                  /\ List.length (PyStr.split "," 2 (text r)) <> 2%nat
                  /\ resp_url r = u /\ stuck w') ->
  forall (k : nat) (deep fuel : nat) (count : Z) (c : Client W),
    stuck (world c) ->
    count + Z.of_nat k = CONNECTION_RETRY utils + 1 ->
    (k < fuel)%nat ->
    exists c',
      login_tokens utils config (request_default utils runtime config (S deep)) fuel count c
      = (Raise (TelenetServiceException ("HTTP 401 not returning the tokens for " ++ u)), c')
      /\ List.length (sent c') = (List.length (sent c) + k + 1)%nat.
Proof.
  intros Hprobe k. induction k as [|k IH]; intros deep fuel count c Hc Hcount Hfuel;
    (destruct fuel as [|fuel]; [lia|]);
    destruct (Hprobe (request_of (JStr (probe_url config)) None c) (world c) Hc eq_refl)
      as (r & w & Hsend & Hst & Htok & Hu & Hw);
    cbn [login_tokens]; unfold bind at 1; unfold request_default at 1;
    rewrite request_accept with (1 := Hsend) by auto;
    cbn [the_response]; unfold bind at 1, ret at 1;
    (assert ((status_code r =? 200) = false) as ->
        by (destruct Hst as [-> | ->]; reflexivity));
    (assert (negb (status_code r =? 401) && negb (status_code r =? 403) = false) as ->
        by (destruct Hst as [-> | ->]; reflexivity)).
  - assert ((count >? CONNECTION_RETRY utils) = true) as ->
        by (rewrite Z.gtb_ltb; apply Z.ltb_lt; lia).
    rewrite Hu. eexists. split; [reflexivity|].
    unfold accepted, after_send. cbn [sent set_xsrf_header set_session].
    rewrite length_app. simpl. lia.
  - assert ((count >? CONNECTION_RETRY utils) = false) as ->
        by (rewrite Z.gtb_ltb; apply Z.ltb_ge; lia).
    rewrite (proj2 (Nat.eqb_neq _ _) Htok).
    destruct (IH deep fuel (count + 1)
                (accepted (request_of (JStr (probe_url config)) None c) w c))
      as (c' & Hrun & Hlen); [exact Hw | lia | lia |].
    exists c'. split; [exact Hrun|].
    rewrite Hlen. unfold accepted, after_send. cbn [sent set_xsrf_header set_session].
    rewrite length_app. simpl. lia.
Qed.

(** X7: The token loop of [login] is bounded: against a portal that keeps
    answering the probe with 401 or 403 and a text that is no pair of
    tokens, [login] raises the [TelenetServiceException] "not returning
    the tokens" after [CONNECTION_RETRY + 2] probes. *)
Theorem login_gives_up_without_tokens :
  forall (stuck : W -> Prop) (u : string),
    0 <= CONNECTION_RETRY utils ->
    (forall rq w, stuck w -> req_url rq = JStr (probe_url config) ->
       exists r w', send rq w = (inl r, w')
                    /\ (status_code r = 401 \/ status_code r = 403)
                    /\ List.length (PyStr.split "," 2 (text r)) <> 2%nat
                    /\ resp_url r = u /\ stuck w') ->
    forall (fuel : nat) (c : Client W),
      stuck (world c) ->
      (Z.to_nat (CONNECTION_RETRY utils) + 2 <= fuel)%nat ->
      exists c',
        login utils runtime config fuel c
        = (Raise (TelenetServiceException ("HTTP 401 not returning the tokens for " ++ u)),
           c')
        /\ List.length (sent c')
           = (List.length (sent c) + Z.to_nat (CONNECTION_RETRY utils) + 2)%nat.
Proof.
  intros stuck u CR Hprobe fuel c Hc Hfuel.
  destruct fuel as [|deep]; [lia|].
  destruct (@login_tokens_give_up stuck u Hprobe
              (S (Z.to_nat (CONNECTION_RETRY utils))) deep (S deep) 0 c Hc)
    as (c' & Hrun & Hlen); [lia | lia |].
  exists c'. split.
  - unfold login, login_with, bind. rewrite Hrun. reflexivity.
  - rewrite Hlen. lia.
Qed.

(** X8: The authorize step that does not land on the login page (another
    status, or a URL without [openid/login]): [login] means to raise a
    [TelenetServiceException] with the text of the response, but calls
    [response.text], a string, and ends in a [TypeError]. *)
Theorem login_authorize_failure_is_a_type_error :
  forall fuel (c : Client W) r1 w1 state nonce r2 w2,
    let c1 := accepted (request_of (JStr (probe_url config)) None c) w1 c in
    let c2 := accepted (request_of (JStr (authorize_url config state nonce)) None c1) w2 c1 in
    send (request_of (JStr (probe_url config)) None c) (world c) = (inl r1, w1) ->
    status_code r1 = 401 \/ status_code r1 = 403 ->
    PyStr.split "," 2 (text r1) = [state; nonce] ->
    0 <= CONNECTION_RETRY utils ->
    send (request_of (JStr (authorize_url config state nonce)) None c1) w1 = (inl r2, w2) ->
    status_code r2 <> 200 \/ PyStr.contains "openid/login" (resp_url r2) = false ->
    login utils runtime config (S fuel) c = (Raise TypeError, c2).
Proof.
  intros fuel c r1 w1 state nonce r2 w2 c1 c2 S1 St1 Tok CR S2 Hoff.
  rewrite login_reaches_handshake with (1 := S1); [ | exact St1 | now rewrite Tok | exact CR ].
  fold c1. unfold login_handshake. rewrite Tok.
  unfold bind at 1. unfold request_default at 1.
  rewrite request_accept with (1 := S2) by auto. fold c2.
  cbn [the_response]. unfold bind at 1, ret at 1.
  assert (negb (status_code r2 =? 200)
          || negb (PyStr.contains "openid/login" (resp_url r2)) = true) as ->.
  { destruct Hoff as [H | ->]; [|apply orb_true_r].
    now rewrite (proj2 (Z.eqb_neq _ _) H). }
  reflexivity.
Qed.

(** X9: Wrong credentials: the credential POST is answered with 200 from a
    URL that contains [authentication_error].  [login] raises a
    [BadCredentialsException] with the text of that response; the user
    details are not fetched and [self.user_details] is what it was. *)
Theorem login_bad_credentials :
  forall fuel (c : Client W) r1 w1 state nonce r2 w2 r3 w3,
    let c1 := accepted (request_of (JStr (probe_url config)) None c) w1 c in
    let c2 := accepted (request_of (JStr (authorize_url config state nonce)) None c1) w2 c1 in
    let c3 := accepted (request_of (JStr (login_do_url config))
                          (Some (login_form config)) c2) w3 c2 in
    send (request_of (JStr (probe_url config)) None c) (world c) = (inl r1, w1) ->
    status_code r1 = 401 \/ status_code r1 = 403 ->
    PyStr.split "," 2 (text r1) = [state; nonce] ->
    0 <= CONNECTION_RETRY utils ->
    send (request_of (JStr (authorize_url config state nonce)) None c1) w1 = (inl r2, w2) ->
    status_code r2 = 200 ->
    PyStr.contains "openid/login" (resp_url r2) = true ->
    send (request_of (JStr (login_do_url config)) (Some (login_form config)) c2) w2
    = (inl r3, w3) ->
    status_code r3 = 200 ->
    PyStr.contains "authentication_error" (resp_url r3) = true ->
    login utils runtime config (S fuel) c
    = (Raise (BadCredentialsException (text r3)), c3)
    /\ user_details c3 = user_details c
    /\ List.length (sent c3) = (List.length (sent c) + 3)%nat.
Proof.
  intros fuel c r1 w1 state nonce r2 w2 r3 w3 c1 c2 c3 S1 St1 Tok CR S2 St2 U2 S3 St3 U3.
  split.
  - rewrite login_reaches_handshake with (1 := S1);
      [ | exact St1 | now rewrite Tok | exact CR ].
    fold c1. unfold login_handshake. rewrite Tok.
    unfold bind at 1. unfold request_default at 1.
    rewrite request_accept with (1 := S2) by auto. fold c2.
    cbn [the_response]. unfold bind at 1, ret at 1.
    rewrite St2, U2. change (200 =? 200) with true. cbn [negb orb].
    unfold bind at 1. unfold request_default at 1.
    rewrite request_accept with (1 := S3) by (right; now rewrite St3). fold c3.
    cbn [the_response]. unfold bind at 1, ret at 1.
    rewrite U3. reflexivity.
  - split; [reflexivity|].
    unfold c3, c2, c1, accepted, after_send. cbn [sent set_xsrf_header set_session].
    rewrite !length_app. simpl. lia.
Qed.

(* --------------------------------------------------------------------- *)
(** *** What the fetchers and the synthesis leave alone *)
(* --------------------------------------------------------------------- *)

Lemma session_only_products (c c' : Client W) : session_only c c' -> products_kept c c'.
Proof. intros ((H1 & H2 & _) & _). now split. Qed.

Lemma get_keeps (R : Client W -> Client W -> Prop) {frame : Frame R} key x :
  Keeps R (get_ key x).
Proof. unfold get_. keeps. Qed.

Lemma json_or_False_keeps (R : Client W -> Client W -> Prop) {frame : Frame R} r :
  Keeps R (json_or_False r).
Proof. unfold json_or_False. keeps. Qed.

Hint Resolve request_default_keeps login_keeps get_keeps json_or_False_keeps : keeps.

Lemma product_details_keeps fuel url :
  Keeps (@session_only W) (product_details utils runtime config fuel url).
Proof. unfold product_details. keeps. Qed.

Lemma bill_cycles_keeps fuel type identifier count :
  Keeps (@session_only W) (bill_cycles utils runtime config fuel type identifier count).
Proof. unfold bill_cycles. keeps. Qed.

Lemma product_usage_keeps fuel type identifier a b :
  Keeps (@session_only W) (product_usage utils runtime config fuel type identifier a b).
Proof. unfold product_usage. keeps. Qed.

Lemma product_daily_usage_keeps fuel type identifier a b d :
  Keeps (@session_only W)
    (product_daily_usage utils runtime config fuel type identifier a b d).
Proof. unfold product_daily_usage. keeps. Qed.

Lemma mobile_usage_keeps fuel identifier :
  Keeps (@session_only W) (mobile_usage utils runtime config fuel identifier).
Proof. unfold mobile_usage. keeps. Qed.

Lemma mobile_bundle_usage_keeps fuel bundle line :
  Keeps (@session_only W) (mobile_bundle_usage utils runtime config fuel bundle line).
Proof. unfold mobile_bundle_usage. keeps. Qed.

Lemma modems_keeps fuel identifier :
  Keeps (@session_only W) (modems utils runtime config fuel identifier).
Proof. unfold modems. keeps. Qed.

Lemma network_topology_keeps fuel mac :
  Keeps (@session_only W) (network_topology utils runtime config fuel mac).
Proof. unfold network_topology. keeps. Qed.

Lemma wireless_settings_keeps fuel mac identifier :
  Keeps (@session_only W) (wireless_settings utils runtime config fuel mac identifier).
Proof. unfold wireless_settings. keeps. Qed.

Lemma device_details_keeps fuel type identifier :
  Keeps (@session_only W) (device_details utils runtime config fuel type identifier).
Proof. unfold device_details. keeps. Qed.

Hint Resolve product_details_keeps bill_cycles_keeps product_usage_keeps
  product_daily_usage_keeps mobile_usage_keeps mobile_bundle_usage_keeps modems_keeps
  network_topology_keeps wireless_settings_keeps device_details_keeps : keeps.

Lemma outline_mutate k (f : TelenetProduct -> TelenetProduct) (table : Products) :
  (forall p, product_extra_sensor (f p) = product_extra_sensor p) ->
  outline (products_mutate k f table) = outline table.
Proof.
  intros Hf. unfold outline, products_mutate. rewrite map_map.
  apply map_ext. intros [k0 p]. cbn [fst snd].
  destruct (PyKey_eqb k k0); cbn [fst snd]; [now rewrite Hf | reflexivity].
Qed.

(** A call of the client inside the synthesis. *)
Lemma on_client_keeps {A} (m : M (Client W) A) :
  Keeps (@session_only W) m -> Keeps (@synthesis_frame W) (on_client m).
Proof.
  intros H [c np]. unfold on_client. cbn [fst snd]. specialize (H c).
  destruct (m c) as [r c']. destruct H as ((H1 & H2 & H3 & H4) & _).
  unfold synthesis_frame. cbn [fst snd] in *.
  repeat split; try assumption. now rewrite H1.
Qed.

Lemma on_client_gets_keeps {A} (f : Client W -> A) :
  Keeps (@synthesis_frame W) (on_client (gets f)).
Proof. intros [c np]. apply frame_refl. Qed.

Lemma set_total_cost_keeps x :
  Keeps (@synthesis_frame W) (on_client (modify (set_total_cost x))).
Proof. intros [c np]. repeat split. Qed.

(** The assignment of line 369. *)
Lemma mutate_keeps k name v :
  Keeps (@synthesis_frame W)
    (on_client (modify (fun c =>
       set_all_products
         (products_mutate k (set_instance_attribute name v) (all_products c)) c))).
Proof.
  intros [c np]. unfold on_client, modify. cbn [fst snd].
  repeat split. cbn [all_products set_all_products].
  now apply outline_mutate.
Qed.

(** No sensor reaches [new_products]. *)
Lemma emit_keeps (R : Client W * Products -> Client W * Products -> Prop)
    {frame : Frame R} product suffix key state attributes plan unit :
  Keeps R (emit utils runtime product suffix key state attributes plan unit).
Proof. intros s. rewrite emit_raises. apply frame_refl. Qed.

Lemma pure_keeps {A} (o : outcome A) : Keeps (@synthesis_frame W) (pure_ o).
Proof. unfold pure_. keeps. Qed.

Lemma field_keeps key x : Keeps (@synthesis_frame W) (field key x).
Proof. unfold field. apply pure_keeps. Qed.

Lemma path_keeps j p : Keeps (@synthesis_frame W) (path utils j p).
Proof. unfold path. apply pure_keeps. Qed.

Lemma merged_keeps a b : Keeps (@synthesis_frame W) (merged a b).
Proof. unfold merged. apply pure_keeps. Qed.

Hint Resolve on_client_keeps on_client_gets_keeps set_total_cost_keeps mutate_keeps
  emit_keeps pure_keeps field_keeps path_keeps merged_keeps : keeps.

Lemma add_to_total_cost_keeps x :
  Keeps (@synthesis_frame W) (add_to_total_cost runtime x).
Proof. unfold add_to_total_cost. keeps. Qed.

Hint Resolve add_to_total_cost_keeps : keeps.

Lemma price_sensor_keeps k product attr :
  Keeps (@synthesis_frame W) (price_sensor utils runtime k product attr).
Proof. unfold price_sensor. keeps. Qed.

Lemma daily_days_keeps days :
  forall acc, Keeps (@synthesis_frame W) (daily_days days acc).
Proof. induction days as [|day rest IH]; intros acc; cbn [daily_days]; keeps. Qed.

Hint Resolve price_sensor_keeps daily_days_keeps : keeps.

Lemma daily_cycles_keeps fuel type identifier cycles :
  forall acc,
    Keeps (@synthesis_frame W)
      (daily_cycles utils runtime config fuel type identifier cycles acc).
Proof. induction cycles as [|cycle rest IH]; intros acc; cbn [daily_cycles]; keeps. Qed.

Lemma wifi_sensors_keeps fuel product modem :
  Keeps (@synthesis_frame W) (wifi_sensors utils runtime config fuel product modem).
Proof. unfold wifi_sensors. keeps. Qed.

Hint Resolve daily_cycles_keeps wifi_sensors_keeps : keeps.

Lemma internet_sensors_keeps fuel product specs :
  Keeps (@synthesis_frame W)
    (internet_sensors utils runtime config fuel product specs).
Proof. unfold internet_sensors. keeps. Qed.

Lemma dtv_devices_keeps product devices items :
  forall idx, Keeps (@synthesis_frame W) (dtv_devices utils runtime product devices idx items).
Proof. induction items as [|item rest IH]; intros idx; cbn [dtv_devices]; keeps. Qed.

Hint Resolve dtv_devices_keeps : keeps.

Lemma dtv_sensors_keeps fuel product attr :
  Keeps (@synthesis_frame W) (dtv_sensors utils runtime config fuel product attr).
Proof. unfold dtv_sensors. keeps. Qed.

Lemma bucket_in_use_keeps data :
  Keeps (@synthesis_frame W) (bucket_in_use runtime data).
Proof. unfold bucket_in_use. keeps. Qed.

Lemma billing_attributes_keeps usage date :
  Keeps (@synthesis_frame W) (billing_attributes runtime usage date).
Proof. unfold billing_attributes. keeps. Qed.

Hint Resolve bucket_in_use_keeps billing_attributes_keeps : keeps.

Lemma out_of_bundle_sensor_keeps product usage attr type_attr plan :
  Keeps (@synthesis_frame W)
    (out_of_bundle_sensor utils runtime product usage attr type_attr plan).
Proof. unfold out_of_bundle_sensor. keeps. Qed.

Lemma shared_items_keeps usage bucket :
  Keeps (@synthesis_frame W) (shared_items usage bucket).
Proof. unfold shared_items. keeps. Qed.

Hint Resolve out_of_bundle_sensor_keeps shared_items_keeps : keeps.

Lemma bundle_sensors_keeps product usage attr type_attr :
  Keeps (@synthesis_frame W) (bundle_sensors utils runtime product usage attr type_attr).
Proof. unfold bundle_sensors. keeps. Qed.

Lemma line_sensors_keeps product usage attr type_attr :
  Keeps (@synthesis_frame W) (line_sensors utils runtime product usage attr type_attr).
Proof. unfold line_sensors. keeps. Qed.

Hint Resolve bundle_sensors_keeps line_sensors_keeps : keeps.

Lemma mobile_bundle_line_sensors_keeps fuel product attr :
  Keeps (@synthesis_frame W)
    (mobile_bundle_line_sensors utils runtime config fuel product attr).
Proof. unfold mobile_bundle_line_sensors. keeps. Qed.

Lemma mobile_standalone_sensors_keeps fuel product attr :
  Keeps (@synthesis_frame W)
    (mobile_standalone_sensors utils runtime config fuel product attr).
Proof. unfold mobile_standalone_sensors. keeps. Qed.

Hint Resolve internet_sensors_keeps dtv_sensors_keeps mobile_bundle_line_sensors_keeps
  mobile_standalone_sensors_keeps : keeps.

Lemma extra_sensors_for_keeps fuel k :
  Keeps (@synthesis_frame W) (extra_sensors_for utils runtime config fuel k).
Proof. unfold extra_sensors_for. keeps. Qed.

(** The account-level sensors end in an exception before anything is put
    into [new_products]: the [AttributeError] of [.get] on a user record
    that is no mapping, else the [TypeError] of the constructor of the
    invoice sensor. *)
Lemma account_sensors_raises (s : Client W * Products) :
  account_sensors utils runtime s
  = (Raise (match user_details (fst s) with
            | JObj _ => TypeError
            | _ => AttributeError
            end), s).
Proof.
  destruct s as [c np]. unfold account_sensors.
  unfold bind at 1, on_client at 1, gets at 1. cbn [fst snd].
  destruct (user_details c); reflexivity.
Qed.

(** A computation whose last step raises does not return. *)
Lemma bind_never_returns {S A B} (m : M S A) (k : A -> M S B) (s : S) :
  (forall a s1, returned (fst (k a s1)) = false) ->
  returned (fst (bind m k s)) = false.
Proof.
  intros H. unfold bind. destruct (m s) as [[a| | |] s1]; [apply H | reflexivity ..].
Qed.

(** The synthesis: the loop over the keys of the table, then the account
    sensors, which raise; the merge of the last line is never reached. *)
Lemma synthesize_run fuel (s : Client W * Products) :
  returned (fst (synthesize utils runtime config fuel s)) = false
  /\ synthesis_frame s (snd (synthesize utils runtime config fuel s)).
Proof.
  unfold synthesize. split.
  - apply bind_never_returns. intros table s1.
    apply bind_never_returns. intros [] s2.
    unfold bind. rewrite account_sensors_raises. reflexivity.
  - revert s. change (Keeps (@synthesis_frame W)
                     (table <- on_client (gets (@all_products W)) ;;
                      for_each (map fst table) (extra_sensors_for utils runtime config fuel) ;;
                      account_sensors utils runtime ;;
                      modify (fun s : Client W * Products =>
                        (set_all_products
                           (products_update (all_products (fst s)) (snd s)) (fst s),
                         snd s)))).
    pose proof (extra_sensors_for_keeps fuel) as Hloop.
    apply keeps_bind; [typeclasses eauto | solve [keeps] | intro table].
    apply keeps_bind; [typeclasses eauto | solve [keeps] | intros _].
    intros s. unfold bind. rewrite account_sensors_raises. apply frame_refl.
Qed.

(** X18: [create_extra_sensors] never returns: the loop over the products
    ends in an exception, or the account-level sensors after it do (line
    930).  The merge of its last line is not reached: the product table has
    the keys it had, in their order, with the same kind of record under
    each, and the product types, the plans and the address cache are as
    they were. *)
Theorem create_extra_sensors_never_returns :
  forall fuel (c : Client W),
    let pass := create_extra_sensors utils runtime config fuel c in
    returned (fst pass) = false
    /\ outline (all_products (snd pass)) = outline (all_products c)
    /\ product_types (snd pass) = product_types c
    /\ plan_products (snd pass) = plan_products c
    /\ addresses (snd pass) = addresses c.
Proof.
  intros fuel c. cbv zeta. unfold create_extra_sensors.
  destruct (synthesize_run fuel (c, [])) as (Hr & Hk).
  destruct (synthesize utils runtime config fuel (c, [])) as [[[]| | |] s];
    cbn [fst snd returned] in *; try discriminate;
    destruct Hk as (H1 & H2 & H3 & H4 & _); repeat split; assumption.
Qed.

(** The same for the use in [products]. *)
Lemma create_extra_sensors_run fuel (c : Client W) :
  returned (fst (create_extra_sensors utils runtime config fuel c)) = false
  /\ registry_kept c (snd (create_extra_sensors utils runtime config fuel c)).
Proof.
  unfold create_extra_sensors.
  destruct (synthesize_run fuel (c, [])) as (Hr & Hk).
  destruct (synthesize utils runtime config fuel (c, [])) as [[[]| | |] s];
    cbn [fst snd returned] in *; try discriminate;
    destruct Hk as (H1 & H2 & _); repeat split; assumption.
Qed.

(* --------------------------------------------------------------------- *)
(** *** Registration *)
(* --------------------------------------------------------------------- *)

Lemma bind_ret_inv {S A B} (m : M S A) (k : A -> M S B) (s s' : S) (b : B) :
  bind m k s = (Ret b, s') ->
  exists a s1, m s = (Ret a, s1) /\ k a s1 = (Ret b, s').
Proof.
  unfold bind. destruct (m s) as [[a| | |] s1]; try discriminate.
  intros H. now exists a, s1.
Qed.

Lemma lift_outcome_inv {S A} (o : outcome A) (s s' : S) (a : A) :
  lift_outcome o s = (Ret a, s') -> o = Ret a /\ s' = s.
Proof. unfold lift_outcome. intros H. inversion H. auto. Qed.

Lemma gets_inv {S A} (f : S -> A) (s s' : S) (a : A) :
  gets f s = (Ret a, s') -> a = f s /\ s' = s.
Proof. unfold gets. intros H. inversion H. auto. Qed.

Lemma add_product_type_member t (c : Client W) :
  existsb (Json_eqb t) (product_types (snd (add_product_type t c))) = true.
Proof.
  unfold add_product_type, modify. cbn [snd].
  destruct (existsb (Json_eqb t) (product_types c)) eqn:E; [exact E|].
  cbn [product_types set_product_types]. rewrite existsb_app. cbn [existsb].
  now rewrite Json_eqb_refl, orb_true_r.
Qed.

Lemma all_strings_snoc (t : string) (l : list Json) :
  all_strings l = true -> all_strings (l ++ [JStr t]) = true.
Proof.
  unfold all_strings. intros H. rewrite forallb_app, H. reflexivity.
Qed.

(** X10: [add_product_type] (lines 189-193) on product types that are
    strings keeps [product_types] a list without repetition: the type is
    in the list afterwards, the types that were there keep their places, a
    list without a repeated type stays one, and adding the type a second
    time changes nothing. *)
Theorem add_product_type_adds_once :
  forall (t : string) (c : Client W),
    all_strings (product_types c) = true ->
    let c' := snd (add_product_type (JStr t) c) in
    all_strings (product_types c') = true
    /\ existsb (Json_eqb (JStr t)) (product_types c') = true
    /\ (exists added, product_types c' = (product_types c ++ added)%list)
    /\ distinct (product_types c') = distinct (product_types c)
    /\ snd (add_product_type (JStr t) c') = c'.
Proof.
  intros t c Hs. cbv zeta.
  split; [|split; [apply add_product_type_member|]];
    unfold add_product_type, modify; cbn [snd];
    destruct (existsb (Json_eqb (JStr t)) (product_types c)) eqn:E.
  - exact Hs.
  - cbn [product_types set_product_types]. now apply all_strings_snoc.
  - rewrite E. repeat split. exists []. now rewrite app_nil_r.
  - cbn [product_types set_product_types].
    rewrite existsb_app. cbn [existsb]. rewrite Json_eqb_refl, orb_true_r.
    repeat split; [now exists [JStr t] | now apply distinct_snoc].
Qed.

Lemma sales_price_keeps (R : Client W -> Client W -> Prop) {frame : Frame R} info :
  Keeps R (sales_price utils runtime info).
Proof. unfold sales_price. keeps. Qed.

Lemma display_state_keeps (R : Client W -> Client W -> Prop) {frame : Frame R}
    product info :
  Keeps R (display_state utils config product info).
Proof. unfold display_state. keeps. Qed.

Lemma request_default_keeps_products fuel url caller data expected :
  Keeps (@products_kept W)
    (request_default utils runtime config fuel url caller data expected).
Proof.
  eapply keeps_weaken; [apply session_only_products | apply request_default_keeps].
Qed.

Lemma product_details_keeps_products fuel url :
  Keeps (@products_kept W) (product_details utils runtime config fuel url).
Proof.
  eapply keeps_weaken; [apply session_only_products | apply product_details_keeps].
Qed.

Lemma set_addresses_keeps_products (f : Client W -> list (PyKey * Json)) :
  Keeps (@products_kept W) (modify (fun c => set_addresses (f c) c)).
Proof. intros c. split; reflexivity. Qed.

Lemma address_keeps_products fuel address_id :
  Keeps (@products_kept W) (address utils runtime config fuel address_id).
Proof.
  pose proof request_default_keeps_products.
  unfold address, fetch_address. keeps;
    match goal with |- Keeps _ (modify _) => apply set_addresses_keeps_products end.
Qed.

Lemma keeps_run {S A} (R : S -> S -> Prop) (m : M S A) (s s' : S) (r : outcome A) :
  Keeps R m -> m s = (r, s') -> R s s'.
Proof. intros H E. specialize (H s). now rewrite E in H. Qed.

Arguments keeps_run {S A R m s s' r} _ _.

Hint Resolve product_details_keeps_products address_keeps_products
  request_default_keeps_products sales_price_keeps display_state_keeps : keeps.

(** The constructor call of line 230 raises before the assignment to the
    table and before the type is added. *)
Lemma add_product_keeps_products fuel product plan_identifier state_prop plan_label :
  Keeps (@products_kept W)
    (add_product utils runtime config fuel product plan_identifier state_prop plan_label).
Proof. unfold add_product. keeps. Qed.

(** [add_product] returns only on an identifier that is in the table. *)
Lemma add_product_returns fuel product plan_identifier state_prop plan_label
    (c c' : Client W) registered :
  add_product utils runtime config fuel product plan_identifier state_prop plan_label c
  = (Ret registered, c') ->
  registered = false /\ c' = c
  /\ exists identifier k,
       py_get "identifier" product = Ret identifier
       /\ key_of identifier = Some k
       /\ dict_mem PyKey_eqb k (all_products c) = true.
Proof.
  intros H. unfold add_product, get_ in H.
  apply bind_ret_inv in H. destruct H as (identifier & s & H1 & H).
  apply lift_outcome_inv in H1. destruct H1 as (Hid & ->).
  apply bind_ret_inv in H. destruct H as (k & s & H1 & H).
  apply lift_outcome_inv in H1. destruct H1 as (Hk & ->).
  unfold py_key in Hk. destruct (key_of identifier) as [k0|] eqn:Hkey; [|discriminate].
  inversion Hk; subst k0; clear Hk.
  apply bind_ret_inv in H. destruct H as (present & s & H1 & H).
  apply gets_inv in H1. destruct H1 as (-> & ->).
  destruct (dict_mem PyKey_eqb k (all_products c)) eqn:Hin.
  - unfold ret in H. inversion H; subst. repeat split. now exists identifier, k.
  - exfalso.
    do 6 (apply bind_ret_inv in H; destruct H as (? & ? & _ & H)).
    apply bind_ret_inv in H. destruct H as (record & s & H1 & _).
    apply lift_outcome_inv in H1. destruct H1 as (Hc & _).
    rewrite new_TelenetProduct_undeclared in Hc by reflexivity. discriminate.
Qed.

(** X11: [add_product] (lines 195-245) registers nothing.  However the
    call ends, the product table and the product types are as they were;
    it never returns [True]: when it returns, it returns [False] for an
    identifier that is a key of the table already, the client as it was.
    For a new identifier the constructor call of line 230 ends the call
    (the dataclass declares no [product_plan_label], [product_address] or
    [product_price]), if nothing before it has. *)
Theorem add_product_registers_nothing :
  forall fuel product plan_identifier state_prop plan_label (c : Client W),
    let run :=
      add_product utils runtime config fuel product plan_identifier state_prop
        plan_label c in
    all_products (snd run) = all_products c
    /\ product_types (snd run) = product_types c
    /\ match fst run with
       | Ret registered =>
           registered = false /\ snd run = c
           /\ exists identifier k,
                py_get "identifier" product = Ret identifier
                /\ key_of identifier = Some k
                /\ dict_mem PyKey_eqb k (all_products c) = true
       | _ => True
       end.
Proof.
  intros fuel product plan_identifier state_prop plan_label c. cbv zeta.
  pose proof (add_product_keeps_products fuel product plan_identifier state_prop
                plan_label c) as (H1 & H2).
  split; [exact H1|]. split; [exact H2|].
  destruct (add_product utils runtime config fuel product plan_identifier state_prop
              plan_label c) as [[registered| | |] c'] eqn:E; cbn [fst snd]; auto.
  eapply add_product_returns. exact E.
Qed.

(* --------------------------------------------------------------------- *)
(** *** Fetchers *)
(* --------------------------------------------------------------------- *)

(** [product_daily_usage] asks with no expected status. *)
Lemma product_daily_usage_answer fuel type identifier cycle from_date to_date
    (c : Client W) r w :
  let url :=
    JStr (api ++ "/product-service/v1/products/" ++ py_str runtime type
          ++ "/" ++ py_str runtime identifier
          ++ "/dailyusage?billcycle=" ++ py_str runtime cycle
          ++ "&fromDate=" ++ py_str runtime from_date
          ++ "&toDate=" ++ py_str runtime to_date) in
  send (request_of url None c) (world c) = (inl r, w) ->
  product_daily_usage utils runtime config (S fuel) type identifier cycle from_date
    to_date c
  = (if status_code r =? 200
     then match json_body r with Some j => Ret j | None => Raise ValueError end
     else Ret (JObj []),
     accepted (request_of url None c) w c).
Proof.
  intros url H. unfold product_daily_usage. unfold bind at 1. unfold request_default.
  fold url. rewrite request_accept with (1 := H) by auto.
  destruct (status_code r =? 200); cbn [negb]; [|reflexivity].
  unfold response_json. destruct (json_body r); reflexivity.
Qed.

Lemma wireless_settings_answer fuel mac identifier (c : Client W) r w :
  let url := JStr (wireless_settings_url runtime mac identifier) in
  send (request_of url None c) (world c) = (inl r, w) ->
  wireless_settings utils runtime config (S fuel) mac identifier c
  = (if status_code r =? 500 then Ret PyFalse
     else match json_body r with Some j => Ret j | None => Raise ValueError end,
     accepted (request_of url None c) w c).
Proof.
  intros url H. unfold wireless_settings. unfold bind at 1. unfold request_default.
  fold url. rewrite request_accept with (1 := H) by auto.
  destruct (status_code r =? 500); [reflexivity|].
  unfold response_json. destruct (json_body r); reflexivity.
Qed.

(** X12: The two fetchers that pass no expected status, [product_daily_usage]
    (lines 1065-1079) and [wireless_settings] (lines 1156-1166), settle on
    the first answer, whatever its status: the portal sees one request, and
    a 401 or a 403 starts no login.  The daily usage is the body of a 200
    and the empty mapping for every other status; the wireless settings are
    [False] for a 500 and the body of the answer for every other status. *)
Theorem fetchers_without_expected_status :
  forall fuel type identifier cycle from_date to_date mac (c : Client W) r w,
    let daily_url :=
      JStr (api ++ "/product-service/v1/products/" ++ py_str runtime type
            ++ "/" ++ py_str runtime identifier
            ++ "/dailyusage?billcycle=" ++ py_str runtime cycle
            ++ "&fromDate=" ++ py_str runtime from_date
            ++ "&toDate=" ++ py_str runtime to_date) in
    let wifi_url := JStr (wireless_settings_url runtime mac identifier) in
    (send (request_of daily_url None c) (world c) = (inl r, w) ->
     product_daily_usage utils runtime config (S fuel) type identifier cycle from_date
       to_date c
     = (if status_code r =? 200
        then match json_body r with Some j => Ret j | None => Raise ValueError end
        else Ret (JObj []),
        accepted (request_of daily_url None c) w c))
    /\ (send (request_of wifi_url None c) (world c) = (inl r, w) ->
        wireless_settings utils runtime config (S fuel) mac identifier c
        = (if status_code r =? 500 then Ret PyFalse
           else match json_body r with Some j => Ret j | None => Raise ValueError end,
           accepted (request_of wifi_url None c) w c)).
Proof.
  intros. split; intros H.
  - now apply product_daily_usage_answer.
  - now apply wireless_settings_answer.
Qed.

(** X13: The loop over the bill cycles (lines 402-421) skips a cycle whose
    daily usage is not answered with 200: the cycle adds nothing to the
    lists and to the dict of the daily usages, and the loop goes on with
    the next cycle, the one request sent. *)
Theorem daily_cycles_skips_unanswered_cycle :
  forall fuel type identifier cycle rest acc (c : Client W) (np : Products) r w,
    let get key := match jdict_get key cycle with Some v => v | None => JNull end in
    let url :=
      JStr (api ++ "/product-service/v1/products/" ++ py_str runtime type
            ++ "/" ++ py_str runtime identifier
            ++ "/dailyusage?billcycle=" ++ py_str runtime (get "billCycle")
            ++ "&fromDate=" ++ py_str runtime (get "startDate")
            ++ "&toDate=" ++ py_str runtime (get "endDate")) in
    send (request_of url None c) (world c) = (inl r, w) ->
    status_code r <> 200 ->
    daily_cycles utils runtime config (S fuel) type identifier (JObj cycle :: rest) acc
      (c, np)
    = daily_cycles utils runtime config (S fuel) type identifier rest acc
        (accepted (request_of url None c) w c, np).
Proof.
  intros fuel type identifier cycle rest acc c np r w get url H Hst.
  cbn [daily_cycles]. unfold jdict_get in *.
  unfold bind at 1, field at 1, pure_ at 1, lift_outcome at 1. cbn [py_get].
  unfold bind at 1, field at 1, pure_ at 1, lift_outcome at 1. cbn [py_get].
  unfold bind at 1, field at 1, pure_ at 1, lift_outcome at 1. cbn [py_get].
  unfold bind at 1, on_client at 1. cbn [fst snd].
  subst url get. cbv beta in H.
  rewrite product_daily_usage_answer with (1 := H).
  rewrite (proj2 (Z.eqb_neq _ _) Hst).
  unfold bind at 1, pure_ at 1, lift_outcome at 1. cbn [py_len List.length Z.of_nat].
  reflexivity.
Qed.

(** X14: [bill_cycles] (lines 1027-1051) on an answer with the expected
    status whose body has a list under [billCycles]: the dates are those
    of the first cycle; the list itself is returned under [cycles] for an
    internet product and for no other; an empty list is an [IndexError]
    (the code takes element 0 unchecked). *)
Theorem bill_cycles_reads_the_first_cycle :
  forall fuel type identifier count (c c' : Client W) response body cycles,
    request_default utils runtime config fuel
      (JStr (bill_cycles_url runtime type identifier count))
      "[TelenetClient|bill_cycles]" None (Some 200) c = (Ret (Some response), c') ->
    json_body response = Some (JObj body) ->
    jdict_get "billCycles" body = Some (JArr cycles) ->
    bill_cycles utils runtime config fuel type identifier count c
    = (match cycles with
       | [] => Raise IndexError
       | first :: _ =>
           match py_get "startDate" first, py_get "endDate" first with
           | Ret start_date, Ret end_date =>
               Ret (JObj ([("start_date", start_date); ("end_date", end_date)]
                          ++ (if json_is_str "internet" type
                              then [("cycles", JArr cycles)] else []))%list)
           | _, _ => Raise AttributeError
           end
       end, c').
Proof.
  intros fuel type identifier count c c' response body cycles H Hj Hc.
  unfold bill_cycles. unfold bind at 1. rewrite H.
  unfold bind at 1, response_json at 1. rewrite Hj. unfold ret at 1.
  unfold bind at 1, get_ at 1, lift_outcome at 1. cbn [py_get]. rewrite Hc.
  unfold bind at 1, lift_outcome at 1.
  destruct cycles as [|first cycles']; cbn [py_first]; [reflexivity|].
  unfold bind, get_, lift_outcome, ret.
  destruct first; cbn [py_get]; try reflexivity.
  destruct (json_is_str "internet" type); reflexivity.
Qed.

(** The loop of [plan_info] over the plans of the answer. *)
Lemma plan_info_loop (plans : list Json) :
  (forall plan, In plan plans -> exists k, record_key plan = Some k) ->
  forall c : Client W,
    for_each plans (fun plan =>
      identifier <- get_ "identifier" plan ;;
      k <- lift_outcome (py_key identifier) ;;
      modify (fun c => set_plan_products (dict_set PyKey_eqb k plan (plan_products c)) c)) c
    = (Ret tt,
       set_plan_products
         (fold_left (fun acc plan =>
                       match record_key plan with
                       | Some k => dict_set PyKey_eqb k plan acc
                       | None => acc
                       end) plans (plan_products c)) c).
Proof.
  induction plans as [|plan plans IH]; intros Hkeys c.
  - cbn [for_each fold_left]. unfold ret. destruct c; reflexivity.
  - destruct (Hkeys plan (or_introl eq_refl)) as (k & Hk).
    cbn [for_each fold_left]. rewrite Hk.
    unfold record_key in Hk.
    unfold bind at 1, loop_body at 1, bind at 1, get_ at 1, lift_outcome at 1.
    destruct (py_get "identifier" plan) as [identifier| | |]; try discriminate.
    unfold bind at 1, lift_outcome at 1, py_key. rewrite Hk.
    unfold modify. rewrite IH by (intros p Hp; apply Hkeys; now right).
    reflexivity.
Qed.

Lemma plan_table_sound (plans : list Json) :
  forall (acc : list (PyKey * Json)) k plan,
    dict_get PyKey_eqb k
      (fold_left (fun acc plan =>
                    match record_key plan with
                    | Some k => dict_set PyKey_eqb k plan acc
                    | None => acc
                    end) plans acc) = Some plan ->
    (In plan plans /\ record_key plan = Some k)
    \/ dict_get PyKey_eqb k acc = Some plan.
Proof.
  induction plans as [|p plans IH]; intros acc k plan; cbn [fold_left]; [auto|].
  intros H. destruct (IH _ _ _ H) as [(Hin & Hk) | Hacc].
  - left. split; [now right | exact Hk].
  - destruct (record_key p) as [kp|] eqn:Ep; [|auto].
    rewrite dict_get_set in Hacc.
    destruct (PyKey_eqb k kp) eqn:E; [|auto].
    apply PyKey_eqb_eq in E. subst kp. inversion Hacc; subst.
    left. split; [now left | exact Ep].
Qed.

Lemma plan_table_complete (plans : list Json) :
  forall (acc : list (PyKey * Json)) k,
    (exists plan, In plan plans /\ record_key plan = Some k)
    \/ (exists plan, dict_get PyKey_eqb k acc = Some plan) ->
    exists plan,
      dict_get PyKey_eqb k
        (fold_left (fun acc plan =>
                      match record_key plan with
                      | Some k => dict_set PyKey_eqb k plan acc
                      | None => acc
                      end) plans acc) = Some plan.
Proof.
  induction plans as [|p plans IH]; intros acc k; cbn [fold_left].
  - intros [(plan & [] & _) | H]; exact H.
  - intros [(plan & [-> | Hin] & Hk) | (plan & Hacc)]; apply IH.
    + right. rewrite Hk. exists plan. apply dict_get_set_same.
    + left. now exists plan.
    + right. destruct (record_key p) as [kp|]; [|now exists plan].
      rewrite dict_get_set. destruct (PyKey_eqb k kp); eauto.
Qed.

(** X15: [plan_info] (lines 1011-1025) on an answer with the expected status:
    it returns [False] (as it does on the soft failure), and
    [plan_products] is the index of the plans of this answer by their
    identifier, the plans of before dropped: a lookup finds a plan of the
    answer with that identifier, and the identifier of every plan of the
    answer is found.  The product table is as it was. *)
Theorem plan_info_indexes_the_answer :
  forall fuel (c c1 : Client W) response plans,
    request_default utils runtime config fuel
      (JStr (api ++ "/product-service/v1/product-subscriptions?producttypes=PLAN"))
      "[TelenetClient|planInfo]" None (Some 200) (set_plan_products [] c)
    = (Ret (Some response), c1) ->
    json_body response = Some (JArr plans) ->
    (forall plan, In plan plans -> exists k, record_key plan = Some k) ->
    exists c',
      plan_info utils runtime config fuel c = (Ret PyFalse, c')
      /\ (forall k plan,
             dict_get PyKey_eqb k (plan_products c') = Some plan ->
             In plan plans /\ record_key plan = Some k)
      /\ (forall plan k,
             In plan plans -> record_key plan = Some k ->
             exists found, dict_get PyKey_eqb k (plan_products c') = Some found)
      /\ all_products c' = all_products c.
Proof.
  intros fuel c c1 response plans H Hj Hkeys.
  pose proof (keeps_run (request_default_keeps _ _ _ _ _) H)
    as ((Hall & _ & Hplans & _) & _).
  cbn [plan_products all_products set_plan_products] in Hplans, Hall.
  unfold plan_info. unfold bind at 1, modify at 1.
  unfold bind at 1. rewrite H.
  unfold bind at 1, response_json at 1. rewrite Hj. unfold ret at 1.
  unfold bind at 1, lift_outcome at 1. cbn [py_iter].
  unfold bind at 1. rewrite plan_info_loop by exact Hkeys.
  unfold ret. rewrite Hplans.
  eexists. split; [reflexivity|]. cbn [plan_products all_products set_plan_products].
  split; [|split].
  - intros k plan Hget. destruct (plan_table_sound _ _ _ Hget) as [Hin | Hnil]; [exact Hin|].
    discriminate.
  - intros plan k Hin Hk. apply plan_table_complete. left. now exists plan.
  - exact Hall.
Qed.

(** X16: The first product type of [product_subscriptions] (lines 1081-1098)
    whose answer lists a record for an identifier that is no key of the
    product table: the assignment indexes the table by that identifier, and
    the pass ends in a [KeyError]. *)
Theorem subscription_of_unknown_product_is_a_key_error :
  forall fuel (c c1 : Client W) type types upper response subscription rest k,
    product_types c = type :: types ->
    py_upper type = Ret upper ->
    request_default utils runtime config fuel
      (JStr (api ++ "/product-service/v1/product-subscriptions?producttypes=" ++ upper))
      "[TelenetClient|product_subscriptions]" None (Some 200) c
    = (Ret (Some response), c1) ->
    json_body response = Some (JArr (subscription :: rest)) ->
    record_key subscription = Some k ->
    products_get k (all_products c) = None ->
    product_subscriptions utils runtime config fuel c = (Raise KeyError, c1).
Proof.
  intros fuel c c1 type types upper response subscription rest k Ht Hu H Hj Hk Hnone.
  pose proof (keeps_run (request_default_keeps _ _ _ _ _) H) as ((Hall & _) & _).
  unfold product_subscriptions. unfold bind at 1, gets at 1. rewrite Ht.
  cbn [for_each]. unfold bind at 1, loop_body at 1.
  unfold bind at 1, lift_outcome at 1. rewrite Hu.
  unfold bind at 1. rewrite H.
  unfold bind at 1, response_json at 1. rewrite Hj. unfold ret at 1.
  unfold bind at 1, lift_outcome at 1. cbn [py_iter for_each].
  unfold bind at 1, loop_body at 1.
  unfold record_key in Hk.
  unfold bind at 1, get_ at 1, lift_outcome at 1.
  destruct (py_get "identifier" subscription) as [identifier| | |]; try discriminate.
  unfold bind at 1, lift_outcome at 1, py_key. rewrite Hk.
  unfold bind at 1, gets at 1. rewrite Hall, Hnone. reflexivity.
Qed.

(** X17: [product_subscriptions] on a table with one product type: the soft
    failure of the request skips the type and ends the pass normally, the
    table untouched; an answer with the record of a registered product
    stores the record as the [product_subscription_info] of that product
    and changes nothing else of it. *)
Theorem product_subscriptions_on_one_type :
  forall fuel (c c1 : Client W) type upper,
    product_types c = [type] ->
    py_upper type = Ret upper ->
    let ask :=
      request_default utils runtime config fuel
        (JStr (api ++ "/product-service/v1/product-subscriptions?producttypes=" ++ upper))
        "[TelenetClient|product_subscriptions]" None (Some 200) c in
    (ask = (Ret None, c1) ->
     product_subscriptions utils runtime config fuel c = (Ret tt, c1)
     /\ all_products c1 = all_products c)
    /\ (forall response subscription k p,
           ask = (Ret (Some response), c1) ->
           json_body response = Some (JArr [subscription]) ->
           record_key subscription = Some k ->
           products_get k (all_products c) = Some p ->
           exists c',
             product_subscriptions utils runtime config fuel c = (Ret tt, c')
             /\ products_get k (all_products c')
                = Some (set_subscription_info subscription p)
             /\ map fst (all_products c') = map fst (all_products c)).
Proof.
  intros fuel c c1 type upper Ht Hu ask.
  assert (Hstart :
    product_subscriptions utils runtime config fuel c
    = loop_body
        (r <- request_default utils runtime config fuel
                (JStr (api ++ "/product-service/v1/product-subscriptions?producttypes="
                       ++ upper))
                "[TelenetClient|product_subscriptions]" None (Some 200) ;;
         match r with
         | None => continue_
         | Some response =>
             j <- response_json response ;;
             subscriptions <- lift_outcome (py_iter j) ;;
             for_each subscriptions (fun product =>
               identifier <- get_ "identifier" product ;;
               k <- lift_outcome (py_key identifier) ;;
               found <- gets (fun c => products_get k (all_products c)) ;;
               match found with
               | None => raise KeyError
               | Some p =>
                   modify (fun c =>
                     set_all_products
                       (products_set k (set_subscription_info product p)
                          (all_products c)) c)
               end)
         end) c).
  { unfold product_subscriptions. unfold bind at 1, gets at 1. rewrite Ht.
    cbn [for_each]. unfold bind at 1.
    unfold bind at 1, lift_outcome at 1. rewrite Hu.
    unfold loop_body.
    match goal with |- context [bind ?m ?k c] => destruct (bind m k c) as [[[]| | |] s] end;
      reflexivity. }
  split.
  - intros H. pose proof (keeps_run (request_default_keeps _ _ _ _ _) H) as ((Hall & _) & _).
    split; [|exact Hall].
    rewrite Hstart. unfold loop_body, bind. fold ask. rewrite H. reflexivity.
  - intros response subscription k p H Hj Hk Hp.
    pose proof (keeps_run (request_default_keeps _ _ _ _ _) H) as ((Hall & _) & _).
    rewrite Hstart. unfold loop_body. unfold bind at 1. fold ask. rewrite H.
    unfold bind at 1, response_json at 1. rewrite Hj. unfold ret at 1.
    unfold bind at 1, lift_outcome at 1. cbn [py_iter for_each].
    unfold record_key in Hk.
    unfold bind at 1, loop_body at 1, bind at 1, get_ at 1, lift_outcome at 1.
    destruct (py_get "identifier" subscription) as [identifier| | |]; try discriminate.
    unfold bind at 1, lift_outcome at 1, py_key. rewrite Hk.
    unfold bind at 1, gets at 1. rewrite Hall, Hp.
    unfold modify, ret. eexists. split; [reflexivity|].
    cbn [all_products set_all_products]. rewrite Hall. unfold products_get, products_set.
    split; [apply dict_get_set_same|].
    rewrite dict_set_keys. unfold dict_mem. unfold products_get in Hp. now rewrite Hp.
Qed.

(* --------------------------------------------------------------------- *)
(** *** Derived sensors *)
(* --------------------------------------------------------------------- *)

(** X20: No branch of the synthesis adds a sensor.  Whatever the portal
    answers and however the branch ends, the internet branch, the
    television branch and the two mobile branches leave [new_products] as
    it was: every sensor they mean to add goes through
    [construct_extra_sensor], which raises.  The loop over the set-top
    boxes (lines 641-652) in particular never gets past the first box. *)
Theorem no_branch_adds_a_sensor :
  forall fuel product specs attr (s : Client W * Products),
    snd (snd (internet_sensors utils runtime config fuel product specs s)) = snd s
    /\ snd (snd (dtv_sensors utils runtime config fuel product attr s)) = snd s
    /\ snd (snd (mobile_bundle_line_sensors utils runtime config fuel product attr s))
       = snd s
    /\ snd (snd (mobile_standalone_sensors utils runtime config fuel product attr s))
       = snd s
    /\ (forall devices idx box boxes,
           returned (fst (dtv_devices utils runtime product devices idx (box :: boxes) s))
           = false).
Proof.
  intros fuel product specs attr s.
  split; [apply internet_sensors_keeps|].
  split; [apply dtv_sensors_keeps|].
  split; [apply mobile_bundle_line_sensors_keeps|].
  split; [apply mobile_standalone_sensors_keeps|].
  intros devices idx box boxes. cbn [dtv_devices].
  do 3 (apply bind_never_returns; intros ? ?).
  unfold bind. rewrite emit_raises. reflexivity.
Qed.


(** X21: The two account-level sensors (lines 924-962) for a user record
    that is a mapping: the constructor of the invoice sensor is called
    with [product_plan_label], which the dataclass does not declare, and
    the [TypeError] ends the synthesis there.  Nothing has been sent,
    [new_products] is as it was, and the user sensor is not reached. *)
Theorem account_sensors_end_in_a_type_error :
  forall (c : Client W) (np : Products) details,
    user_details c = JObj details ->
    account_sensors utils runtime (c, np) = (Raise TypeError, (c, np)).
Proof.
  intros c np details Hd. unfold account_sensors.
  unfold bind at 1, on_client at 1, gets at 1. cbn [fst snd]. rewrite Hd.
  reflexivity.
Qed.

(* --------------------------------------------------------------------- *)
(** *** Attribute projection *)
(* --------------------------------------------------------------------- *)

Lemma products_get_key (k : PyKey) (table : Products) :
  In k (map fst table) -> exists p k', products_get k table = Some p /\ In (k', p) table.
Proof.
  unfold products_get. induction table as [|[k0 v0] table IH]; cbn [map fst In dict_get];
    [contradiction|].
  intros [-> | Hin].
  - rewrite PyKey_eqb_refl. exists v0, k. split; [reflexivity | now left].
  - destruct (PyKey_eqb k k0).
    + exists v0, k0. split; [reflexivity | now left].
    + destruct (IH Hin) as (p & k' & Hp & Hin'). exists p, k'. split; [exact Hp | now right].
Qed.

Lemma set_extra_attributes_loop_skips (c : Client W) :
  Forall derived (all_products c) ->
  forall keys attributes,
    (forall k, In k keys -> In k (map fst (all_products c))) ->
    set_extra_attributes_loop keys attributes c = (Ret tt, c).
Proof.
  intros Hd keys. induction keys as [|k keys IH]; intros attributes Hkeys;
    cbn [set_extra_attributes_loop]; [reflexivity|].
  destruct (products_get_key k (all_products c) (Hkeys k (or_introl eq_refl)))
    as (p & k' & Hp & Hin).
  unfold bind at 1, gets at 1. rewrite Hp.
  rewrite Forall_forall in Hd. specialize (Hd _ Hin). unfold derived in Hd.
  cbn [snd] in Hd. rewrite Hd. cbn [negb].
  apply IH. intros k0 Hk0. apply Hkeys. now right.
Qed.

(** X22: [set_extra_attributes] (lines 973-1002) passes over the derived
    sensors: on a table that holds derived sensors only it returns [True]
    and changes nothing. *)
Theorem set_extra_attributes_skips_derived_sensors :
  forall c : Client W,
    Forall derived (all_products c) ->
    set_extra_attributes c = (Ret true, c).
Proof.
  intros c Hd. unfold set_extra_attributes. unfold bind at 1, gets at 1.
  unfold bind. rewrite set_extra_attributes_loop_skips; auto.
Qed.

(** X23: The projection loop (lines 997-1000) over a source record that is a
    mapping never raises, and the attributes it collects are the source
    record cut down to the whitelist: under a whitelisted key that the
    source record has, the value of the source record; no other key. *)
Theorem projection_is_the_whitelisted_part :
  forall (keys : list string) (info : list (string * Json)),
    exists extra,
      project_attributes keys (JObj info) [] = Ret extra
      /\ forall key,
           jdict_get key extra
           = if existsb (String.eqb key) keys && dict_mem String.eqb key info
             then jdict_get key info
             else None.
Proof.
  intros keys info.
  destruct (project_attributes_total keys info []) as (extra & H).
  exists extra. split; [exact H|].
  intros key. apply (project_attributes_copies keys info [] H).
Qed.

(* --------------------------------------------------------------------- *)
(** *** Discovery *)
(* --------------------------------------------------------------------- *)

(** X25: A refresh that fails.  When [login] raises, [products] raises the
    same exception and the table, the product types and the total cost are
    the ones of before the call.  When [login] has returned and the request
    for the active products does not return a response (the soft failure,
    an exception), the table and the product types have been emptied and
    the total cost reset by then: the products of before are gone. *)
Theorem products_refresh_that_fails :
  forall fuel force (c : Client W),
    force = true \/ all_products c = [] ->
    (forall e c1,
        login utils runtime config fuel c = (Raise e, c1) ->
        products utils runtime config fuel force c = (Raise e, c1)
        /\ all_products c1 = all_products c
        /\ product_types c1 = product_types c
        /\ total_cost c1 = total_cost c)
    /\ (forall details c1 r c2,
           login utils runtime config fuel c = (Ret details, c1) ->
           request_default utils runtime config fuel (JStr products_url)
             "[TelenetClient|products]" None (Some 200)
             (set_product_types [] (set_all_products [] (set_total_cost (JInt 0) c1)))
           = (r, c2) ->
           (forall response, r <> Ret (Some response)) ->
           snd (products utils runtime config fuel force c) = c2
           /\ (forall l, fst (products utils runtime config fuel force c) <> Ret l)
           /\ all_products c2 = []
           /\ product_types c2 = []
           /\ total_cost c2 = JInt 0).
Proof.
  intros fuel force c Hpass.
  assert (Hgo : Nat.ltb 0 (List.length (all_products c)) && negb force = false).
  { destruct Hpass as [-> | ->]; [apply andb_false_r | reflexivity]. }
  split.
  - intros e c1 Hlogin.
    pose proof (keeps_run (login_keeps fuel) Hlogin) as ((H1 & H2 & _) & H3 & _).
    repeat split; try assumption.
    unfold products. unfold bind at 1, gets at 1. rewrite Hgo.
    unfold bind at 1. rewrite Hlogin. reflexivity.
  - intros details c1 r c2 Hlogin Hreq Hr.
    pose proof (keeps_run (request_default_keeps _ _ _ _ _) Hreq)
      as ((H1 & H2 & _) & H3 & _).
    cbn [all_products product_types total_cost set_product_types set_all_products
           set_total_cost] in H1, H2, H3.
    assert (Hrun : products utils runtime config fuel force c
                   = match r with
                     | Ret None => (Raise (TelenetServiceException no_products_message), c2)
                     | Ret (Some response) => products utils runtime config fuel force c
                     | Raise e => (Raise e, c2)
                     | Continue => (Continue, c2)
                     | OutOfFuel => (OutOfFuel, c2)
                     end).
    { destruct r as [[response|]| | |]; [reflexivity| | | |];
        unfold products; unfold bind at 1, gets at 1; rewrite Hgo;
        unfold bind at 1; rewrite Hlogin;
        unfold bind at 1, modify at 1; unfold bind at 1, modify at 1;
        unfold bind at 1, modify at 1; unfold bind at 1; rewrite Hreq; reflexivity. }
    destruct r as [[response|]| | |]; [now elim (Hr response)| | | |];
      rewrite Hrun; repeat split; try assumption; intros l; discriminate.
Qed.

(** X19: The branches of the synthesis look at what the usage endpoints
    return: the soft failure of the usage of an internet product, of the
    usage or of the device details of a television product, and of the
    usage of a standalone mobile line is the [continue] of the loop over
    the products, and [new_products] is then as it was: the product gets
    no sensor from its branch, and no exception is raised.  The same holds
    of a line under a bundle whose own usage fails (the user record being
    a mapping). *)
Theorem soft_failure_of_usage_skips_the_product :
  forall fuel product (c c1 c2 c3 : Client W) (np : Products) billcycle,
    let type := product_type product in
    let identifier := product_identifier product in
    let start_date :=
      match jdict_get "start_date" billcycle with Some v => v | None => JNull end in
    let end_date :=
      match jdict_get "end_date" billcycle with Some v => v | None => JNull end in
    (forall specs,
        bill_cycles utils runtime config fuel type identifier 2 c
        = (Ret (JObj billcycle), c1) ->
        product_usage utils runtime config fuel type identifier start_date end_date c1
        = (Ret PyFalse, c2) ->
        internet_sensors utils runtime config fuel product specs (c, np)
        = (Continue, (c2, np)))
    /\ (forall attr,
           product_ignore_extra_sensor product = false ->
           bill_cycles utils runtime config fuel type identifier 1 c
           = (Ret (JObj billcycle), c1) ->
           product_usage utils runtime config fuel type identifier start_date end_date c1
           = (Ret PyFalse, c2) ->
           dtv_sensors utils runtime config fuel product attr (c, np)
           = (Continue, (c2, np)))
    /\ (forall attr usage,
           product_ignore_extra_sensor product = false ->
           bill_cycles utils runtime config fuel type identifier 1 c
           = (Ret (JObj billcycle), c1) ->
           product_usage utils runtime config fuel type identifier start_date end_date c1
           = (Ret usage, c2) ->
           is_False usage = false ->
           device_details utils runtime config fuel type identifier c2
           = (Ret PyFalse, c3) ->
           dtv_sensors utils runtime config fuel product attr (c, np)
           = (Continue, (c3, np)))
    /\ (forall attr,
           mobile_usage utils runtime config fuel identifier c = (Ret PyFalse, c1) ->
           mobile_standalone_sensors utils runtime config fuel product attr (c, np)
           = (Continue, (c1, np)))
    /\ (forall attr details,
           user_details c = JObj details ->
           mobile_bundle_usage utils runtime config fuel (product_plan_identifier product)
             identifier c = (Ret PyFalse, c1) ->
           mobile_bundle_line_sensors utils runtime config fuel product attr (c, np)
           = (Continue, (c1, np))).
Proof.
  intros fuel product c c1 c2 c3 np billcycle type identifier start_date end_date.
  assert (Hdtv : forall attr,
             product_ignore_extra_sensor product = false ->
             bill_cycles utils runtime config fuel type identifier 1 c
             = (Ret (JObj billcycle), c1) ->
             dtv_sensors utils runtime config fuel product attr (c, np)
             = (usage <- on_client
                  (product_usage utils runtime config fuel type identifier start_date
                     end_date) ;;
                if is_False usage then continue_
                else
                  devices <- on_client
                    (device_details utils runtime config fuel type identifier) ;;
                  if is_False devices then continue_
                  else
                    current <- path utils usage "$.dtv.totalUsage.currentUsage" ;;
                    cost <- pure_ (str_to_float utils current) ;;
                    add_to_total_cost runtime cost ;;
                    current <- path utils usage "$.dtv.totalUsage.currentUsage" ;;
                    state <- pure_ (str_to_float utils current) ;;
                    dtv <- path utils usage "$.dtv" ;;
                    attributes <- pure_ (create_extra_attributes_list dtv) ;;
                    attributes <- merged attributes attr ;;
                    emit utils runtime product (JStr "usage") "euro" state attributes
                      false JNull ;;
                    boxes <- field "dtv" devices ;;
                    boxes <- pure_ (py_iter boxes) ;;
                    dtv_devices utils runtime product devices 0 boxes) (c1, np)).
  { intros attr Hi Hb. unfold dtv_sensors. rewrite Hi. cbn [negb].
    unfold bind at 1, on_client at 1. cbn [fst snd]. fold type identifier. rewrite Hb.
    unfold bind at 1, field at 1, pure_ at 1, lift_outcome at 1. cbn [py_get].
    unfold bind at 1, field at 1, pure_ at 1, lift_outcome at 1. cbn [py_get].
    reflexivity. }
  split; [|split; [|split; [|split]]].
  - intros specs Hb Hu. now apply internet_sensors_without_usage with (1 := Hb).
  - intros attr Hi Hb Hu. rewrite (Hdtv attr Hi Hb).
    unfold bind at 1, on_client at 1. cbn [fst snd]. rewrite Hu. reflexivity.
  - intros attr usage Hi Hb Hu Hf Hd. rewrite (Hdtv attr Hi Hb).
    unfold bind at 1, on_client at 1. cbn [fst snd]. rewrite Hu, Hf.
    unfold bind at 1, on_client at 1. cbn [fst snd]. rewrite Hd. reflexivity.
  - intros attr Hm. unfold mobile_standalone_sensors.
    unfold bind at 1, on_client at 1. cbn [fst snd]. fold identifier. rewrite Hm.
    reflexivity.
  - intros attr details Hd Hm. unfold mobile_bundle_line_sensors.
    unfold bind at 1, on_client at 1, gets at 1. cbn [fst snd]. rewrite Hd.
    unfold bind at 1, field at 1, pure_ at 1, lift_outcome at 1. cbn [py_get].
    unfold bind at 1, on_client at 1. cbn [fst snd]. fold identifier. rewrite Hm.
    reflexivity.
Qed.

(* --------------------------------------------------------------------- *)
(** *** What the discovery keeps *)
(* --------------------------------------------------------------------- *)

Lemma products_kept_registry (c c' : Client W) : products_kept c c' -> registry_kept c c'.
Proof. intros (H1 & H2). split; [now rewrite H1 | exact H2]. Qed.

Lemma session_only_registry (c c' : Client W) : session_only c c' -> registry_kept c c'.
Proof. intros H. now apply products_kept_registry, session_only_products. Qed.

Lemma request_default_keeps_registry fuel url caller data expected :
  Keeps (@registry_kept W)
    (request_default utils runtime config fuel url caller data expected).
Proof.
  eapply keeps_weaken; [apply session_only_registry | apply request_default_keeps].
Qed.

Lemma add_product_keeps fuel product plan_identifier state_prop plan_label :
  Keeps (@registry_kept W)
    (add_product utils runtime config fuel product plan_identifier state_prop plan_label).
Proof.
  eapply keeps_weaken; [apply products_kept_registry | apply add_product_keeps_products].
Qed.

Hint Resolve request_default_keeps_registry add_product_keeps : keeps.

Lemma register_options_keeps fuel product plan_identifier plan_label :
  Keeps (@registry_kept W)
    (register_options utils runtime config fuel product plan_identifier plan_label).
Proof. unfold register_options. keeps. Qed.

Hint Resolve register_options_keeps : keeps.

Lemma register_children_keeps fuel children plan_identifier plan_label :
  forall dtv_found,
    Keeps (@registry_kept W)
      (register_children utils runtime config fuel children plan_identifier plan_label
         dtv_found).
Proof.
  induction children as [|product rest IH]; intros dtv_found; cbn [register_children];
    keeps.
Qed.

Hint Resolve register_children_keeps : keeps.

Lemma outline_set k p p' (table : Products) :
  products_get k table = Some p ->
  product_extra_sensor p' = product_extra_sensor p ->
  outline (products_set k p' table) = outline table.
Proof.
  unfold products_get, products_set, outline.
  induction table as [|[k0 v0] table IH]; cbn [dict_get dict_set map fst snd];
    [discriminate|].
  destruct (PyKey_eqb k k0) eqn:E; cbn [map fst snd].
  - intros H Hp. inversion H; subst. apply PyKey_eqb_eq in E. subst k0.
    now rewrite Hp.
  - intros H Hp. now rewrite IH.
Qed.

(** A record of the table replaced by a copy that differs in a field
    other than [product_extra_sensor]. *)
Lemma update_record_keeps k (f : TelenetProduct -> TelenetProduct) e :
  (forall p, product_extra_sensor (f p) = product_extra_sensor p) ->
  Keeps (@registry_kept W)
    (found <- gets (fun c => products_get k (all_products c)) ;;
     match found with
     | None => raise e
     | Some p =>
         modify (fun c =>
           set_all_products (products_set k (f p) (all_products c)) c)
     end).
Proof.
  intros Hf c. unfold bind, gets, raise, modify.
  destruct (products_get k (all_products c)) as [p|] eqn:E; cbn [snd];
    [|apply frame_refl].
  split; cbn [all_products product_types set_all_products]; [|reflexivity].
  now apply outline_set with (p := p).
Qed.

Lemma register_plan_keeps fuel plan :
  Keeps (@registry_kept W) (register_plan utils runtime config fuel plan).
Proof.
  unfold register_plan.
  do 7 (apply keeps_bind; [typeclasses eauto | solve [keeps] | intro]).
  match goal with |- Keeps _ (if ?b then _ else _) => destruct b end; [|keeps].
  apply keeps_bind; [typeclasses eauto | solve [keeps] | intro].
  apply (update_record_keeps _ (set_ignore_extra_sensor true)). reflexivity.
Qed.

Lemma product_subscriptions_keeps fuel :
  Keeps (@registry_kept W) (product_subscriptions utils runtime config fuel).
Proof.
  unfold product_subscriptions.
  apply keeps_bind; [typeclasses eauto | solve [keeps] | intro types].
  apply keeps_for_each; [typeclasses eauto | intro type].
  do 2 (apply keeps_bind; [typeclasses eauto | solve [keeps] | intro]).
  match goal with |- Keeps _ (match ?r with _ => _ end) => destruct r end; [|keeps].
  do 2 (apply keeps_bind; [typeclasses eauto | solve [keeps] | intro]).
  apply keeps_for_each; [typeclasses eauto | intro product].
  do 2 (apply keeps_bind; [typeclasses eauto | solve [keeps] | intro]).
  apply (update_record_keeps _ (set_subscription_info product)). reflexivity.
Qed.

(** X26: the discovery adds nothing to the product table.  Whatever the
    portal answers and however they end, registering a plan with its
    children and their options ([products], lines 274-312) and attaching
    the subscription records ([product_subscriptions]) leave the table
    with the keys it had, in their order, with the same kind of record
    under each, and leave the product types as they were: every
    [add_product] for a new identifier ends in the constructor call of
    line 230. *)
Theorem discovery_adds_no_product :
  forall fuel plan (c : Client W),
    registry_kept c (snd (register_plan utils runtime config fuel plan c))
    /\ registry_kept c (snd (product_subscriptions utils runtime config fuel c)).
Proof.
  intros fuel plan c. split; [apply register_plan_keeps | apply product_subscriptions_keeps].
Qed.

(* --------------------------------------------------------------------- *)
(** *** What a pass delivers *)
(* --------------------------------------------------------------------- *)

Lemma set_plan_products_keeps (f : Client W -> list (PyKey * Json)) :
  Keeps (@registry_kept W) (modify (fun c => set_plan_products (f c) c)).
Proof. intros c. split; reflexivity. Qed.

Lemma plan_info_keeps fuel : Keeps (@registry_kept W) (plan_info utils runtime config fuel).
Proof.
  unfold plan_info.
  apply keeps_bind; [typeclasses eauto | exact (set_plan_products_keeps (fun _ => [])) | intros _].
  keeps; match goal with |- Keeps _ (modify _) => apply set_plan_products_keeps end.
Qed.

Lemma outline_nil (table : Products) : outline table = outline [] -> table = [].
Proof. destruct table; [reflexivity | discriminate]. Qed.

(** The pass of [products] once the table has been reset and the active
    products have been answered: the discovery, the subscriptions, the
    plans and the synthesis, which does not return. *)
Lemma discovery_pass fuel (plans : list Json) (c : Client W) :
  let pass :=
    (for_each plans (register_plan utils runtime config fuel) ;;
     product_subscriptions utils runtime config fuel ;;
     plan_info utils runtime config fuel ;;
     create_extra_sensors utils runtime config fuel ;;
     set_extra_attributes ;;
     gets product_list) c in
  returned (fst pass) = false /\ registry_kept c (snd pass).
Proof.
  cbv zeta. split.
  - apply bind_never_returns; intros _ ca.
    apply bind_never_returns; intros _ cb.
    apply bind_never_returns; intros _ cc.
    unfold bind at 1.
    pose proof (proj1 (create_extra_sensors_run fuel cc)) as Hr.
    destruct (create_extra_sensors utils runtime config fuel cc) as [[b| | |] cd];
      [discriminate | reflexivity ..].
  - revert c.
    change (Keeps (@registry_kept W)
              (for_each plans (register_plan utils runtime config fuel) ;;
               product_subscriptions utils runtime config fuel ;;
               plan_info utils runtime config fuel ;;
               create_extra_sensors utils runtime config fuel ;;
               set_extra_attributes ;;
               gets product_list)).
    pose proof (register_plan_keeps fuel).
    apply keeps_bind; [typeclasses eauto | solve [keeps] | intros _].
    apply keeps_bind; [typeclasses eauto | apply product_subscriptions_keeps | intros _].
    apply keeps_bind; [typeclasses eauto | apply plan_info_keeps | intros _].
    intros c. unfold bind at 1.
    pose proof (create_extra_sensors_run fuel c) as (Hr & Hk).
    destruct (create_extra_sensors utils runtime config fuel c) as [[b| | |] s2];
      [discriminate | exact Hk ..].
Qed.

(** A refresh: the table after it is the table of before (the login has
    failed) or empty, and no list is returned. *)
Lemma products_refresh fuel force (c : Client W) :
  Nat.ltb 0 (List.length (all_products c)) && negb force = false ->
  let run := products utils runtime config fuel force c in
  returned (fst run) = false
  /\ (all_products (snd run) = all_products c \/ all_products (snd run) = []).
Proof.
  intros Hgo. cbv zeta.
  set (P := fun r : outcome (list TelenetProduct) * Client W =>
              returned (fst r) = false
              /\ (all_products (snd r) = all_products c \/ all_products (snd r) = [])).
  change (P (products utils runtime config fuel force c)).
  unfold products. unfold bind at 1, gets at 1. rewrite Hgo.
  unfold bind at 1.
  pose proof (login_keeps fuel c) as ((Hall & _) & _).
  destruct (login utils runtime config fuel c) as [[details| | |] c1];
    cbn [snd] in Hall; try (split; [reflexivity | now left]).
  unfold bind at 1, modify at 1. unfold bind at 1, modify at 1.
  unfold bind at 1, modify at 1. unfold bind at 1.
  match goal with
  | |- context [request_default utils runtime config fuel ?u ?n ?d ?e ?s] =>
      pose proof (request_default_keeps fuel u n d e s) as ((Hnil & _) & _);
      destruct (request_default utils runtime config fuel u n d e s)
        as [[[response|]| | |] c2]
  end; cbn [snd all_products set_all_products set_product_types set_total_cost] in Hnil;
    try (split; [reflexivity | now right]).
  unfold bind at 1, response_json at 1.
  destruct (json_body response) as [j|]; [|split; [reflexivity | now right]].
  unfold ret at 1. unfold bind at 1, lift_outcome at 1.
  destruct (py_iter j) as [plans| | |]; try (split; [reflexivity | now right]).
  destruct (discovery_pass fuel plans c2) as (Hr & Hk & _).
  split; [exact Hr|]. right. apply outline_nil. now rewrite Hk, Hnil.
Qed.

(** X24: [products] returns a list only from the table: a call that
    returns was made without [force_refresh] on a table that holds
    something, and it returns the records of that table, sends nothing and
    leaves the client as it is.  A refresh never returns, and the table it
    leaves is the one of before (when the login has failed) or empty. *)
Theorem products_returns_only_from_the_table :
  forall fuel force (c : Client W),
    let run := products utils runtime config fuel force c in
    (all_products (snd run) = all_products c \/ all_products (snd run) = [])
    /\ match fst run with
       | Ret l =>
           force = false /\ Nat.ltb 0 (List.length (all_products c)) = true
           /\ l = product_list c /\ snd run = c
       | _ => True
       end.
Proof.
  intros fuel force c. cbv zeta.
  destruct (Nat.ltb 0 (List.length (all_products c)) && negb force) eqn:Hgo.
  - apply andb_true_iff in Hgo. destruct Hgo as (Hlen & Hforce).
    apply negb_true_iff in Hforce.
    unfold products. unfold bind, gets. rewrite Hlen, Hforce. cbn [andb negb fst snd].
    split; [now left | repeat split; assumption].
  - destruct (products_refresh fuel force c Hgo) as (Hr & Ht).
    split; [exact Ht|].
    destruct (fst (products utils runtime config fuel force c)); [discriminate | exact I ..].
Qed.

(** X28: A client never gets a product.  On a client whose table is empty,
    as [__init__] leaves it, [products] does not return, whatever the
    portal answers, and leaves the table empty: the next call starts from
    the same place.  (The pass ends in an exception of the login or of a
    request, in the "No products found" error, in the [TypeError] of the
    first [add_product], or, for an account without products, in the
    [TypeError] of the invoice sensor.) *)
Theorem products_never_delivers :
  forall fuel force (c : Client W),
    all_products c = [] ->
    let run := products utils runtime config fuel force c in
    returned (fst run) = false /\ all_products (snd run) = [].
Proof.
  intros fuel force c Hnil. cbv zeta.
  destruct (products_refresh fuel force c) as (Hr & Ht).
  - now rewrite Hnil.
  - split; [exact Hr|]. destruct Ht as [Ht | Ht]; [now rewrite Ht | exact Ht].
Qed.



End Coverage.

(* ===================================================================== *)
(** ** More of the client at work *)
(* ===================================================================== *)

Section CoverageExamples.
Import Sample.
Import Fixture.

(** The answer that follows the 403 without a code has the expected
    status. *)
Lemma request_returns_the_expected_status_witness :
  status_code (json_response 200 products_url (JArr [])) = 200
  /\ xsrf_header
       (snd (request utils runtime account 3 (JStr products_url)
               "[TelenetClient|products]" None (Some 200) false 3
               (client forbidden_once)))
     = JStr "xsrf".
Proof.
  apply (@request_returns_the_expected_status Portal portal_transport utils runtime
           account 3 (JStr products_url) "[TelenetClient|products]" None 200 false 3
           (client forbidden_once)).
  vm_compute. reflexivity.
Defined.

(** The 404 of the account that is not migrated, and the 502 of the
    gateway. *)
Lemma request_settles_without_login_witness :
  request utils runtime account 3 (JStr products_url) "[TelenetClient|products]"
    None (Some 200) false 3 (client [route 404 products_url (JObj [("message", JStr "Not found")])])
  = (Ret None,
     set_request_error (JObj [("message", JStr "Not found")])
       (after_send (request_of (JStr products_url) None
                      (client [route 404 products_url (JObj [("message", JStr "Not found")])]))
          [route 404 products_url (JObj [("message", JStr "Not found")])]
          (client [route 404 products_url (JObj [("message", JStr "Not found")])])))
  /\ fst (request utils runtime account 3 (JStr products_url) "[TelenetClient|products]"
            None (Some 200) false 3 (client bad_gateway))
     = Raise (TelenetServiceException
                (unexpected_status_message "[TelenetClient|products]" 200
                   (json_response 502 products_url
                      (JObj [("message", JStr "Bad gateway")])))).
Proof.
  split.
  - apply (proj1 (proj2 (@request_settles_without_login Portal portal_transport utils
                           runtime account 2 (JStr products_url)
                           "[TelenetClient|products]" None 200 false 3
                           (client [route 404 products_url
                                      (JObj [("message", JStr "Not found")])])
                           _ _ eq_refl ltac:(discriminate)))); reflexivity.
  - rewrite (proj2 (proj2 (@request_settles_without_login Portal portal_transport utils
                             runtime account 2 (JStr products_url)
                             "[TelenetClient|products]" None 200 false 3
                             (client bad_gateway) _ _ eq_refl ltac:(discriminate)))
               ltac:(discriminate) ltac:(discriminate) ltac:(discriminate)
               ltac:(discriminate) ltac:(reflexivity) eq_refl).
    reflexivity.
Defined.

(** The 403 without a code, the valid session, the answer proper. *)
Lemma request_recovers_after_login_witness :
  fst (request utils runtime account 2 (JStr products_url) "[TelenetClient|products]"
         None (Some 200) false 3 (client forbidden_once))
  = Ret (Some (json_response 200 products_url (JArr [])))
  /\ map req_url
       (sent (snd (request utils runtime account 2 (JStr products_url)
                     "[TelenetClient|products]" None (Some 200) false 3
                     (client forbidden_once))))
     = [JStr products_url; JStr (probe_url account); JStr products_url].
Proof.
  destruct (@request_recovers_after_login Portal portal_transport utils runtime account
              0 (JStr products_url) "[TelenetClient|products]" None 200 false 3
              (client forbidden_once) _ _ _ _ user_record _ _
              eq_refl ltac:(discriminate)
              (or_intror (or_intror (conj eq_refl eq_refl)))
              eq_refl eq_refl eq_refl eq_refl eq_refl) as (H & _).
  rewrite H. split; reflexivity.
Defined.

(** A client with a stale user record in front of a valid session. *)
Lemma login_on_a_valid_session_stores_nothing_witness :
  exists c',
    login utils runtime account 1
      (set_user_details (JObj [("customer_number", JStr "old")]) (client [logged_in]))
    = (Ret user_record, c')
    /\ user_details c' = JObj [("customer_number", JStr "old")]
    /\ sent c'
       = (sent (set_user_details (JObj [("customer_number", JStr "old")])
                  (client [logged_in]))
          ++ [request_of (JStr (probe_url account)) None
                (set_user_details (JObj [("customer_number", JStr "old")])
                   (client [logged_in]))])%list.
Proof.
  apply (@login_on_a_valid_session_stores_nothing Portal portal_transport utils runtime
           account 0
           (set_user_details (JObj [("customer_number", JStr "old")]) (client [logged_in]))
           (json_response 200 (probe_url account) user_record) [logged_in] user_record);
    reflexivity.
Defined.

Lemma login_refuses_other_statuses_witness :
  fst (login utils runtime account 1 (client maintenance))
  = Raise (TelenetServiceException
             "HTTP 503 error while authenticating https://api.prd.telenet.be/ocapi/oauth/userdetails").
Proof.
  rewrite (@login_refuses_other_statuses Portal portal_transport utils runtime account 0
             (client maintenance) _ _ eq_refl); [reflexivity | discriminate ..].
Defined.

(** With [CONNECTION_RETRY] at 3, the fifth probe is the last. *)
Lemma login_gives_up_without_tokens_witness :
  exists c',
    login utils runtime account 5 (client tokenless)
    = (Raise (TelenetServiceException
                ("HTTP 401 not returning the tokens for " ++ probe_url account)), c')
    /\ List.length (sent c') = 5%nat.
Proof.
  apply (@login_gives_up_without_tokens Portal portal_transport utils runtime account
           (fun w => w = tokenless) (probe_url account)).
  - cbn. lia.
  - intros rq w -> Hu. cbn [send portal_transport]. rewrite Hu.
    eexists. eexists. repeat split. left. reflexivity. discriminate.
  - reflexivity.
  - cbn. lia.
Defined.

Lemma login_authorize_failure_is_a_type_error_witness :
  fst (login utils runtime account 1 (client handshake_off_page)) = Raise TypeError.
Proof.
  erewrite (@login_authorize_failure_is_a_type_error Portal portal_transport utils runtime
              account 0 (client handshake_off_page) _ _ "st4te" "n0nce");
    [ reflexivity
    | reflexivity
    | left; reflexivity
    | reflexivity
    | cbn; lia
    | reflexivity
    | right; reflexivity ].
Defined.

Lemma login_bad_credentials_witness :
  fst (login utils runtime account 1 (client handshake_refused))
  = Raise (BadCredentialsException "Wrong password").
Proof.
  destruct (@login_bad_credentials Portal portal_transport utils runtime account 0
              (client handshake_refused) _ _ "st4te" "n0nce" _ _ _ _
              eq_refl (or_introl eq_refl) eq_refl ltac:(cbn; lia)
              eq_refl eq_refl eq_refl eq_refl eq_refl eq_refl) as (H & _).
  rewrite H. reflexivity.
Defined.


(** The type [internet] added to a client that knows the type [mobile]. *)
Lemma add_product_type_adds_once_witness :
  let c := set_product_types [JStr "mobile"] (client []) in
  let c' := snd (add_product_type (JStr "internet") c) in
  all_strings (product_types c') = true
  /\ existsb (Json_eqb (JStr "internet")) (product_types c') = true
  /\ (exists added, product_types c' = (product_types c ++ added)%list)
  /\ distinct (product_types c') = distinct (product_types c)
  /\ snd (add_product_type (JStr "internet") c') = c'.
Proof.
  apply (@add_product_type_adds_once Portal "internet"
           (set_product_types [JStr "mobile"] (client []))).
  reflexivity.
Defined.

(** The cycle of the internet product whose daily usage is refused: the
    loop ends with the lists as they were, after one request. *)
Lemma daily_cycles_skips_unanswered_cycle_witness :
  let run :=
    daily_cycles utils runtime account depth (JStr "internet") (JStr "i1234567")
      [JObj internet_cycle]
      {| by_cycle := []; daily_peak := []; daily_off_peak := []; daily_total := [];
         daily_date := [] |}
      (client daily_usage_refused, ([] : Products)) in
  fst run
  = Ret {| by_cycle := []; daily_peak := []; daily_off_peak := []; daily_total := [];
           daily_date := [] |}
  /\ map req_url (sent (fst (snd run))) = [JStr daily_usage_url].
Proof.
  cbv zeta.
  rewrite (@daily_cycles_skips_unanswered_cycle Portal portal_transport utils runtime
             account 3 (JStr "internet") (JStr "i1234567") internet_cycle [] _
             (client daily_usage_refused) [] _ _ eq_refl ltac:(discriminate)).
  split; reflexivity.
Defined.

(** The bill cycles of the internet product. *)
Lemma bill_cycles_reads_the_first_cycle_witness :
  fst (bill_cycles utils runtime account depth (JStr "internet") (JStr "i1234567") 2
         (client internet_routes))
  = Ret (JObj [("start_date", JStr "2023-06-01"); ("end_date", JStr "2023-06-30");
               ("cycles", JArr [JObj internet_cycle])]).
Proof.
  erewrite (@bill_cycles_reads_the_first_cycle Portal portal_transport utils runtime
              account depth (JStr "internet") (JStr "i1234567") 2
              (client internet_routes) _ _ _ [JObj internet_cycle]);
    [ reflexivity | vm_compute; reflexivity | reflexivity | reflexivity ].
Defined.

(** The two plans of the portal, looked up by their identifiers. *)
Lemma plan_info_indexes_the_answer_witness :
  exists c',
    plan_info utils runtime account depth (client plans_portal) = (Ret PyFalse, c')
    /\ (forall k plan,
           dict_get PyKey_eqb k (plan_products c') = Some plan ->
           In plan [plan_king; plan_internet] /\ record_key plan = Some k)
    /\ (forall plan k,
           In plan [plan_king; plan_internet] -> record_key plan = Some k ->
           exists found, dict_get PyKey_eqb k (plan_products c') = Some found)
    /\ all_products c' = [].
Proof.
  eapply (@plan_info_indexes_the_answer Portal portal_transport utils runtime account
            depth (client plans_portal)).
  - vm_compute. reflexivity.
  - reflexivity.
  - intros plan [<- | [<- | []]]; eexists; reflexivity.
Defined.

(** The subscription of a telephone product that the table does not
    know. *)
Lemma subscription_of_unknown_product_is_a_key_error_witness :
  fst (product_subscriptions utils runtime account depth
         (set_product_types [JStr "telephone"] (client telephone_subscriptions)))
  = Raise KeyError.
Proof.
  erewrite (@subscription_of_unknown_product_is_a_key_error Portal portal_transport
              utils runtime account depth
              (set_product_types [JStr "telephone"] (client telephone_subscriptions))
              _ (JStr "telephone") [] "TELEPHONE" _ telephone_subscription []
              (KStr "t09123456"));
    [ reflexivity | reflexivity | reflexivity | vm_compute; reflexivity
    | reflexivity | reflexivity | reflexivity ].
Defined.

(** The subscription of the telephone product that the table holds. *)
Lemma product_subscriptions_on_one_type_witness :
  exists c',
    product_subscriptions utils runtime account depth
      (set_product_types [JStr "telephone"]
         (holding [(KStr "t09123456", telephone_product)]
            (client telephone_subscriptions))) = (Ret tt, c')
    /\ option_map product_subscription_info
         (products_get (KStr "t09123456") (all_products c'))
       = Some telephone_subscription.
Proof.
  pose (c := set_product_types [JStr "telephone"]
               (holding [(KStr "t09123456", telephone_product)]
                  (client telephone_subscriptions))).
  pose (c1 := snd (request_default utils runtime account depth
                     (JStr telephone_subscriptions_url)
                     "[TelenetClient|product_subscriptions]" None (Some 200) c)).
  destruct (proj2 (@product_subscriptions_on_one_type Portal portal_transport utils runtime
                     account depth c c1 (JStr "telephone") "TELEPHONE"
                     eq_refl eq_refl)
              (json_response 200 telephone_subscriptions_url (JArr [telephone_subscription]))
              telephone_subscription (KStr "t09123456") telephone_product
              ltac:(vm_compute; reflexivity) eq_refl eq_refl eq_refl)
    as (c' & Hrun & Hget & _).
  exists c'. split; [exact Hrun|]. rewrite Hget. reflexivity.
Defined.


(** A table that holds one derived sensor: nothing to project. *)
Lemma set_extra_attributes_skips_derived_sensors_witness :
  let c := holding [(KStr "i1234567_internet_usage", usage_sensor)] (client []) in
  set_extra_attributes c = (Ret true, c).
Proof.
  cbv zeta.
  apply (@set_extra_attributes_skips_derived_sensors Portal
           (holding [(KStr "i1234567_internet_usage", usage_sensor)] (client []))).
  repeat constructor.
Defined.

(** The account sensors of the known user. *)
Lemma account_sensors_end_in_a_type_error_witness :
  account_sensors utils runtime (known_user [], ([] : Products))
  = (Raise TypeError, (known_user [], [])).
Proof.
  apply (@account_sensors_end_in_a_type_error Portal utils runtime (known_user []) []
           [("customer_number", JStr "1234567"); ("first_name", JStr "An");
            ("identity_id", JStr "id-1")]).
  reflexivity.
Defined.

(** A refresh of a client that holds the mobile line, against a portal
    whose active-products endpoint is not found: the line is gone. *)
Lemma products_refresh_that_fails_witness :
  let c := holding [(KStr "0470123456", mobile_product)] (client unmigrated_account) in
  all_products (snd (products utils runtime account depth true c)) = [].
Proof.
  cbv zeta.
  pose (c := holding [(KStr "0470123456", mobile_product)] (client unmigrated_account)).
  pose (c1 := snd (login utils runtime account depth c)).
  pose (run := request_default utils runtime account depth (JStr products_url)
                 "[TelenetClient|products]" None (Some 200)
                 (set_product_types []
                    (set_all_products [] (set_total_cost (JInt 0) c1)))).
  destruct (proj2 (@products_refresh_that_fails Portal portal_transport utils runtime
                     account depth true c (or_introl eq_refl))
              user_record c1 (fst run) (snd run)
              ltac:(vm_compute; reflexivity) ltac:(vm_compute; reflexivity)
              ltac:(intros response; vm_compute; discriminate))
    as (Hsnd & _ & Hall & _).
  fold c. rewrite Hsnd. exact Hall.
Defined.

(** The pass over the account without products. *)
Lemma products_never_delivers_witness :
  let run := products utils runtime account depth false (client empty_account) in
  returned (fst run) = false /\ all_products (snd run) = [].
Proof.
  apply (@products_never_delivers Portal portal_transport utils runtime account depth
           false (client empty_account)).
  reflexivity.
Defined.


(** The 401 of the endpoint, then the probe that no server answers. *)
Lemma transport_errors_are_not_retried_witness :
  fst (request utils runtime account 2 (JStr products_url) "[TelenetClient|products]"
         None (Some 200) false 3 (client login_unreachable))
  = Raise (TransportError "ConnectionError")
  /\ map req_url
       (sent (snd (request utils runtime account 2 (JStr products_url)
                     "[TelenetClient|products]" None (Some 200) false 3
                     (client login_unreachable))))
     = [JStr products_url; JStr (probe_url account)].
Proof.
  rewrite (proj2 (@transport_errors_are_not_retried Portal portal_transport utils runtime
                    account 0 (JStr products_url) "[TelenetClient|products]" None 200
                    false 3 (client login_unreachable))
             _ _ (TransportError "ConnectionError") _
             eq_refl ltac:(discriminate) (or_introl eq_refl) eq_refl).
  split; reflexivity.
Defined.

End CoverageExamples.
